(** * MODIS LST to air temperature calibration (code-gee.js)

    A shallow embedding of the Earth Engine script [src/code-gee.js] and of
    the part of the Earth Engine client API it calls.

    Conventions of the embedding:
    - the platform computes pixel arithmetic in IEEE 754 binary64. The
      operations whose numeric results are themselves the subject of a
      property (the rescale of the LST extractor and the blend of the
      calibrator) are embedded over Rocq's primitive binary64 floats in the
      module [Binary64]. The pipeline as a whole (series, masks, band names,
      timestamps, aggregates, regional reductions) is embedded over exact
      rationals [Q]: a value there is the script's expression read in exact
      arithmetic, and the binary64 value differs from it by the rounding of
      each operation;
    - integer pixel types (digital numbers, quality flags) are [Z];
    - a raster band is a function from pixel locations to [option] values,
      [None] being a masked (no-data) pixel;
    - every platform call that can reject its arguments returns a [result].
      Each output statement of the script ([Map.addLayer], [print],
      [Export.image.toDrive]) is evaluated by the platform on its own, so
      each has a [result] of its own: the definition that carries the name
      of the variable it shows;
    - timestamps are milliseconds since 1970-01-01T00:00:00Z. *)

From Stdlib Require Import Ascii String QArith Qabs Qround Qminmax Lqa ZArith Lia Floats.
From stdpp Require Import gmap strings list fin_maps.

#[local] Set Warnings "-inexact-float".
Local Open Scope Z_scope.

(** ** Platform errors and the [result] monad *)

Inductive EEError : Type :=
| ParameterRequired (algorithm parameter : string)
| BandNotFound (algorithm band : string)
| BandCountMismatch (algorithm : string)
| PropertyMissing (algorithm property : string)
| InvalidDate (text : string)
| TooManyPixels (algorithm : string).

Inductive result (A : Type) : Type :=
| Ok (a : A)
| Err (e : EEError).
Arguments Ok {A} a.
Arguments Err {A} e.

#[global] Instance result_ret : MRet result := @Ok.
#[global] Instance result_bind : MBind result :=
  fun A B f m => match m with Ok a => f a | Err e => Err e end.
#[global] Instance result_fmap : FMap result :=
  fun A B f m => match m with Ok a => Ok (f a) | Err e => Err e end.

Definition is_Ok {A} (r : result A) : bool :=
  match r with Ok _ => true | Err _ => false end.

(** A computed object that may be [null] (here [None]) is rejected by the
    algorithm that receives it as a required parameter. *)
Definition required {A} (algorithm parameter : string) (o : option A) : result A :=
  match o with
  | Some a => Ok a
  | None => Err (ParameterRequired algorithm parameter)
  end.

(** ** Dates *)

(** Days from 1970-01-01 to the civil date [y-m-d] (proleptic Gregorian). *)
Definition days_from_civil (y m d : Z) : Z :=
  let y' := if m <=? 2 then y - 1 else y in
  let era := y' / 400 in
  let yoe := y' - era * 400 in
  let mp := if m <=? 2 then m + 9 else m - 3 in
  let doy := (153 * mp + 2) / 5 + d - 1 in
  let doe := yoe * 365 + yoe / 4 - yoe / 100 + doy in
  era * 146097 + doe - 719468.

Definition millis_per_day : Z := 86400000.

Definition digit (c : ascii) : option Z :=
  let n := Z.of_nat (nat_of_ascii c) - 48 in
  if (0 <=? n) && (n <=? 9) then Some n else None.

Fixpoint digits (s : string) (acc : Z) : option Z :=
  match s with
  | EmptyString => Some acc
  | String c s' =>
      match digit c with
      | Some d => digits s' (acc * 10 + d)
      | None => None
      end
  end.

(** [ee.Date('YYYY-MM-DD')]: midnight UTC of that day. *)
Definition Date_fromString (s : string) : result Z :=
  let bad := Err (InvalidDate s) in
  if negb (Nat.eqb (String.length s) 10) then bad
  else if negb (String.eqb (substring 4 1 s) "-" && String.eqb (substring 7 1 s) "-") then bad
  else
    match digits (substring 0 4 s) 0, digits (substring 5 2 s) 0, digits (substring 8 2 s) 0 with
    | Some y, Some m, Some d =>
        if (1 <=? m) && (m <=? 12) && (1 <=? d) && (d <=? 31)
        then Ok (days_from_civil y m d * millis_per_day)
        else bad
    | _, _, _ => bad
    end.

(** ** Images *)

Definition Pixel : Type := Z * Z.

Definition Band (V : Type) : Type := Pixel -> option V.

Record Image (V : Type) : Type := mkImage {
  bands : list (string * Band V);
  properties : gmap string Z
}.
Arguments mkImage {V} bands properties.
Arguments bands {V} i.
Arguments properties {V} i.

Fixpoint lookup_band {V} (name : string) (bs : list (string * Band V)) : option (Band V) :=
  match bs with
  | [] => None
  | (n, b) :: bs' => if String.eqb n name then Some b else lookup_band name bs'
  end.

(** The value of band [name] of [img] at pixel [p]; [None] when the band is
    absent or the pixel is masked. *)
Definition pixel {V} (img : Image V) (name : string) (p : Pixel) : option V :=
  match lookup_band name (bands img) with
  | Some b => b p
  | None => None
  end.

(** Pixel types that take part in arithmetic, read as exact rationals. *)
Class Number (V : Type) := toQ : V -> Q.
#[global] Instance Number_Z : Number Z := inject_Z.
#[global] Instance Number_Q : Number Q := fun q => q.

(** [image.select(names)]: the named bands, in the order asked for; the
    properties are kept. *)
Definition Image_select {V} (names : list string) (img : Image V) : result (Image V) :=
  bs ← mapM (fun n => match lookup_band n (bands img) with
                      | Some b => Ok (n, b)
                      | None => Err (BandNotFound "Image.select" n)
                      end) names;
  Ok (mkImage bs (properties img)).

(** Pixelwise operations with a constant keep band names and masks and
    return an image without properties. [Image_multiply_const] and
    [Image_subtract_const] are the exact product and difference; their
    binary64 counterparts are [Binary64.Image_multiply_const] and
    [Binary64.Image_subtract_const]. *)
Definition Image_map {V W} (f : V -> W) (img : Image V) : Image W :=
  mkImage (List.map (fun nb : string * Band V => (nb.1, fun p => f <$> nb.2 p)) (bands img)) ∅.

Definition Image_bitwiseAnd (img : Image Z) (c : Z) : Image Z :=
  Image_map (fun v => Z.land v c) img.

Definition Image_eq (img : Image Z) (c : Z) : Image Z :=
  Image_map (fun v => if v =? c then 1 else 0) img.

Definition Image_multiply_const {V} `{Number V} (img : Image V) (c : Q) : Image Q :=
  Image_map (fun v => (toQ v * c)%Q) img.

Definition Image_subtract_const {V} `{Number V} (img : Image V) (c : Q) : Image Q :=
  Image_map (fun v => (toQ v - c)%Q) img.

(** [image.round()]: the nearest integer; a half goes up. *)
Definition round_half_up (v : Q) : Q := inject_Z (Qfloor (v + (1 # 2))).

Definition Image_round (img : Image Q) : Image Q :=
  Image_map round_half_up img.

(** Pixelwise operations on two images: the result is masked wherever one of
    the operands is. With as many bands on both sides they are paired in
    order and named after the first image; a single band on one side is used
    against every band of the other. The operation on the values is a
    parameter: exact sum and difference in [Image_add] and [Image_subtract],
    the binary64 ones in [Binary64.Image_add] and
    [Binary64.Image_subtract]. *)
Definition Band_binop {V} (f : V -> V -> V) (x y : Band V) : Band V :=
  fun p => match x p, y p with
           | Some a, Some b => Some (f a b)
           | _, _ => None
           end.

Definition Image_binop {V} (algorithm : string) (f : V -> V -> V)
    (image1 image2 : Image V) : result (Image V) :=
  let b1 := bands image1 in
  let b2 := bands image2 in
  if Nat.eqb (length b1) (length b2) then
    Ok (mkImage (List.map (fun xy : (string * Band V) * (string * Band V) =>
                             (xy.1.1, Band_binop f xy.1.2 xy.2.2)) (combine b1 b2)) ∅)
  else
    match b1, b2 with
    | _, [(_, y)] =>
        Ok (mkImage (List.map (fun nx : string * Band V => (nx.1, Band_binop f nx.2 y)) b1) ∅)
    | [(_, x)], _ =>
        Ok (mkImage (List.map (fun ny : string * Band V => (ny.1, Band_binop f x ny.2)) b2) ∅)
    | _, _ => Err (BandCountMismatch algorithm)
    end.

Definition Image_add : Image Q -> Image Q -> result (Image Q) :=
  Image_binop "Image.add" Qplus.

Definition Image_subtract : Image Q -> Image Q -> result (Image Q) :=
  Image_binop "Image.subtract" Qminus.

(** [image.updateMask(mask)]: a pixel stays valid where it was valid and the
    mask is valid and non-zero there; the properties are kept. *)
Definition Band_updateMask {V} (x : Band V) (m : Band Z) : Band V :=
  fun p => match x p, m p with
           | Some v, Some mv => if mv =? 0 then None else Some v
           | _, _ => None
           end.

Definition Image_updateMask {V} (img : Image V) (mask : Image Z) : result (Image V) :=
  match bands mask with
  | [(_, m)] =>
      Ok (mkImage (List.map (fun nx : string * Band V => (nx.1, Band_updateMask nx.2 m))
                     (bands img))
                  (properties img))
  | ms =>
      if Nat.eqb (length ms) (length (bands img)) then
        Ok (mkImage (List.map (fun xm : (string * Band V) * (string * Band Z) =>
                                 (xm.1.1, Band_updateMask xm.1.2 xm.2.2)) (combine (bands img) ms))
                    (properties img))
      else Err (BandCountMismatch "Image.updateMask")
  end.

(** [image.rename(names)]. *)
Definition Image_rename {V} (img : Image V) (names : list string) : result (Image V) :=
  if Nat.eqb (length names) (length (bands img)) then
    Ok (mkImage (List.map (fun nb : string * (string * Band V) => (nb.1, nb.2.2))
                   (combine names (bands img))) (properties img))
  else Err (BandCountMismatch "Image.rename").

(** [destination.copyProperties(source, names)]: the listed properties that
    [source] has are written to [destination]. *)
Definition copyProperties {V W} (destination : Image V) (source : Image W)
    (names : list string) : Image V :=
  mkImage (bands destination)
    (fold_left (fun m k => match properties source !! k with
                           | Some v => <[k := v]> m
                           | None => m
                           end) names (properties destination)).

(** [image.date()]. *)
Definition Image_date {V} (img : Image V) : result Z :=
  match properties img !! "system:time_start" with
  | Some t => Ok t
  | None => Err (PropertyMissing "Image.date" "system:time_start")
  end.

(** ** Features and geometries *)

(** A geometry is the finite set of pixel locations it covers at the working
    scale; partial coverage of a pixel is not modelled. *)
Record Feature : Type := mkFeature {
  geometry : gset Pixel;
  feature_properties : gmap string string
}.

(** [ee.Filter.eq(name, value)] on features. *)
Definition Filter_eq (name value : string) (f : Feature) : bool :=
  match feature_properties f !! name with
  | Some v => String.eqb v value
  | None => false
  end.

Definition FeatureCollection_filter (flt : Feature -> bool) (fc : list Feature) : list Feature :=
  List.filter flt fc.

(** [collection.geometry()]: the union of the features' geometries. *)
Definition FeatureCollection_geometry (fc : list Feature) : gset Pixel :=
  ⋃ (List.map geometry fc).

(** [image.clip(collection)]: data outside the geometry is masked; the
    properties are kept. *)
Definition Image_clip {V} (img : Image V) (fc : list Feature) : Image V :=
  let g := FeatureCollection_geometry fc in
  mkImage (List.map (fun nb : string * Band V =>
                       (nb.1, fun p => if bool_decide (p ∈ g) then nb.2 p else None))
             (bands img))
          (properties img).

(** ** Image collections *)

(** [ee.Filter.date(start, end)] tests [system:time_start]: the start is
    inclusive, the end exclusive. *)
Definition Filter_dateRange {V} (start end_ : Z) (img : Image V) : bool :=
  match properties img !! "system:time_start" with
  | Some t => (start <=? t) && (t <? end_)
  | None => false
  end.

(** [ee.Filter.date(start)]: without an end, a range of one millisecond. *)
Definition Filter_date {V} (start : Z) : Image V -> bool :=
  Filter_dateRange start (start + 1).

Definition ImageCollection_filter {V} (flt : Image V -> bool) (c : list (Image V)) :
    list (Image V) :=
  List.filter flt c.

(** [collection.filterDate(start, end)]. *)
Definition ImageCollection_filterDate {V} (start end_ : string) (c : list (Image V)) :
    result (list (Image V)) :=
  s ← Date_fromString start;
  e ← Date_fromString end_;
  Ok (ImageCollection_filter (Filter_dateRange s e) c).

Definition ImageCollection_select {V} (names : list string) (c : list (Image V)) :
    result (list (Image V)) :=
  mapM (Image_select names) c.

(** [collection.map(f)]: an error in one element fails the collection. *)
Definition ImageCollection_map {V W} (f : Image V -> result (Image W)) (c : list (Image V)) :
    result (list (Image W)) :=
  mapM f c.

Definition ImageCollection_merge {V} (c1 c2 : list (Image V)) : list (Image V) :=
  c1 ++ c2.

(** [collection.first()]: [null] on an empty collection. *)
Definition ImageCollection_first {V} (c : list (Image V)) : option (Image V) :=
  head c.

(** ** Reducers *)

Definition Qsum (vs : list Q) : Q := fold_right Qplus 0%Q vs.

Definition Reducer_mean (vs : list Q) : option Q :=
  match vs with
  | [] => None
  | _ => Some (Qsum vs / inject_Z (Z.of_nat (length vs)))%Q
  end.

Definition Reducer_min (vs : list Q) : option Q :=
  match vs with
  | [] => None
  | v :: vs' => Some (fold_left Qmin vs' v)
  end.

Definition Reducer_max (vs : list Q) : option Q :=
  match vs with
  | [] => None
  | v :: vs' => Some (fold_left Qmax vs' v)
  end.

(** Population standard deviation, over a square root [sqrtQ] supplied by
    the platform. *)
Definition Reducer_stdDev (sqrtQ : Q -> Q) (vs : list Q) : option Q :=
  match vs with
  | [] => None
  | _ =>
      let n := inject_Z (Z.of_nat (length vs)) in
      let m := (Qsum vs / n)%Q in
      Some (sqrtQ (Qsum (List.map (fun v => ((v - m) * (v - m))%Q) vs) / n)%Q)
  end.

(** A reducer is the list of its named outputs. *)
Definition Reducer : Type := list (string * (list Q -> option Q)).

Definition ee_Reducer_mean : Reducer := [("mean", Reducer_mean)].
Definition ee_Reducer_min : Reducer := [("min", Reducer_min)].
Definition ee_Reducer_max : Reducer := [("max", Reducer_max)].
Definition ee_Reducer_minMax : Reducer := [("min", Reducer_min); ("max", Reducer_max)].
Definition ee_Reducer_stdDev (sqrtQ : Q -> Q) : Reducer := [("stdDev", Reducer_stdDev sqrtQ)].

(** [reducer.combine({reducer2, sharedInputs: true})]. *)
Definition Reducer_combine (reducer reducer2 : Reducer) : Reducer := reducer ++ reducer2.

(** Pixelwise reduction of a collection ([collection.mean()], [.min()],
    [.max()]): at each pixel the valid values of the band of that name
    across the collection are reduced; the pixel is masked when there are
    none. The band names are those of the first image and the result has no
    properties. *)
Definition ImageCollection_reduce (r : list Q -> option Q) (c : list (Image Q)) : Image Q :=
  match c with
  | [] => mkImage [] ∅
  | i :: _ =>
      mkImage (List.map (fun nb : string * Band Q =>
                           (nb.1, fun p => r (omap (fun img => pixel img nb.1 p) c)))
                 (bands i)) ∅
  end.

Definition ImageCollection_mean : list (Image Q) -> Image Q := ImageCollection_reduce Reducer_mean.
Definition ImageCollection_min : list (Image Q) -> Image Q := ImageCollection_reduce Reducer_min.
Definition ImageCollection_max : list (Image Q) -> Image Q := ImageCollection_reduce Reducer_max.

(** [image.reduceRegion({reducer, geometry, scale, maxPixels})]: every
    output of the reducer over the valid pixels of every band inside the
    geometry. A reducer with one output names its result after the band, one
    with several after band and output. *)
Record ReduceRegionArgs : Type := mkReduceRegionArgs {
  rr_reducer : Reducer;
  rr_geometry : list Feature;
  rr_scale : Z;
  rr_maxPixels : Z
}.

Definition Dictionary : Type := list (string * option Q).

Definition Image_reduceRegion (img : Image Q) (args : ReduceRegionArgs) : result Dictionary :=
  let px := elements (FeatureCollection_geometry (rr_geometry args)) in
  if rr_maxPixels args <? Z.of_nat (length px) then Err (TooManyPixels "Image.reduceRegion")
  else
    Ok (List.flat_map
          (fun nb : string * Band Q =>
             List.map (fun out : string * (list Q -> option Q) =>
                         (match rr_reducer args with
                          | [_] => nb.1
                          | _ => nb.1 +:+ "_" +:+ out.1
                          end,
                          out.2 (omap nb.2 px)))
               (rr_reducer args))
          (bands img)).

(** ** Sinks: map layers, console, charts and export tasks *)

Record Visualization : Type := mkVisualization {
  palette : list string;
  vis_min : option Z;
  vis_max : option Z
}.

Inductive LayerSource : Type :=
| Outline (featureCollection : list Feature) (color width : Z)
| Raster (img : Image Q).

Record Layer : Type := mkLayer {
  layer_source : LayerSource;
  layer_vis : Visualization;
  layer_name : string
}.

Record ChartOptions : Type := mkChartOptions {
  title : string;
  vAxis_title : string;
  hAxis_title : string;
  hAxis_format : option string;
  lineWidth : Z;
  colors : list string;
  curveType : option string
}.

Record ImageSeriesChart : Type := mkImageSeriesChart {
  imageCollection : list (Image Q);
  chart_region : list Feature;
  chart_reducer : Reducer;
  chart_scale : Z;
  xProperty : string;
  series_options : ChartOptions
}.

(** [ee.Feature(null, stats).set('date', image.date())]. *)
Record TimeFeature : Type := mkTimeFeature {
  tf_stats : Dictionary;
  tf_date : Z
}.

Record FeatureChart : Type := mkFeatureChart {
  features : list TimeFeature;
  fc_xProperty : string;
  yProperties : list string;
  feature_options : ChartOptions
}.

Inductive Printed : Type :=
| PrintDictionary (label : string) (d : Dictionary)
| PrintFeatures (label : string) (fc : list TimeFeature)
| PrintFeatureChart (c : FeatureChart)
| PrintSeriesChart (c : ImageSeriesChart).

Record ExportTask : Type := mkExportTask {
  export_image : Image Q;
  description : string;
  folder : string;
  export_region : gset Pixel;
  export_scale : Z;
  crs : string;
  export_maxPixels : Z
}.

(** [Map.centerObject(object, zoom)]: the request to centre the map view on
    an object. How the platform resolves the request is not modelled. *)
Record MapView : Type := mkMapView {
  center_object : list Feature;
  zoom : Z
}.

Record Outputs : Type := mkOutputs {
  layers : list Layer;
  view : MapView;
  console : list Printed;
  exports : list ExportTask
}.

(** ** The script *)

Section Script.

(** The three datasets the script reads, and the platform's square root. *)
Variable biomas_IBGE_250mil : list Feature.
Variable ERA5_DAILY : list (Image Q).
Variable MOD11A1 : list (Image Z).
Variable sqrtQ : Q -> Q.

Definition roi : list Feature :=
  FeatureCollection_filter (Filter_eq "Bioma" "Pantanal") biomas_IBGE_250mil.

Definition contorno : LayerSource := Outline roi 1 2.

Definition filterDay (image : Image Z) : result (Image Z) :=
  qa ← Image_select ["QC_Day"] image;
  let bitMask2 := Z.shiftl 1 2 in
  let mask := Image_eq (Image_bitwiseAnd qa bitMask2) 0 in
  Image_updateMask image mask.

Definition filterNight (image : Image Z) : result (Image Z) :=
  qa ← Image_select ["QC_Night"] image;
  let bitMask2 := Z.shiftl 1 2 in
  let mask := Image_eq (Image_bitwiseAnd qa bitMask2) 0 in
  Image_updateMask image mask.

Definition era5_mean : result (list (Image Q)) :=
  c ← ImageCollection_filterDate "2010-01-01" "2010-01-31" ERA5_DAILY;
  ImageCollection_select ["mean_2m_air_temperature"] c.

Definition era5_min : result (list (Image Q)) :=
  c ← ImageCollection_filterDate "2010-01-01" "2010-01-31" ERA5_DAILY;
  ImageCollection_select ["minimum_2m_air_temperature"] c.

Definition era5_max : result (list (Image Q)) :=
  c ← ImageCollection_filterDate "2010-01-01" "2010-01-31" ERA5_DAILY;
  ImageCollection_select ["maximum_2m_air_temperature"] c.

Definition calibrateLSTtoTAmean (image : Image Q) (alpha : Q) : result (Image Q) :=
  era5 ← era5_mean;
  d ← Image_date image;
  first ← required "Image.subtract" "image1"
            (ImageCollection_first (ImageCollection_filter (Filter_date d) era5));
  let era5SameDaymean := Image_subtract_const first 273.15 in
  diff ← Image_subtract era5SameDaymean image;
  blend ← Image_add image (Image_multiply_const diff alpha);
  renamed ← Image_rename blend ["air_temperature_mean"];
  Ok (copyProperties renamed image ["system:time_start"; "system:time_end"]).

Definition calibrateLSTtoTAmin (image : Image Q) (alpha : Q) : result (Image Q) :=
  era5 ← era5_min;
  d ← Image_date image;
  first ← required "Image.subtract" "image1"
            (ImageCollection_first (ImageCollection_filter (Filter_date d) era5));
  let era5SameDaymin := Image_subtract_const first 273.15 in
  diff ← Image_subtract era5SameDaymin image;
  blend ← Image_add image (Image_multiply_const diff alpha);
  renamed ← Image_rename blend ["air_temperature_min"];
  Ok (copyProperties renamed image ["system:time_start"; "system:time_end"]).

Definition calibrateLSTtoTAmax (image : Image Q) (alpha : Q) : result (Image Q) :=
  era5 ← era5_max;
  d ← Image_date image;
  first ← required "Image.subtract" "image1"
            (ImageCollection_first (ImageCollection_filter (Filter_date d) era5));
  let era5SameDaymax := Image_subtract_const first 273.15 in
  diff ← Image_subtract era5SameDaymax image;
  blend ← Image_add image (Image_multiply_const diff alpha);
  renamed ← Image_rename blend ["air_temperature_max"];
  Ok (copyProperties renamed image ["system:time_start"; "system:time_end"]).

(** The function mapped over the filtered daytime collection. *)
Definition day_terra_rescale (image : Image Z) : result (Image Q) :=
  lst ← Image_select ["LST_Day_1km"] image;
  renamed ← Image_rename (Image_subtract_const (Image_multiply_const lst 0.02) 273.15) ["LST"];
  Ok (copyProperties renamed image ["system:time_start"; "system:time_end"]).

Definition day_terra : result (list (Image Q)) :=
  c ← ImageCollection_filterDate "2010-01-01" "2010-01-31" MOD11A1;
  c ← ImageCollection_select ["LST_Day_1km"; "QC_Day"] c;
  c ← ImageCollection_map filterDay c;
  ImageCollection_map day_terra_rescale c.

(** The function mapped over the filtered nighttime collection. *)
Definition night_terra_rescale (image : Image Z) : result (Image Q) :=
  lst ← Image_select ["LST_Night_1km"] image;
  renamed ← Image_rename (Image_subtract_const (Image_multiply_const lst 0.02) 273.15) ["LST"];
  Ok (copyProperties renamed image ["system:time_start"; "system:time_end"]).

Definition night_terra : result (list (Image Q)) :=
  c ← ImageCollection_filterDate "2010-01-01" "2010-01-31" MOD11A1;
  c ← ImageCollection_select ["LST_Night_1km"; "QC_Night"] c;
  c ← ImageCollection_map filterNight c;
  ImageCollection_map night_terra_rescale c.

Definition combined : result (list (Image Q)) :=
  d ← day_terra;
  n ← night_terra;
  Ok (ImageCollection_merge d n).

Definition combined_pantanal : result (list (Image Q)) :=
  c ← combined;
  ImageCollection_map (fun image => Ok (Image_clip image roi)) c.

Definition alpha : Q := 0.6.

Definition airTemp_pantanal_mean : result (list (Image Q)) :=
  c ← combined_pantanal;
  ImageCollection_map (fun image => calibrateLSTtoTAmean image alpha) c.

Definition airTemp_pantanal_min : result (list (Image Q)) :=
  c ← combined_pantanal;
  ImageCollection_map (fun image => calibrateLSTtoTAmin image alpha) c.

Definition airTemp_pantanal_max : result (list (Image Q)) :=
  c ← combined_pantanal;
  ImageCollection_map (fun image => calibrateLSTtoTAmax image alpha) c.

Definition meanAirTemp : result (Image Q) := ImageCollection_mean <$> airTemp_pantanal_mean.
Definition minAirTemp : result (Image Q) := ImageCollection_min <$> airTemp_pantanal_min.
Definition maxAirTemp : result (Image Q) := ImageCollection_max <$> airTemp_pantanal_max.

Definition temperature_palette : list string := ["blue"; "green"; "yellow"; "red"].

Definition chartMean : result ImageSeriesChart :=
  c ← airTemp_pantanal_mean;
  Ok (mkImageSeriesChart c roi ee_Reducer_mean 1000 "system:time_start"
        (mkChartOptions "Daily Mean Air Temperature - Pantanal (Jan 2020)"
           "Temperature (°C)" "Date" (Some "dd/MM") 2 ["red"] (Some "function"))).

Definition meanAirTempImage : result (Image Q) := ImageCollection_mean <$> airTemp_pantanal_mean.

Definition stats : result Dictionary :=
  img ← meanAirTempImage;
  Image_reduceRegion img
    (mkReduceRegionArgs
       (Reducer_combine (Reducer_combine ee_Reducer_mean (ee_Reducer_stdDev sqrtQ))
          ee_Reducer_minMax)
       roi 1000 10000000000000).

Definition timeStats : result (list TimeFeature) :=
  c ← airTemp_pantanal_mean;
  mapM (fun image =>
          stats ← Image_reduceRegion image
                    (mkReduceRegionArgs ee_Reducer_mean roi 1000 10000000000000);
          date ← Image_date image;
          Ok (mkTimeFeature stats date)) c.

Definition statsFC : result (list TimeFeature) := timeStats.

Definition timeChart : result FeatureChart :=
  fc ← statsFC;
  Ok (mkFeatureChart fc "date" ["air_temperature_mean"]
        (mkChartOptions "Daily Mean Air Temperature Variation"
           "Temperature (°C)" "Date" None 2 ["red"] None)).

Definition chartMax : result ImageSeriesChart :=
  c ← airTemp_pantanal_max;
  Ok (mkImageSeriesChart c roi ee_Reducer_max 1000 "system:time_start"
        (mkChartOptions "Daily Max Air Temperature - Pantanal (Jan 2020)"
           "Temperature (°C)" "Date" (Some "dd/MM") 2 ["darkred"] (Some "function"))).

Definition chartMin : result ImageSeriesChart :=
  c ← airTemp_pantanal_min;
  Ok (mkImageSeriesChart c roi ee_Reducer_min 1000 "system:time_start"
        (mkChartOptions "Daily Min Air Temperature - Pantanal (Jan 2020)"
           "Temperature (°C)" "Date" (Some "dd/MM") 2 ["blue"] (Some "function"))).

(** The three calls of [Export.image.toDrive], in the order of the script. *)
Definition export_tasks : result (list ExportTask) :=
  meanT ← meanAirTemp;
  maxT ← maxAirTemp;
  minT ← minAirTemp;
  Ok [ mkExportTask (Image_round meanT) "MeanAirTemp_Pantanal_Jan2020" "GEE"
         (FeatureCollection_geometry roi) 1000 "EPSG:4326" 10000000000000;
       mkExportTask (Image_round maxT) "MaxAirTemp_Pantanal_Jan2020" "GEE"
         (FeatureCollection_geometry roi) 1000 "EPSG:4326" 10000000000000;
       mkExportTask (Image_round minT) "MinAirTemp_Pantanal_Jan2020" "GEE"
         (FeatureCollection_geometry roi) 1000 "EPSG:4326" 10000000000000 ].

(** A completed run: what reaches the map, the console and the export queue
    when every output statement of the script is produced. It fails as soon
    as one of them does; the outcome of a single statement is the [result]
    of its own definition above. *)
Definition script : result Outputs :=
  meanT ← meanAirTemp;
  maxT ← maxAirTemp;
  minT ← minAirTemp;
  cMean ← chartMean;
  st ← stats;
  fc ← statsFC;
  tc ← timeChart;
  cMax ← chartMax;
  cMin ← chartMin;
  ex ← export_tasks;
  Ok (mkOutputs
        [ mkLayer contorno (mkVisualization ["red"] None None) "Pantanal Boundary";
          mkLayer (Raster meanT) (mkVisualization temperature_palette (Some 25) (Some 35))
            "Mean Air Temperature (°C)";
          mkLayer (Raster maxT) (mkVisualization temperature_palette (Some 30) (Some 40))
            "Max Air Temperature (°C)";
          mkLayer (Raster minT) (mkVisualization temperature_palette (Some 15) (Some 25))
            "Min Air Temperature (°C)" ]
        (mkMapView roi 6)
        [ PrintDictionary "Air Temperature Statistics - Pantanal (Jan 2020):" st;
          PrintFeatures "Temporal Statistics:" fc;
          PrintFeatureChart tc;
          PrintSeriesChart cMean;
          PrintSeriesChart cMax;
          PrintSeriesChart cMin ]
        ex).

End Script.

(** ** Vocabulary of the properties *)

(** The three calibration kinds and the script's function for each. *)
Inductive Kind : Type := Mean | Min | Max.

Definition calibrate (k : Kind) : list (Image Q) -> Image Q -> Q -> result (Image Q) :=
  match k with
  | Mean => calibrateLSTtoTAmean
  | Min => calibrateLSTtoTAmin
  | Max => calibrateLSTtoTAmax
  end.

Definition era5_of (k : Kind) : list (Image Q) -> result (list (Image Q)) :=
  match k with
  | Mean => era5_mean
  | Min => era5_min
  | Max => era5_max
  end.

Definition era5_band (k : Kind) : string :=
  match k with
  | Mean => "mean_2m_air_temperature"
  | Min => "minimum_2m_air_temperature"
  | Max => "maximum_2m_air_temperature"
  end.

Definition air_temperature_band (k : Kind) : string :=
  match k with
  | Mean => "air_temperature_mean"
  | Min => "air_temperature_min"
  | Max => "air_temperature_max"
  end.

Definition airTemp_pantanal (k : Kind) :
    list Feature -> list (Image Q) -> list (Image Z) -> result (list (Image Q)) :=
  match k with
  | Mean => airTemp_pantanal_mean
  | Min => airTemp_pantanal_min
  | Max => airTemp_pantanal_max
  end.

(** The common shape of the three calibration functions. *)
Definition calibrate_with (era5_kind : result (list (Image Q))) (name : string)
    (image : Image Q) (alpha : Q) : result (Image Q) :=
  era5 ← era5_kind;
  d ← Image_date image;
  first ← required "Image.subtract" "image1"
            (ImageCollection_first (ImageCollection_filter (Filter_date d) era5));
  let era5SameDay := Image_subtract_const first 273.15 in
  diff ← Image_subtract era5SameDay image;
  blend ← Image_add image (Image_multiply_const diff alpha);
  renamed ← Image_rename blend [name];
  Ok (copyProperties renamed image ["system:time_start"; "system:time_end"]).

(** Day and night overpasses of the LST extractor. *)
Inductive Overpass : Type := Day | Night.

Definition lst_band (o : Overpass) : string :=
  match o with Day => "LST_Day_1km" | Night => "LST_Night_1km" end.

Definition qc_band (o : Overpass) : string :=
  match o with Day => "QC_Day" | Night => "QC_Night" end.

Definition quality_filter (o : Overpass) : Image Z -> result (Image Z) :=
  match o with Day => filterDay | Night => filterNight end.

Definition terra_rescale (o : Overpass) : Image Z -> result (Image Q) :=
  match o with Day => day_terra_rescale | Night => night_terra_rescale end.

Definition terra (o : Overpass) : list (Image Z) -> result (list (Image Q)) :=
  match o with Day => day_terra | Night => night_terra end.

(** The rescale of the extractor on one digital number, in exact
    arithmetic. *)
Definition spec_rescale (n : Z) : Q := (inject_Z n * 0.02 - 273.15)%Q.

(** A pixel that is masked in every band of an image. *)
Definition masked_at {V} (img : Image V) (p : Pixel) : Prop :=
  forall b, pixel img b p = None.

(** The observations of a collection that the script's date filter keeps. *)
Definition window {V} (c : list (Image V)) : list (Image V) :=
  ImageCollection_filter (Filter_dateRange 1262304000000 1264896000000) c.

(** The export naming scheme of the specification: kind, region and period
    of the run. *)
Definition spec_export_name (kind region period : string) : string :=
  kind +:+ "AirTemp_" +:+ region +:+ "_" +:+ period.

Definition month_label (m : string) : string :=
  if String.eqb m "01" then "Jan" else if String.eqb m "02" then "Feb"
  else if String.eqb m "03" then "Mar" else if String.eqb m "04" then "Apr"
  else if String.eqb m "05" then "May" else if String.eqb m "06" then "Jun"
  else if String.eqb m "07" then "Jul" else if String.eqb m "08" then "Aug"
  else if String.eqb m "09" then "Sep" else if String.eqb m "10" then "Oct"
  else if String.eqb m "11" then "Nov" else "Dec".

(** Month and year of a date written [YYYY-MM-DD]. *)
Definition spec_period_label (date : string) : string :=
  month_label (substring 5 2 date) +:+ substring 0 4 date.

(** The names the specification's scheme gives the three exports of the
    run: region [Pantanal], period of the window that starts 2010-01-01. *)
Definition spec_export_names : list string :=
  [spec_export_name "Mean" "Pantanal" (spec_period_label "2010-01-01");
   spec_export_name "Max" "Pantanal" (spec_period_label "2010-01-01");
   spec_export_name "Min" "Pantanal" (spec_period_label "2010-01-01")].

(** The reducer of the regional statistics. *)
Definition stats_reducer (sqrtQ : Q -> Q) : Reducer :=
  Reducer_combine (Reducer_combine ee_Reducer_mean (ee_Reducer_stdDev sqrtQ)) ee_Reducer_minMax.

(** The valid values of a band at a pixel across a series, and of a band of
    one image across a list of pixels: what the pixelwise and the regional
    reductions are computed from. *)
Definition valid_values (A : list (Image Q)) (name : string) (p : Pixel) : list Q :=
  omap (fun img => pixel img name p) A.

Definition region_values (img : Image Q) (name : string) (px : list Pixel) : list Q :=
  omap (pixel img name) px.

(** The observations behind the merged LST series: the window of the day
    overpass followed by the window of the night overpass. *)
Definition source_observations (M : list (Image Z)) : list (Overpass * Image Z) :=
  List.map (pair Day) (window M) ++ List.map (pair Night) (window M).

(** ** A small synthetic run *)

Definition constant_band {V} (v : V) : Band V := fun _ => Some v.

Definition day_millis : Z := 86400000.
Definition jan01 : Z := 1262304000000.
Definition jan31 : Z := 1264896000000.

Definition time_properties (t : Z) : gmap string Z :=
  <["system:time_start" := t]> (<["system:time_end" := t + day_millis]> ∅).

(** A MODIS observation with constant digital numbers and quality flags. *)
Definition modis_observation (t dn_day qc_day dn_night qc_night : Z) : Image Z :=
  mkImage [("LST_Day_1km", constant_band dn_day); ("QC_Day", constant_band qc_day);
           ("LST_Night_1km", constant_band dn_night); ("QC_Night", constant_band qc_night)]
    (time_properties t).

(** A reanalysis raster with constant temperatures in Kelvin. *)
Definition era5_observation (t : Z) (kmean kmin kmax : Q) : Image Q :=
  mkImage [("mean_2m_air_temperature", constant_band kmean);
           ("minimum_2m_air_temperature", constant_band kmin);
           ("maximum_2m_air_temperature", constant_band kmax)]
    (time_properties t).

Definition lst_observation (t : Z) (celsius : Q) : Image Q :=
  mkImage [("LST", constant_band celsius)] (time_properties t).

Definition pantanal_feature : Feature :=
  mkFeature {[ (0, 0); (0, 1) ]} {[ "Bioma" := "Pantanal" ]}.

Definition cerrado_feature : Feature :=
  mkFeature {[ (7, 7) ]} {[ "Bioma" := "Cerrado" ]}.

Definition pantanal_feature2 : Feature :=
  mkFeature {[ (3, 3) ]} {[ "Bioma" := "Pantanal" ]}.

Definition sample_biomas : list Feature := [cerrado_feature; pantanal_feature].

Definition sample_ERA5 : list (Image Q) :=
  [era5_observation jan01 303.15 298.15 308.15;
   era5_observation (jan01 + day_millis) 304.15 299.15 309.15].

Definition sample_MOD11A1 : list (Image Z) :=
  [modis_observation jan01 15000 0 14800 0;
   modis_observation (jan01 + day_millis) 15100 4 14900 0].

(** A stand-in for the square root, exact on 0, for running the report. *)
Definition sample_sqrt (q : Q) : Q := q.

(** A reanalysis raster without data in the column [x = 0]. *)
Definition gap_band (v : Q) : Band Q :=
  fun p => if p.1 =? 0 then None else Some v.

Definition era5_observation_with_gap (t : Z) (kelvin : Q) : Image Q :=
  mkImage [("mean_2m_air_temperature", gap_band kelvin);
           ("minimum_2m_air_temperature", gap_band kelvin);
           ("maximum_2m_air_temperature", gap_band kelvin)]
    (time_properties t).

(** ** Vocabulary of the further properties *)

(** The timestamp of an image, when it has one. *)
Definition time_start {V} (img : Image V) : option Z :=
  properties img !! "system:time_start".

Definition has_band {V} (name : string) (img : Image V) : Prop :=
  is_Some (lookup_band name (bands img)).

(** A MODIS observation that lacks the daytime quality band. *)
Definition modis_observation_without_QC_Day (t dn_day dn_night qc_night : Z) : Image Z :=
  mkImage [("LST_Day_1km", constant_band dn_day);
           ("LST_Night_1km", constant_band dn_night); ("QC_Night", constant_band qc_night)]
    (time_properties t).

(** A MODIS dataset whose second observation has no reanalysis raster in
    [sample_ERA5]. *)
Definition sample_MOD11A1_unmatched : list (Image Z) :=
  [modis_observation jan01 15000 0 14800 0;
   modis_observation (jan01 + 5 * day_millis) 15100 0 14900 0].

(** The aggregate the script takes of the calibrated series of each kind. *)
Definition Reducer_of (k : Kind) : list Q -> option Q :=
  match k with
  | Mean => Reducer_mean
  | Min => Reducer_min
  | Max => Reducer_max
  end.

Definition aggregate (k : Kind) : list (Image Q) -> Image Q :=
  match k with
  | Mean => ImageCollection_mean
  | Min => ImageCollection_min
  | Max => ImageCollection_max
  end.

Definition airTemp (k : Kind) :
    list Feature -> list (Image Q) -> list (Image Z) -> result (Image Q) :=
  match k with
  | Mean => meanAirTemp
  | Min => minAirTemp
  | Max => maxAirTemp
  end.

(** A successful result whose value passes a test. *)
Definition is_Ok_and {A} (r : result A) (test : A -> bool) : bool :=
  match r with Ok a => test a | Err _ => false end.

Definition is_valid {V} (o : option V) : bool :=
  match o with Some _ => true | None => false end.

(** The region fits the pixel budget of the regional reductions. *)
Definition within_pixel_budget (B : list Feature) : Prop :=
  Z.of_nat (length (elements (FeatureCollection_geometry (roi B)))) <= 10000000000000.

(** A reanalysis raster that lacks the maximum band. *)
Definition era5_observation_without_max (t : Z) (kmean kmin : Q) : Image Q :=
  mkImage [("mean_2m_air_temperature", constant_band kmean);
           ("minimum_2m_air_temperature", constant_band kmin)]
    (time_properties t).

(** Reanalysis rasters whose three bands share their mask and are ordered:
    wherever the mean is present, so are the minimum and the maximum, with
    minimum <= mean <= maximum. *)
Definition ordered_reanalysis (E : list (Image Q)) : Prop :=
  forall e0 p kmean,
    In e0 (window E) ->
    pixel e0 "mean_2m_air_temperature" p = Some kmean ->
    exists kmin kmax,
      pixel e0 "minimum_2m_air_temperature" p = Some kmin /\
      pixel e0 "maximum_2m_air_temperature" p = Some kmax /\
      (kmin <= kmean <= kmax)%Q.

(** ** The arithmetic of the platform: IEEE 754 binary64 *)

(** The rescale of the LST extractor and the three calibrators once more,
    statement by statement as in the script, with the pixel arithmetic in
    binary64 (Rocq's primitive floats). A decimal literal of the script
    ([0.02], [273.15], [0.6]) is the binary64 number nearest to it. *)
Module Binary64.

(** An integer pixel value as a binary64 number (exact below 2^53). *)
Definition of_Z (n : Z) : float := SF2Prim (binary_normalize prec emax n 0 false).

(** The rational number a finite binary64 number stands for. *)
Definition to_Q (x : float) : option Q :=
  match Prim2SF x with
  | S754_zero _ => Some 0%Q
  | S754_finite s m e =>
      let v := if 0 <=? e then inject_Z (Z.pos m * 2 ^ e)
               else Z.pos m # Pos.pow 2 (Z.to_pos (- e)) in
      Some (if s then Qopp v else v)
  | S754_infinity _ | S754_nan => None
  end.



(** Pixel types that take part in floating point arithmetic. *)
Class Number (V : Type) := to_float : V -> float.
#[global] Instance Number_Z : Number Z := of_Z.
#[global] Instance Number_float : Number float := fun x => x.

Definition Image_multiply_const {V} `{Number V} (img : Image V) (c : float) : Image float :=
  Image_map (fun v => (to_float v * c)%float) img.

Definition Image_subtract_const {V} `{Number V} (img : Image V) (c : float) : Image float :=
  Image_map (fun v => (to_float v - c)%float) img.

Definition Image_add : Image float -> Image float -> result (Image float) :=
  Image_binop "Image.add" PrimFloat.add.

Definition Image_subtract : Image float -> Image float -> result (Image float) :=
  Image_binop "Image.subtract" PrimFloat.sub.

Section Script.

Variable ERA5_DAILY : list (Image float).

Definition era5_mean : result (list (Image float)) :=
  c ← ImageCollection_filterDate "2010-01-01" "2010-01-31" ERA5_DAILY;
  ImageCollection_select ["mean_2m_air_temperature"] c.

Definition era5_min : result (list (Image float)) :=
  c ← ImageCollection_filterDate "2010-01-01" "2010-01-31" ERA5_DAILY;
  ImageCollection_select ["minimum_2m_air_temperature"] c.

Definition era5_max : result (list (Image float)) :=
  c ← ImageCollection_filterDate "2010-01-01" "2010-01-31" ERA5_DAILY;
  ImageCollection_select ["maximum_2m_air_temperature"] c.

Definition calibrateLSTtoTAmean (image : Image float) (alpha : float) : result (Image float) :=
  era5 ← era5_mean;
  d ← Image_date image;
  first ← required "Image.subtract" "image1"
            (ImageCollection_first (ImageCollection_filter (Filter_date d) era5));
  let era5SameDaymean := Image_subtract_const first 273.15 in
  diff ← Image_subtract era5SameDaymean image;
  blend ← Image_add image (Image_multiply_const diff alpha);
  renamed ← Image_rename blend ["air_temperature_mean"];
  Ok (copyProperties renamed image ["system:time_start"; "system:time_end"]).

Definition calibrateLSTtoTAmin (image : Image float) (alpha : float) : result (Image float) :=
  era5 ← era5_min;
  d ← Image_date image;
  first ← required "Image.subtract" "image1"
            (ImageCollection_first (ImageCollection_filter (Filter_date d) era5));
  let era5SameDaymin := Image_subtract_const first 273.15 in
  diff ← Image_subtract era5SameDaymin image;
  blend ← Image_add image (Image_multiply_const diff alpha);
  renamed ← Image_rename blend ["air_temperature_min"];
  Ok (copyProperties renamed image ["system:time_start"; "system:time_end"]).

Definition calibrateLSTtoTAmax (image : Image float) (alpha : float) : result (Image float) :=
  era5 ← era5_max;
  d ← Image_date image;
  first ← required "Image.subtract" "image1"
            (ImageCollection_first (ImageCollection_filter (Filter_date d) era5));
  let era5SameDaymax := Image_subtract_const first 273.15 in
  diff ← Image_subtract era5SameDaymax image;
  blend ← Image_add image (Image_multiply_const diff alpha);
  renamed ← Image_rename blend ["air_temperature_max"];
  Ok (copyProperties renamed image ["system:time_start"; "system:time_end"]).

(** The function mapped over the filtered daytime collection. *)
Definition day_terra_rescale (image : Image Z) : result (Image float) :=
  lst ← Image_select ["LST_Day_1km"] image;
  renamed ← Image_rename (Image_subtract_const (Image_multiply_const lst 0.02) 273.15) ["LST"];
  Ok (copyProperties renamed image ["system:time_start"; "system:time_end"]).

(** The function mapped over the filtered nighttime collection. *)
Definition night_terra_rescale (image : Image Z) : result (Image float) :=
  lst ← Image_select ["LST_Night_1km"] image;
  renamed ← Image_rename (Image_subtract_const (Image_multiply_const lst 0.02) 273.15) ["LST"];
  Ok (copyProperties renamed image ["system:time_start"; "system:time_end"]).

End Script.

Definition calibrate (k : Kind) :
    list (Image float) -> Image float -> float -> result (Image float) :=
  match k with
  | Mean => calibrateLSTtoTAmean
  | Min => calibrateLSTtoTAmin
  | Max => calibrateLSTtoTAmax
  end.

Definition era5_of (k : Kind) : list (Image float) -> result (list (Image float)) :=
  match k with
  | Mean => era5_mean
  | Min => era5_min
  | Max => era5_max
  end.

(** The common shape of the three calibration functions. *)
Definition calibrate_with (era5_kind : result (list (Image float))) (name : string)
    (image : Image float) (alpha : float) : result (Image float) :=
  era5 ← era5_kind;
  d ← Image_date image;
  first ← required "Image.subtract" "image1"
            (ImageCollection_first (ImageCollection_filter (Filter_date d) era5));
  let era5SameDay := Image_subtract_const first 273.15 in
  diff ← Image_subtract era5SameDay image;
  blend ← Image_add image (Image_multiply_const diff alpha);
  renamed ← Image_rename blend [name];
  Ok (copyProperties renamed image ["system:time_start"; "system:time_end"]).

Definition terra_rescale (o : Overpass) : Image Z -> result (Image float) :=
  match o with Day => day_terra_rescale | Night => night_terra_rescale end.

(** The rescale of one digital number, as the extractor computes it. *)
Definition rescale (n : Z) : float := (of_Z n * 0.02 - 273.15)%float.

(** The inverse of the rescale. The script has none; this is the inverse
    the specification speaks of, [(celsius + 273.15) / 0.02], computed in
    binary64 like the rescale. *)
Definition spec_rescale_inverse (celsius : float) : float := ((celsius + 273.15) / 0.02)%float.

(** The digital numbers of the LST bands are unsigned 16-bit integers. *)
Definition digital_number (n : Z) : Prop := 0 <= n <= 65535.

(** Whether the rescale of [n] is within 10^-12 degrees of
    [n * 0.02 - 273.15] and the inverse of the rescale within 10^-10 of
    [n]. *)
Definition within_tolerance (n : Z) : bool :=
  match to_Q (rescale n), to_Q (spec_rescale_inverse (rescale n)) with
  | Some celsius, Some back =>
      Qle_bool (Qabs (celsius - (inject_Z n * 0.02 - 273.15))) (1 # 1000000000000)
      && Qle_bool (Qabs (back - inject_Z n)) (1 # 10000000000)
  | _, _ => false
  end.

(** A test on every integer of [base, base + 2^bits). *)
Fixpoint all_below (bits : nat) (base : Z) (test : Z -> bool) : bool :=
  match bits with
  | O => test base
  | S b => all_below b base test && all_below b (base + 2 ^ Z.of_nat b) test
  end.

(** Rasters for a small synthetic run. *)
Definition era5_observation (t : Z) (kmean kmin kmax : float) : Image float :=
  mkImage [("mean_2m_air_temperature", constant_band kmean);
           ("minimum_2m_air_temperature", constant_band kmin);
           ("maximum_2m_air_temperature", constant_band kmax)]
    (time_properties t).

Definition lst_observation (t : Z) (celsius : float) : Image float :=
  mkImage [("LST", constant_band celsius)] (time_properties t).

Definition sample_ERA5 : list (Image float) :=
  [era5_observation jan01 303.15 298.15 308.15;
   era5_observation (jan01 + day_millis) 304.15 299.15 309.15].

End Binary64.

(** ** What an observation contributes *)

(** The reanalysis raster of an observation stamped [t]: the first raster of
    the date window with that very timestamp. *)
Definition same_date_raster (E : list (Image Q)) (t : Z) : option (Image Q) :=
  List.find (fun e => bool_decide (time_start e = Some t)) (window E).

(** What a source observation contributes to the calibrated values of kind
    [k] at pixel [p]: the blend of its rescaled digital number with the
    reanalysis value of its date, when the pixel lies in the region, the
    quality flag is present with bit 2 clear, the LST band has a digital
    number there and the reanalysis raster of that date has a value there;
    nothing otherwise. *)
Definition contribution (k : Kind) (B : list Feature) (E : list (Image Q)) (p : Pixel)
    (source : Overpass * Image Z) : option Q :=
  if bool_decide (p ∈ FeatureCollection_geometry (roi B)) then
    match pixel source.2 (qc_band source.1) p,
          pixel source.2 (lst_band source.1) p,
          (t ← time_start source.2; e0 ← same_date_raster E t; pixel e0 (era5_band k) p) with
    | Some q, Some n, Some kelvin =>
        if Z.testbit q 2 then None
        else Some (spec_rescale n + ((kelvin - 273.15) - spec_rescale n) * alpha)%Q
    | _, _, _ => None
    end
  else None.

(** The contributions of all source observations at a pixel, and the
    regional values they give over the pixels of the region. *)
Definition contributions (k : Kind) (B : list Feature) (E : list (Image Q))
    (M : list (Image Z)) (p : Pixel) : list Q :=
  omap (contribution k B E p) (source_observations M).

Definition region_pixels (B : list Feature) : list Pixel :=
  elements (FeatureCollection_geometry (roi B)).

(** ** The output statements one by one *)

Definition export_description (k : Kind) : string :=
  match k with
  | Mean => "MeanAirTemp_Pantanal_Jan2020"
  | Max => "MaxAirTemp_Pantanal_Jan2020"
  | Min => "MinAirTemp_Pantanal_Jan2020"
  end.

(** One call of [Export.image.toDrive]. *)
Definition export_task (k : Kind) (B : list Feature) (E : list (Image Q))
    (M : list (Image Z)) : result ExportTask :=
  img ← airTemp k B E M;
  Ok (mkExportTask (Image_round img) (export_description k) "GEE"
        (FeatureCollection_geometry (roi B)) 1000 "EPSG:4326" 10000000000000).

(** The image series chart of each kind. *)
Definition chart (k : Kind) :
    list Feature -> list (Image Q) -> list (Image Z) -> result ImageSeriesChart :=
  match k with
  | Mean => chartMean
  | Min => chartMin
  | Max => chartMax
  end.

(** * Properties *)

(** ** The [result] monad *)

Lemma bind_Ok {A B} (m : result A) (f : A -> result B) (b : B) :
  m ≫= f = Ok b <-> exists a, m = Ok a /\ f a = Ok b.
Proof.
  destruct m as [a|e]; simpl; split.
  - intros H. exists a. split; [reflexivity | exact H].
  - intros (a' & Ha & Hf). injection Ha as ->. exact Hf.
  - discriminate.
  - intros (a' & Ha & _). discriminate.
Qed.

Lemma fmap_Ok {A B} (f : A -> B) (m : result A) (b : B) :
  f <$> m = Ok b <-> exists a, m = Ok a /\ b = f a.
Proof.
  destruct m as [a|e]; simpl; split.
  - intros [= <-]. eauto.
  - intros (a' & [= <-] & ->). reflexivity.
  - discriminate.
  - intros (a' & Ha & _). discriminate.
Qed.

Lemma is_Ok_true {A} (r : result A) : is_Ok r = true -> exists a, r = Ok a.
Proof. destruct r as [a|e]; [eauto | discriminate]. Qed.

Lemma mapM_Ok_Forall2 {A B} (f : A -> result B) (l : list A) (l' : list B) :
  mapM f l = Ok l' <-> Forall2 (fun x y => f x = Ok y) l l'.
Proof.
  revert l'. induction l as [|x l IH]; intros l'; simpl.
  - split.
    + intros [= <-]. constructor.
    + intros H. inversion H. reflexivity.
  - split.
    + intros H. apply bind_Ok in H as (y & Hy & H).
      apply bind_Ok in H as (k & Hk & H). injection H as <-.
      constructor; [exact Hy | apply IH, Hk].
    + intros H. inversion H as [|? y ? k Hy Hk]; subst.
      apply bind_Ok. exists y. split; [exact Hy|].
      apply bind_Ok. exists k. split; [apply IH, Hk | reflexivity].
Qed.

(** ** Pixels of the image operations *)

Lemma lookup_band_map {V W} (g : Band V -> Band W) (name : string)
    (bs : list (string * Band V)) :
  lookup_band name (List.map (fun nb : string * Band V => (nb.1, g nb.2)) bs)
  = g <$> lookup_band name bs.
Proof.
  induction bs as [|[n b] bs IH]; simpl; [reflexivity|].
  destruct (String.eqb n name); [reflexivity | exact IH].
Qed.

Lemma pixel_map_bands {V W} (g : Band V -> Band W) (bs : list (string * Band V))
    (props : gmap string Z) (name : string) (p : Pixel) :
  pixel (mkImage (List.map (fun nb : string * Band V => (nb.1, g nb.2)) bs) props) name p
  = match lookup_band name bs with
    | Some b => g b p
    | None => None
    end.
Proof.
  unfold pixel; simpl. rewrite lookup_band_map.
  destruct (lookup_band name bs); reflexivity.
Qed.

Lemma pixel_Image_map {V W} (f : V -> W) (img : Image V) (name : string) (p : Pixel) :
  pixel (Image_map f img) name p = f <$> pixel img name p.
Proof.
  etransitivity;
    [exact (pixel_map_bands (fun b p => f <$> b p) (bands img) ∅ name p)|].
  unfold pixel. destruct (lookup_band name (bands img)); reflexivity.
Qed.

Lemma pixel_Image_clip {V} (img : Image V) (fc : list Feature) (name : string) (p : Pixel) :
  pixel (Image_clip img fc) name p
  = if bool_decide (p ∈ FeatureCollection_geometry fc) then pixel img name p else None.
Proof.
  etransitivity;
    [exact (pixel_map_bands
              (fun b p => if bool_decide (p ∈ FeatureCollection_geometry fc) then b p else None)
              (bands img) (properties img) name p)|].
  unfold pixel. destruct (lookup_band name (bands img)); [reflexivity|].
  destruct (bool_decide _); reflexivity.
Qed.

Lemma pixel_copyProperties {V W} (d : Image V) (s : Image W) (names : list string)
    (name : string) (p : Pixel) :
  pixel (copyProperties d s names) name p = pixel d name p.
Proof. reflexivity. Qed.

Lemma pixel_single {V} (n : string) (b : Band V) (props : gmap string Z) (name : string)
    (p : Pixel) :
  pixel (mkImage [(n, b)] props) name p = if String.eqb n name then b p else None.
Proof. unfold pixel; simpl. destruct (String.eqb n name); reflexivity. Qed.

(** The two timestamps after [copyProperties] are the source's, and a
    destination without properties gains no other. *)
Lemma properties_copy_times {V W} (bs : list (string * Band V)) (s : Image W) (k : string) :
  properties (copyProperties (mkImage bs ∅) s ["system:time_start"; "system:time_end"]) !! k
  = if bool_decide (k = "system:time_start" \/ k = "system:time_end")
    then properties s !! k else None.
Proof.
  unfold copyProperties; simpl.
  destruct (properties s !! "system:time_start") as [t0|] eqn:H0;
    destruct (properties s !! "system:time_end") as [t1|] eqn:H1;
    case_bool_decide as Hk.
  all: try (destruct Hk as [-> | ->]; simplify_map_eq; congruence).
  all: assert (k <> "system:time_start" /\ k <> "system:time_end") as [? ?] by tauto.
  all: repeat (rewrite lookup_insert_ne by congruence).
  all: apply lookup_empty.
Qed.

Lemma Image_select_single {V} (n : string) (img : Image V) (out : Image V) :
  Image_select [n] img = Ok out <->
  exists b, lookup_band n (bands img) = Some b /\ out = mkImage [(n, b)] (properties img).
Proof.
  unfold Image_select; simpl.
  destruct (lookup_band n (bands img)) as [b|]; simpl; split.
  - intros [= <-]. eauto.
  - intros (b' & [= <-] & ->). reflexivity.
  - discriminate.
  - intros (b' & Hb & _). discriminate.
Qed.

Lemma Image_select_pixel {V} (names : list string) (img out : Image V) (name : string)
    (p : Pixel) :
  Image_select names img = Ok out ->
  properties out = properties img /\
  pixel out name p = if bool_decide (name ∈ names) then pixel img name p else None.
Proof.
  unfold Image_select. intros H. apply bind_Ok in H as (bs & Hbs & [= <-]).
  split; [reflexivity|].
  apply mapM_Ok_Forall2 in Hbs. unfold pixel; simpl.
  induction Hbs as [|n [n' b] names bs Hn Hrest IH]; simpl.
  - reflexivity.
  - destruct (lookup_band n (bands img)) as [b0|] eqn:Hb0; [|discriminate].
    injection Hn as <- <-.
    destruct (String.eqb n name) eqn:E.
    + apply String.eqb_eq in E as ->. rewrite Hb0.
      rewrite bool_decide_eq_true_2; [reflexivity | left].
    + rewrite IH. apply String.eqb_neq in E.
      destruct (bool_decide (name ∈ names)) eqn:Hin.
      * apply bool_decide_eq_true_1 in Hin.
        rewrite bool_decide_eq_true_2; [reflexivity | right; exact Hin].
      * apply bool_decide_eq_false_1 in Hin.
        rewrite bool_decide_eq_false_2; [reflexivity|].
        intros Hc. apply elem_of_cons in Hc as [->|Hc]; [congruence | contradiction].
Qed.

Lemma pixel_updateMask_single {V} (img : Image V) (n : string) (m : Band Z)
    (props : gmap string Z) (name : string) (p : Pixel) :
  exists out, Image_updateMask img (mkImage [(n, m)] props) = Ok out /\
    properties out = properties img /\
    List.map fst (bands out) = List.map fst (bands img) /\
    pixel out name p = match m p with
                       | Some mv => if mv =? 0 then None else pixel img name p
                       | None => None
                       end.
Proof.
  unfold Image_updateMask; simpl. eexists. split; [reflexivity|]. simpl.
  split; [reflexivity|]. split.
  - rewrite List.map_map. reflexivity.
  - etransitivity;
      [exact (pixel_map_bands (fun x => Band_updateMask x m) (bands img) (properties img)
                name p)|].
    unfold pixel. destruct (lookup_band name (bands img)) as [b|]; simpl.
    + unfold Band_updateMask. destruct (b p), (m p) as [mv|]; try reflexivity.
      destruct (mv =? 0); reflexivity.
    + destruct (m p) as [mv|]; [destruct (mv =? 0)|]; reflexivity.
Qed.

Lemma Image_rename_single {V} (n name : string) (b : Band V) (props : gmap string Z) :
  Image_rename (mkImage [(n, b)] props) [name] = Ok (mkImage [(name, b)] props).
Proof. reflexivity. Qed.

Lemma Image_binop_single {V} (alg : string) (f : V -> V -> V) (a b : Image V)
    (na nb : string) (x y : Band V) :
  bands a = [(na, x)] -> bands b = [(nb, y)] ->
  Image_binop alg f a b = Ok (mkImage [(na, Band_binop f x y)] ∅).
Proof. unfold Image_binop. intros -> ->. reflexivity. Qed.

(** Bit 2 of a quality flag, as the filters test it. *)
Lemma land_bit2 (q : Z) : Z.land q (Z.shiftl 1 2) = if Z.testbit q 2 then 4 else 0.
Proof.
  change (Z.shiftl 1 2) with (2 ^ 2).
  apply Z.bits_inj'. intros n Hn.
  rewrite Z.land_spec, Z.pow2_bits_eqb by lia.
  destruct (Z.eqb_spec 2 n) as [<-|Hne].
  - rewrite andb_true_r. destruct (Z.testbit q 2); reflexivity.
  - rewrite andb_false_r. destruct (Z.testbit q 2).
    + change 4 with (2 ^ 2). rewrite Z.pow2_bits_eqb by lia.
      symmetry. apply Z.eqb_neq. exact Hne.
    + symmetry. apply Z.bits_0.
Qed.

(** ** Quality filter and rescale of one observation *)

Lemma pixel_lookup_band {V} (img : Image V) (name : string) (p : Pixel) (v : V) :
  pixel img name p = Some v -> exists b, lookup_band name (bands img) = Some b /\ b p = Some v.
Proof.
  unfold pixel. destruct (lookup_band name (bands img)) as [b|]; [|discriminate].
  intros H. exists b. split; [reflexivity | exact H].
Qed.

Lemma quality_filter_Ok (o : Overpass) (image out : Image Z) :
  quality_filter o image = Ok out ->
  properties out = properties image /\
  List.map fst (bands out) = List.map fst (bands image) /\
  forall name p,
    pixel out name p = match pixel image (qc_band o) p with
                       | Some q => if Z.testbit q 2 then None else pixel image name p
                       | None => None
                       end.
Proof.
  intros H.
  assert (exists qa, Image_select [qc_band o] image = Ok qa /\
            Image_updateMask image (Image_eq (Image_bitwiseAnd qa (Z.shiftl 1 2)) 0) = Ok out)
    as (qa & Hqa & Hout).
  { destruct o; apply bind_Ok in H; exact H. }
  apply Image_select_single in Hqa as (b & Hb & ->).
  set (m := fun p : Pixel =>
              (fun v : Z => if v =? 0 then 1 else 0) <$>
                ((fun v : Z => Z.land v (Z.shiftl 1 2)) <$> b p)).
  assert (Hprops : properties out = properties image /\
                   List.map fst (bands out) = List.map fst (bands image)).
  { destruct (pixel_updateMask_single image (qc_band o) m ∅ "" (0, 0))
      as (out' & Hout' & Hp & Hn & _).
    pose proof (eq_trans (eq_sym Hout') Hout) as Heq. injection Heq as ->.
    split; assumption. }
  destruct Hprops as [Hp Hn]. split; [exact Hp|]. split; [exact Hn|].
  intros name p.
  destruct (pixel_updateMask_single image (qc_band o) m ∅ name p)
    as (out' & Hout' & _ & _ & Hpx).
  pose proof (eq_trans (eq_sym Hout') Hout) as Heq. injection Heq as ->.
  rewrite Hpx. unfold pixel at 2. rewrite Hb. unfold m.
  destruct (b p) as [q|]; [|reflexivity].
  cbn [fmap option_fmap option_map]. rewrite land_bit2.
  destruct (Z.testbit q 2); reflexivity.
Qed.

Lemma quality_filter_total (o : Overpass) (image : Image Z) (p : Pixel) (q : Z) :
  pixel image (qc_band o) p = Some q -> exists out, quality_filter o image = Ok out.
Proof.
  intros H. apply pixel_lookup_band in H as (b & Hb & _).
  assert (Hsel : Image_select [qc_band o] image = Ok (mkImage [(qc_band o, b)] (properties image))).
  { apply Image_select_single. eauto. }
  destruct o; unfold quality_filter, filterDay, filterNight;
    simpl qc_band in Hsel; rewrite Hsel; simpl; eexists; reflexivity.
Qed.

(** The mask the filter computes is 1 where bit 2 of the flag is zero and 0
    where it is set. *)
Lemma quality_filter_mask (o : Overpass) (image : Image Z) (p : Pixel) (q : Z) :
  pixel image (qc_band o) p = Some q ->
  exists qa,
    Image_select [qc_band o] image = Ok qa /\
    pixel (Image_eq (Image_bitwiseAnd qa (Z.shiftl 1 2)) 0) (qc_band o) p
    = Some (if Z.testbit q 2 then 0 else 1) /\
    quality_filter o image
    = Image_updateMask image (Image_eq (Image_bitwiseAnd qa (Z.shiftl 1 2)) 0).
Proof.
  intros H. apply pixel_lookup_band in H as (b & Hb & Hq).
  assert (Hsel : Image_select [qc_band o] image
                 = Ok (mkImage [(qc_band o, b)] (properties image))).
  { apply Image_select_single. eauto. }
  eexists. split; [exact Hsel|]. split.
  - unfold Image_eq, Image_bitwiseAnd. rewrite !pixel_Image_map, pixel_single.
    rewrite String.eqb_refl, Hq. cbn [fmap option_fmap option_map].
    rewrite land_bit2. destruct (Z.testbit q 2); reflexivity.
  - destruct o; unfold quality_filter, filterDay, filterNight;
      simpl qc_band in Hsel; rewrite Hsel; reflexivity.
Qed.

Lemma terra_rescale_Ok (o : Overpass) (image : Image Z) (out : Image Q) :
  terra_rescale o image = Ok out ->
  List.map fst (bands out) = ["LST"] /\
  (forall k, properties out !! k
             = if bool_decide (k = "system:time_start" \/ k = "system:time_end")
               then properties image !! k else None) /\
  forall p, pixel out "LST" p = spec_rescale <$> pixel image (lst_band o) p.
Proof.
  intros H.
  assert (exists lst, Image_select [lst_band o] image = Ok lst /\
            (Image_rename (Image_subtract_const (Image_multiply_const lst 0.02) 273.15) ["LST"]
             ≫= fun renamed =>
                  Ok (copyProperties renamed image ["system:time_start"; "system:time_end"]))
            = Ok out) as (lst & Hlst & Hout).
  { destruct o; apply bind_Ok in H; exact H. }
  apply Image_select_single in Hlst as (b & Hb & ->).
  simpl in Hout. injection Hout as <-.
  split; [reflexivity|]. split.
  - intros k. apply properties_copy_times.
  - intros p. unfold pixel at 2. rewrite Hb.
    unfold pixel; simpl. destruct (b p); reflexivity.
Qed.

(** ** The date window *)

Lemma Date_fromString_start : Date_fromString "2010-01-01" = Ok 1262304000000.
Proof. vm_compute. reflexivity. Qed.

Lemma Date_fromString_end : Date_fromString "2010-01-31" = Ok 1264896000000.
Proof. vm_compute. reflexivity. Qed.

Lemma filterDate_window {V} (c : list (Image V)) :
  ImageCollection_filterDate "2010-01-01" "2010-01-31" c = Ok (window c).
Proof.
  unfold ImageCollection_filterDate.
  rewrite Date_fromString_start, Date_fromString_end. reflexivity.
Qed.

Lemma era5_of_Ok (k : Kind) (E coll : list (Image Q)) :
  era5_of k E = Ok coll <->
  Forall2 (fun e0 e => Image_select [era5_band k] e0 = Ok e) (window E) coll.
Proof.
  rewrite <- mapM_Ok_Forall2.
  destruct k; unfold era5_of, era5_mean, era5_min, era5_max;
    rewrite filterDate_window; reflexivity.
Qed.

Lemma era5_of_single_band (k : Kind) (E coll : list (Image Q)) (e : Image Q) :
  era5_of k E = Ok coll -> In e coll ->
  exists e0 kb, In e0 (window E) /\ lookup_band (era5_band k) (bands e0) = Some kb /\
                e = mkImage [(era5_band k, kb)] (properties e0).
Proof.
  intros H Hin. apply era5_of_Ok in H.
  induction H as [|e0 e' l l' Hsel Hrest IH]; [destruct Hin|].
  destruct Hin as [<-|Hin].
  - apply Image_select_single in Hsel as (kb & Hkb & ->).
    exists e0, kb. repeat split; [left; reflexivity | exact Hkb].
  - destruct (IH Hin) as (e1 & kb & H1 & H2 & H3).
    exists e1, kb. repeat split; [right; exact H1 | exact H2 | exact H3].
Qed.

(** ** The calibrator *)

Lemma calibrate_eq (k : Kind) (E : list (Image Q)) (image : Image Q) (alpha : Q) :
  calibrate k E image alpha
  = calibrate_with (era5_of k E) (air_temperature_band k) image alpha.
Proof. destruct k; reflexivity. Qed.

Lemma first_filter_In {V} (flt : Image V -> bool) (c : list (Image V)) (e : Image V) :
  ImageCollection_first (ImageCollection_filter flt c) = Some e -> In e c /\ flt e = true.
Proof.
  unfold ImageCollection_first, ImageCollection_filter. intros H.
  apply List.filter_In. destruct (List.filter flt c) as [|x l]; [discriminate|].
  injection H as ->. left. reflexivity.
Qed.

(** The blended band: LST plus alpha times the difference to the reanalysis
    in Celsius, masked where either operand is. *)
Lemma calibrate_with_matched (era5 : result (list (Image Q))) (coll : list (Image Q))
    (name : string) (image : Image Q) (alpha : Q) (t : Z) (e : Image Q)
    (n ne : string) (b kb : Band Q) :
  era5 = Ok coll ->
  Image_date image = Ok t ->
  ImageCollection_first (ImageCollection_filter (Filter_date t) coll) = Some e ->
  bands image = [(n, b)] ->
  bands e = [(ne, kb)] ->
  exists out,
    calibrate_with era5 name image alpha = Ok out /\
    List.map fst (bands out) = [name] /\
    (forall key, properties out !! key
                 = if bool_decide (key = "system:time_start" \/ key = "system:time_end")
                   then properties image !! key else None) /\
    forall p, pixel out name p
              = match b p, kb p with
                | Some lst, Some kelvin => Some (lst + ((kelvin - 273.15) - lst) * alpha)%Q
                | _, _ => None
                end.
Proof.
  intros -> Ht Hfirst Hbi Hbe.
  unfold calibrate_with. simpl. rewrite Ht. simpl. rewrite Hfirst. simpl.
  unfold Image_subtract.
  rewrite (Image_binop_single _ _ (Image_subtract_const e 273.15) image ne n
             (fun p => (fun v : Q => (v - 273.15)%Q) <$> kb p) b);
    [| unfold Image_subtract_const, Image_map; rewrite Hbe; reflexivity | exact Hbi].
  simpl. unfold Image_add.
  rewrite (Image_binop_single _ _ image _ n ne b
             (fun p => (fun v : Q => (v * alpha)%Q)
                         <$> Band_binop Qminus
                               (fun p => (fun v : Q => (v - 273.15)%Q) <$> kb p) b p));
    [| exact Hbi | reflexivity].
  simpl. eexists. split; [reflexivity|]. split; [reflexivity|]. split.
  - intros key. apply properties_copy_times.
  - intros p. rewrite pixel_copyProperties, pixel_single, String.eqb_refl.
    unfold Band_binop. destruct (b p), (kb p); reflexivity.
Qed.

Lemma calibrate_with_unmatched (era5 : result (list (Image Q))) (coll : list (Image Q))
    (name : string) (image : Image Q) (alpha : Q) (t : Z) :
  era5 = Ok coll ->
  Image_date image = Ok t ->
  ImageCollection_filter (Filter_date t) coll = [] ->
  calibrate_with era5 name image alpha = Err (ParameterRequired "Image.subtract" "image1").
Proof.
  intros -> Ht Hnone. unfold calibrate_with. simpl. rewrite Ht. simpl.
  rewrite Hnone. reflexivity.
Qed.

(** C10, as amended. For a single-band LST raster whose date has a matching
    reanalysis raster, the calibrated raster of each kind is defined at
    exactly the pixels where both the LST raster and that reanalysis raster
    are defined, carries the single band named after the kind, and has the
    input's [system:time_start] and [system:time_end] and no other
    property. *)
Theorem calibrated_mask_band_times (k : Kind) (E coll : list (Image Q)) (image : Image Q)
    (alpha : Q) (t : Z) (e : Image Q) (n : string) (b : Band Q) :
  era5_of k E = Ok coll ->
  Image_date image = Ok t ->
  ImageCollection_first (ImageCollection_filter (Filter_date t) coll) = Some e ->
  bands image = [(n, b)] ->
  exists out,
    calibrate k E image alpha = Ok out /\
    List.map fst (bands out) = [air_temperature_band k] /\
    (forall p, is_Some (pixel out (air_temperature_band k) p)
               <-> is_Some (pixel image n p) /\ is_Some (pixel e (era5_band k) p)) /\
    (forall key, properties out !! key
                 = if bool_decide (key = "system:time_start" \/ key = "system:time_end")
                   then properties image !! key else None).
Proof.
  intros Hera Ht Hfirst Hbi.
  destruct (first_filter_In _ _ _ Hfirst) as [Hin _].
  destruct (era5_of_single_band k E coll e Hera Hin) as (e0 & kb & _ & _ & He).
  assert (Hbe : bands e = [(era5_band k, kb)]) by (rewrite He; reflexivity).
  destruct (calibrate_with_matched (era5_of k E) coll (air_temperature_band k) image alpha
              t e n (era5_band k) b kb Hera Ht Hfirst Hbi Hbe)
    as (out & Hout & Hnames & Hprops & Hpx).
  exists out. rewrite calibrate_eq. split; [exact Hout|]. split; [exact Hnames|].
  split; [|exact Hprops].
  intros p. rewrite Hpx.
  assert (Hi : pixel image n p = b p).
  { unfold pixel. rewrite Hbi. simpl. rewrite String.eqb_refl. reflexivity. }
  assert (Hk : pixel e (era5_band k) p = kb p).
  { rewrite He, pixel_single, String.eqb_refl. reflexivity. }
  rewrite Hi, Hk. destruct (b p), (kb p); split.
  all: try (intros _; split; eexists; reflexivity).
  all: try (intros _; eexists; reflexivity).
  all: try (intros [x Hx]; discriminate).
  all: intros [[x Hx] [y Hy]]; discriminate.
Qed.

Lemma calibrated_mask_band_times_witness :
  exists out,
    calibrate Max sample_ERA5 (lst_observation jan01 26.85) 0.6 = Ok out /\
    List.map fst (bands out) = ["air_temperature_max"] /\
    properties out !! "system:time_start" = Some jan01.
Proof.
  destruct (calibrated_mask_band_times Max sample_ERA5
              [mkImage [("maximum_2m_air_temperature", constant_band 308.15%Q)]
                 (time_properties jan01);
               mkImage [("maximum_2m_air_temperature", constant_band 309.15%Q)]
                 (time_properties (jan01 + day_millis))]
              (lst_observation jan01 26.85) 0.6 jan01
              (mkImage [("maximum_2m_air_temperature", constant_band 308.15%Q)]
                 (time_properties jan01))
              "LST" (constant_band 26.85%Q))
    as (out & Hout & Hnames & _ & Hprops); try reflexivity.
  exists out. split; [exact Hout|]. split; [exact Hnames|].
  rewrite Hprops. reflexivity.
Defined.

(** C10, as stated, fails: where the matching reanalysis raster has no data
    the calibrated raster is masked although the LST input is defined. *)
Lemma calibrated_masked_where_reanalysis_masked :
  exists out,
    calibrate Mean [era5_observation_with_gap jan01 303.15] (lst_observation jan01 26.85) 0.6
    = Ok out /\
    pixel (lst_observation jan01 26.85) "LST" (0, 0) = Some 26.85%Q /\
    pixel out "air_temperature_mean" (0, 0) = None /\
    ~ (forall p, is_Some (pixel out "air_temperature_mean" p)
                 <-> is_Some (pixel (lst_observation jan01 26.85) "LST" p)).
Proof.
  eexists. split; [reflexivity|]. split; [reflexivity|]. split; [reflexivity|].
  intros H. destruct (proj2 (H (0, 0))) as [x Hx]; [eexists; reflexivity|].
  discriminate.
Qed.

(** ** The region selector *)

Lemma Filter_eq_true (name value : string) (f : Feature) :
  Filter_eq name value f = true <-> feature_properties f !! name = Some value.
Proof.
  unfold Filter_eq. destruct (feature_properties f !! name) as [v|].
  - rewrite String.eqb_eq. split; [intros ->; reflexivity | intros [= ->]; reflexivity].
  - split; discriminate.
Qed.

Lemma elem_of_FeatureCollection_geometry (fc : list Feature) (p : Pixel) :
  p ∈ FeatureCollection_geometry fc <-> exists f, In f fc /\ p ∈ geometry f.
Proof.
  unfold FeatureCollection_geometry. rewrite elem_of_union_list. split.
  - intros (X & HX & Hp). apply list_elem_of_In, List.in_map_iff in HX as (f & <- & Hf).
    exists f. split; assumption.
  - intros (f & Hf & Hp). exists (geometry f). split; [|exact Hp].
    apply list_elem_of_In, List.in_map. exact Hf.
Qed.

(** C5, as amended. The region selector returns every boundary of the
    dataset whose [Bioma] attribute is [Pantanal], in the order of the
    dataset, whatever their number; the region it stands for is the union of
    their geometries. *)
Theorem roi_all_matches (dataset : list Feature) :
  roi dataset
  = List.filter (fun f => bool_decide (feature_properties f !! "Bioma" = Some "Pantanal"))
      dataset /\
  (forall f, In f (roi dataset)
             <-> In f dataset /\ feature_properties f !! "Bioma" = Some "Pantanal") /\
  (forall p, p ∈ FeatureCollection_geometry (roi dataset)
             <-> exists f, In f dataset /\
                           feature_properties f !! "Bioma" = Some "Pantanal" /\
                           p ∈ geometry f).
Proof.
  assert (Hin : forall f, In f (roi dataset)
                  <-> In f dataset /\ feature_properties f !! "Bioma" = Some "Pantanal").
  { intros f. unfold roi, FeatureCollection_filter.
    rewrite List.filter_In, Filter_eq_true. reflexivity. }
  split; [|split; [exact Hin|]].
  - unfold roi, FeatureCollection_filter. apply List.filter_ext. intros f.
    destruct (Filter_eq "Bioma" "Pantanal" f) eqn:E.
    + apply Filter_eq_true in E. symmetry. apply bool_decide_eq_true_2, E.
    + symmetry. apply bool_decide_eq_false_2. intros Hc.
      apply Filter_eq_true in Hc. congruence.
  - intros p. rewrite elem_of_FeatureCollection_geometry. split.
    + intros (f & Hf & Hp). apply Hin in Hf as [Hf Hb]. eauto.
    + intros (f & Hf & Hb & Hp). exists f. split; [apply Hin; split; assumption | exact Hp].
Qed.

(** C5, as stated, fails: with no matching boundary and with two matching
    boundaries the selector returns a collection and the run completes. *)
Lemma region_selector_never_fails :
  roi [cerrado_feature] = [] /\
  roi [pantanal_feature; cerrado_feature; pantanal_feature2]
  = [pantanal_feature; pantanal_feature2] /\
  (exists out, script [cerrado_feature] sample_ERA5 sample_MOD11A1 sample_sqrt = Ok out) /\
  (exists out, script [pantanal_feature; cerrado_feature; pantanal_feature2]
                 sample_ERA5 sample_MOD11A1 sample_sqrt = Ok out) /\
  ~ (forall dataset E M sqrtQ,
       length (roi dataset) <> 1%nat -> exists e, script dataset E M sqrtQ = Err e).
Proof.
  assert (H0 : exists out,
             script [cerrado_feature] sample_ERA5 sample_MOD11A1 sample_sqrt = Ok out).
  { apply is_Ok_true. vm_compute. reflexivity. }
  split; [reflexivity|]. split; [reflexivity|]. split; [exact H0|].
  split; [apply is_Ok_true; vm_compute; reflexivity|].
  intros Hclaim. destruct H0 as (out & Hout).
  destruct (Hclaim [cerrado_feature] sample_ERA5 sample_MOD11A1 sample_sqrt) as (e & He).
  - discriminate.
  - rewrite Hout in He. discriminate.
Qed.

(** ** The run and its sinks *)

Lemma sample_run :
  exists out, script sample_biomas sample_ERA5 sample_MOD11A1 sample_sqrt = Ok out.
Proof. apply is_Ok_true. vm_compute. reflexivity. Qed.

Lemma pixel_Image_round (img : Image Q) (name : string) (p : Pixel) :
  pixel (Image_round img) name p = round_half_up <$> pixel img name p.
Proof. apply pixel_Image_map. Qed.

Lemma script_Ok (B : list Feature) (E : list (Image Q)) (M : list (Image Z))
    (sqrtQ : Q -> Q) (out : Outputs) :
  script B E M sqrtQ = Ok out ->
  exists meanT maxT minT st fc tc cMean cMax cMin,
    meanAirTemp B E M = Ok meanT /\
    maxAirTemp B E M = Ok maxT /\
    minAirTemp B E M = Ok minT /\
    stats B E M sqrtQ = Ok st /\
    statsFC B E M = Ok fc /\
    timeChart B E M = Ok tc /\
    chartMean B E M = Ok cMean /\
    chartMax B E M = Ok cMax /\
    chartMin B E M = Ok cMin /\
    layers out
    = [ mkLayer (contorno B) (mkVisualization ["red"] None None) "Pantanal Boundary";
        mkLayer (Raster meanT) (mkVisualization temperature_palette (Some 25) (Some 35))
          "Mean Air Temperature (°C)";
        mkLayer (Raster maxT) (mkVisualization temperature_palette (Some 30) (Some 40))
          "Max Air Temperature (°C)";
        mkLayer (Raster minT) (mkVisualization temperature_palette (Some 15) (Some 25))
          "Min Air Temperature (°C)" ] /\
    console out
    = [ PrintDictionary "Air Temperature Statistics - Pantanal (Jan 2020):" st;
        PrintFeatures "Temporal Statistics:" fc;
        PrintFeatureChart tc;
        PrintSeriesChart cMean;
        PrintSeriesChart cMax;
        PrintSeriesChart cMin ] /\
    exports out
    = [ mkExportTask (Image_round meanT) "MeanAirTemp_Pantanal_Jan2020" "GEE"
          (FeatureCollection_geometry (roi B)) 1000 "EPSG:4326" 10000000000000;
        mkExportTask (Image_round maxT) "MaxAirTemp_Pantanal_Jan2020" "GEE"
          (FeatureCollection_geometry (roi B)) 1000 "EPSG:4326" 10000000000000;
        mkExportTask (Image_round minT) "MinAirTemp_Pantanal_Jan2020" "GEE"
          (FeatureCollection_geometry (roi B)) 1000 "EPSG:4326" 10000000000000 ].
Proof.
  intros H. unfold script in H.
  apply bind_Ok in H as (meanT & HmeanT & H).
  apply bind_Ok in H as (maxT & HmaxT & H).
  apply bind_Ok in H as (minT & HminT & H).
  apply bind_Ok in H as (cMean & HcMean & H).
  apply bind_Ok in H as (st & Hst & H).
  apply bind_Ok in H as (fc & Hfc & H).
  apply bind_Ok in H as (tc & Htc & H).
  apply bind_Ok in H as (cMax & HcMax & H).
  apply bind_Ok in H as (cMin & HcMin & H).
  apply bind_Ok in H as (ex & Hex & H).
  injection H as <-.
  unfold export_tasks in Hex. rewrite HmeanT, HmaxT, HminT in Hex. simpl in Hex.
  injection Hex as <-.
  exists meanT, maxT, minT, st, fc, tc, cMean, cMax, cMin.
  repeat (split; [assumption|]). repeat split.
Qed.

(** C8. In a completed run the three exports are described as
    [MeanAirTemp_Pantanal_Jan2020], [MaxAirTemp_Pantanal_Jan2020] and
    [MinAirTemp_Pantanal_Jan2020]; the naming scheme applied to the region
    and to the date window of the run gives the names ending in [Jan2010],
    which they are not. *)
Theorem export_descriptions (B : list Feature) (E : list (Image Q)) (M : list (Image Z))
    (sqrtQ : Q -> Q) (out : Outputs) :
  script B E M sqrtQ = Ok out ->
  List.map description (exports out)
  = ["MeanAirTemp_Pantanal_Jan2020"; "MaxAirTemp_Pantanal_Jan2020";
     "MinAirTemp_Pantanal_Jan2020"] /\
  spec_export_names
  = ["MeanAirTemp_Pantanal_Jan2010"; "MaxAirTemp_Pantanal_Jan2010";
     "MinAirTemp_Pantanal_Jan2010"] /\
  List.map description (exports out) <> spec_export_names.
Proof.
  intros H.
  destruct (script_Ok B E M sqrtQ out H)
    as (meanT & maxT & minT & st & fc & tc & cMean & cMax & cMin &
        _ & _ & _ & _ & _ & _ & _ & _ & _ & _ & _ & He).
  rewrite He. split; [reflexivity|]. split; [reflexivity|]. discriminate.
Qed.

Lemma export_descriptions_witness :
  exists out,
    script sample_biomas sample_ERA5 sample_MOD11A1 sample_sqrt = Ok out /\
    List.map description (exports out) <> spec_export_names.
Proof.
  destruct sample_run as (out & Hout). exists out. split; [exact Hout|].
  exact (proj2 (proj2 (export_descriptions sample_biomas sample_ERA5 sample_MOD11A1
                         sample_sqrt out Hout))).
Defined.

(** ** The date window of the run *)

Lemma window_spec {V} (c : list (Image V)) (img : Image V) :
  In img (window c) <->
  In img c /\ exists t, properties img !! "system:time_start" = Some t /\
                        1262304000000 <= t < 1264896000000.
Proof.
  unfold window, ImageCollection_filter. rewrite List.filter_In.
  unfold Filter_dateRange. destruct (properties img !! "system:time_start") as [t|].
  - rewrite andb_true_iff, Z.leb_le, Z.ltb_lt. split.
    + intros [Hin Ht]. split; [exact Hin|]. exists t. split; [reflexivity | exact Ht].
    + intros [Hin (t' & [= <-] & Ht)]. split; [exact Hin | exact Ht].
  - split; [intros [_ Hf]; discriminate | intros [_ (t' & Hf & _)]; discriminate].
Qed.

Lemma window_excludes_end {V} (c : list (Image V)) (img : Image V) :
  properties img !! "system:time_start" = Some jan31 -> ~ In img (window c).
Proof.
  intros Ht Hin. apply window_spec in Hin as (_ & t & Ht' & Hrange).
  rewrite Ht in Ht'. injection Ht' as <-. unfold jan31 in Hrange. lia.
Qed.

(** C7. The date filter of the run keeps the observations from 2010-01-01
    up to, and not including, 2010-01-31: an observation stamped
    2010-01-31T00:00 is dropped from the day and night LST series and from
    the three reanalysis series, one stamped 2010-01-30T00:00 is kept. *)
Theorem window_drops_january_31 :
  Date_fromString "2010-01-31" = Ok jan31 /\
  (forall V (c : list (Image V)),
     ImageCollection_filterDate "2010-01-01" "2010-01-31" c = Ok (window c)) /\
  (forall o, terra o [modis_observation jan31 15000 0 14800 0] = Ok []) /\
  (forall k, era5_of k [era5_observation jan31 303.15 298.15 308.15] = Ok []) /\
  (forall o, length <$> terra o [modis_observation (jan31 - day_millis) 15000 0 14800 0]
             = Ok 1%nat) /\
  (forall k, length <$> era5_of k [era5_observation (jan31 - day_millis) 303.15 298.15 308.15]
             = Ok 1%nat).
Proof.
  split; [vm_compute; reflexivity|].
  split; [intros V c; apply filterDate_window|].
  split; [intros []; reflexivity|].
  split; [intros []; reflexivity|].
  split; intros []; reflexivity.
Qed.

(** ** The aggregator *)

Lemma pixel_ImageCollection_reduce (r : list Q -> option Q) (i : Image Q)
    (c : list (Image Q)) (name : string) (p : Pixel) :
  pixel (ImageCollection_reduce r (i :: c)) name p
  = match lookup_band name (bands i) with
    | Some _ => r (omap (fun img => pixel img name p) (i :: c))
    | None => None
    end.
Proof.
  unfold ImageCollection_reduce, pixel at 1. cbn [bands].
  induction (bands i) as [|[n b] bs IH]; [reflexivity|].
  cbn [List.map lookup_band fst snd]. destruct (String.eqb n name) eqn:En.
  - apply String.eqb_eq in En as ->. reflexivity.
  - exact IH.
Qed.

Lemma names_ImageCollection_reduce (r : list Q -> option Q) (i : Image Q)
    (c : list (Image Q)) :
  List.map fst (bands (ImageCollection_reduce r (i :: c))) = List.map fst (bands i).
Proof. simpl. rewrite List.map_map. reflexivity. Qed.

Lemma Reducer_mean_single (v : Q) : Reducer_mean [v] = Some v.
Proof.
  unfold Reducer_mean. f_equal. destruct v as [n d].
  unfold Qsum, Qdiv, Qmult, Qplus, Qinv; simpl.
  f_equal; [lia | rewrite !Pos.mul_1_r; reflexivity].
Qed.

(** C9. For a series of one element, the pixelwise mean, min and max of the
    aggregator each have that element's band names and, at every pixel of
    every band, that element's value or mask. *)
Theorem single_element_aggregate (img : Image Q) (name : string) (p : Pixel) :
  (List.map fst (bands (ImageCollection_mean [img])) = List.map fst (bands img) /\
   pixel (ImageCollection_mean [img]) name p = pixel img name p) /\
  (List.map fst (bands (ImageCollection_min [img])) = List.map fst (bands img) /\
   pixel (ImageCollection_min [img]) name p = pixel img name p) /\
  (List.map fst (bands (ImageCollection_max [img])) = List.map fst (bands img) /\
   pixel (ImageCollection_max [img]) name p = pixel img name p).
Proof.
  unfold ImageCollection_mean, ImageCollection_min, ImageCollection_max.
  rewrite !names_ImageCollection_reduce, !pixel_ImageCollection_reduce.
  cbn [omap list_omap]. unfold pixel.
  destruct (lookup_band name (bands img)) as [b|]; [|repeat split].
  destruct (b p) as [v|]; [|repeat split].
  rewrite Reducer_mean_single. repeat split.
Qed.

(** ** From the source observations to the calibrated series *)

Lemma Forall2_compose {A B C} (R1 : A -> B -> Prop) (R2 : B -> C -> Prop)
    (l1 : list A) (l2 : list B) (l3 : list C) :
  Forall2 R1 l1 l2 -> Forall2 R2 l2 l3 ->
  Forall2 (fun x z => exists y, R1 x y /\ R2 y z) l1 l3.
Proof.
  intros H. revert l3. induction H as [|x y l1 l2 Hxy _ IH]; intros l3 H23.
  - inversion H23. constructor.
  - inversion H23 as [|? z ? l3' Hyz Hrest]; subst.
    constructor; [exists y; split; assumption | apply IH, Hrest].
Qed.

Lemma mapM_pure {A B} (f : A -> B) (l : list A) :
  mapM (fun x => Ok (f x)) l = Ok (List.map f l).
Proof. induction l as [|x l IH]; simpl; [reflexivity|]. rewrite IH. reflexivity. Qed.

Lemma terra_Ok (o : Overpass) (M : list (Image Z)) (L : list (Image Q)) :
  terra o M = Ok L ->
  Forall2 (fun m l => exists s f,
             Image_select [lst_band o; qc_band o] m = Ok s /\
             quality_filter o s = Ok f /\
             terra_rescale o f = Ok l) (window M) L.
Proof.
  intros H.
  assert (exists c1 c2,
            mapM (Image_select [lst_band o; qc_band o]) (window M) = Ok c1 /\
            mapM (quality_filter o) c1 = Ok c2 /\
            mapM (terra_rescale o) c2 = Ok L) as (c1 & c2 & H1 & H2 & H3).
  { destruct o; unfold terra, day_terra, night_terra in H;
      rewrite filterDate_window in H;
      apply bind_Ok in H as (c0 & [= <-] & H);
      apply bind_Ok in H as (c1 & H1 & H);
      apply bind_Ok in H as (c2 & H2 & H3);
      exists c1, c2; repeat split; assumption. }
  apply mapM_Ok_Forall2 in H1, H2, H3.
  pose proof (Forall2_compose _ _ _ _ _ (Forall2_compose _ _ _ _ _ H1 H2) H3) as H123.
  eapply Forall2_impl; [exact H123|]. cbv beta.
  intros m l (f & (s & Hs & Hf) & Hl). exists s, f. repeat split; assumption.
Qed.

Lemma extract_chain (o : Overpass) (m s f : Image Z) (l : Image Q) :
  Image_select [lst_band o; qc_band o] m = Ok s ->
  quality_filter o s = Ok f ->
  terra_rescale o f = Ok l ->
  List.map fst (bands l) = ["LST"] /\
  (forall key, properties l !! key
               = if bool_decide (key = "system:time_start" \/ key = "system:time_end")
                 then properties m !! key else None) /\
  forall p, pixel l "LST" p
            = match pixel m (qc_band o) p with
              | Some q => if Z.testbit q 2 then None
                          else spec_rescale <$> pixel m (lst_band o) p
              | None => None
              end.
Proof.
  intros Hs Hf Hl.
  apply quality_filter_Ok in Hf as (Hfp & _ & Hfx).
  apply terra_rescale_Ok in Hl as (Hln & Hlp & Hlx).
  split; [exact Hln|]. split.
  - intros key. rewrite Hlp, Hfp.
    destruct (Image_select_pixel _ _ _ "" (0, 0) Hs) as [-> _]. reflexivity.
  - intros p. rewrite Hlx, !Hfx.
    destruct (Image_select_pixel _ _ _ (qc_band o) p Hs) as [_ ->].
    destruct (Image_select_pixel _ _ _ (lst_band o) p Hs) as [_ ->].
    rewrite !bool_decide_eq_true_2 by (destruct o; set_solver).
    destruct (pixel m (qc_band o) p) as [q|]; [|reflexivity].
    destruct (Z.testbit q 2); reflexivity.
Qed.

Lemma airTemp_pantanal_Ok (k : Kind) (B : list Feature) (E : list (Image Q))
    (M : list (Image Z)) (A : list (Image Q)) :
  airTemp_pantanal k B E M = Ok A ->
  exists Ld Ln,
    terra Day M = Ok Ld /\ terra Night M = Ok Ln /\
    Forall2 (fun l a => calibrate k E (Image_clip l (roi B)) alpha = Ok a) (Ld ++ Ln) A.
Proof.
  intros H.
  assert (exists C, combined_pantanal B M = Ok C /\
                    mapM (fun image => calibrate k E image alpha) C = Ok A) as (C & HC & HA).
  { destruct k; apply bind_Ok in H; exact H. }
  unfold combined_pantanal in HC. apply bind_Ok in HC as (c & Hc & HC).
  unfold ImageCollection_map in HC. rewrite mapM_pure in HC. injection HC as <-.
  unfold combined in Hc. apply bind_Ok in Hc as (Ld & HLd & Hc).
  apply bind_Ok in Hc as (Ln & HLn & [= <-]).
  exists Ld, Ln. split; [exact HLd|]. split; [exact HLn|].
  apply mapM_Ok_Forall2 in HA. unfold ImageCollection_merge in HA.
  apply Forall2_fmap_l in HA. exact HA.
Qed.

Lemma required_Ok {A} (alg par : string) (o : option A) (a : A) :
  required alg par o = Ok a -> o = Some a.
Proof. destruct o; simpl; [intros [= ->]; reflexivity | discriminate]. Qed.

Lemma calibrate_Ok_inv (k : Kind) (E : list (Image Q)) (image : Image Q) (alpha : Q)
    (out : Image Q) :
  calibrate k E image alpha = Ok out ->
  exists coll t e,
    era5_of k E = Ok coll /\ Image_date image = Ok t /\
    ImageCollection_first (ImageCollection_filter (Filter_date t) coll) = Some e.
Proof.
  rewrite calibrate_eq. unfold calibrate_with. intros H.
  apply bind_Ok in H as (coll & Hcoll & H).
  apply bind_Ok in H as (t & Ht & H).
  apply bind_Ok in H as (e & He & _).
  apply required_Ok in He. exists coll, t, e. repeat split; assumption.
Qed.

Lemma single_band_names {V} (img : Image V) (n : string) :
  List.map fst (bands img) = [n] -> exists b, bands img = [(n, b)].
Proof.
  destruct (bands img) as [|[n' b] [|? ?]]; simpl; try discriminate.
  intros [= ->]. exists b. reflexivity.
Qed.

Lemma masked_single {V} (img : Image V) (n : string) (p : Pixel) :
  List.map fst (bands img) = [n] -> pixel img n p = None -> masked_at img p.
Proof.
  intros Hn Hp name. apply single_band_names in Hn as (b & Hb).
  unfold pixel in *. rewrite Hb in *. simpl in *. rewrite String.eqb_refl in Hp.
  destruct (String.eqb n name); [exact Hp | reflexivity].
Qed.


(** * Further properties of the script *)

(** ** Collections mapped in stages *)

Lemma mapM_Err_inv {A B} (f : A -> result B) (l : list A) (e : EEError) :
  mapM f l = Err e -> exists x, In x l /\ f x = Err e.
Proof.
  induction l as [|x l IH]; simpl; [discriminate|].
  destruct (f x) as [y|e'] eqn:Hx; simpl.
  - destruct (mapM f l) as [k|e''] eqn:Hl; simpl; [discriminate|].
    intros [= <-]. destruct (IH eq_refl) as (x' & Hin & Hx').
    exists x'. split; [right; exact Hin | exact Hx'].
  - intros [= <-]. exists x. split; [left; reflexivity | exact Hx].
Qed.

Lemma mapM_Ok_all {A B} (f : A -> result B) (l : list A) :
  (forall x, In x l -> exists y, f x = Ok y) -> exists l', mapM f l = Ok l'.
Proof.
  induction l as [|x l IH]; intros H; simpl; [eexists; reflexivity|].
  destruct (H x (or_introl eq_refl)) as (y & ->).
  destruct IH as (k & ->); [intros x' Hx'; apply H; right; exact Hx'|].
  eexists. reflexivity.
Qed.

Lemma Forall2_In_r {A B} (R : A -> B -> Prop) (l : list A) (l' : list B) (y : B) :
  Forall2 R l l' -> In y l' -> exists x, In x l /\ R x y.
Proof.
  induction 1 as [|x y' l l' Hxy _ IH]; intros Hin; [destruct Hin|].
  destruct Hin as [<-|Hin].
  - exists x. split; [left; reflexivity | exact Hxy].
  - destruct (IH Hin) as (x' & Hx' & HR). exists x'. split; [right; exact Hx' | exact HR].
Qed.

Lemma Forall2_In_l {A B} (R : A -> B -> Prop) (l : list A) (l' : list B) (x : A) :
  Forall2 R l l' -> In x l -> exists y, In y l' /\ R x y.
Proof.
  induction 1 as [|x' y l l' Hxy _ IH]; intros Hin; [destruct Hin|].
  destruct Hin as [<-|Hin].
  - exists y. split; [left; reflexivity | exact Hxy].
  - destruct (IH Hin) as (y' & Hy' & HR). exists y'. split; [right; exact Hy' | exact HR].
Qed.

(** ** The LST extractor *)

Lemma Image_select_pair {V} (a b : string) (m s : Image V) :
  Image_select [a; b] m = Ok s <->
  exists x y, lookup_band a (bands m) = Some x /\ lookup_band b (bands m) = Some y /\
              s = mkImage [(a, x); (b, y)] (properties m).
Proof.
  unfold Image_select; simpl.
  destruct (lookup_band a (bands m)) as [x|]; simpl;
    [destruct (lookup_band b (bands m)) as [y|]; simpl|]; split.
  - intros [= <-]. eauto.
  - intros (x' & y' & [= <-] & [= <-] & ->). reflexivity.
  - discriminate.
  - intros (x' & y' & _ & Hy & _). discriminate.
  - discriminate.
  - intros (x' & y' & Hx & _). discriminate.
Qed.

Lemma Image_select_Err {V} (names : list string) (m : Image V) (e : EEError) :
  Image_select names m = Err e ->
  exists n, In n names /\ lookup_band n (bands m) = None /\ e = BandNotFound "Image.select" n.
Proof.
  unfold Image_select. intros H.
  destruct (mapM _ names) as [bs|e'] eqn:Hm; simpl in H; [discriminate|].
  injection H as ->. apply mapM_Err_inv in Hm as (n & Hin & Hn).
  exists n. split; [exact Hin|].
  destruct (lookup_band n (bands m)); [discriminate|].
  injection Hn as <-. split; reflexivity.
Qed.

(** An observation with both bands of an overpass goes through selection,
    quality filter and rescale. *)
Lemma selected_chain_total (o : Overpass) (props : gmap string Z) (x y : Band Z) :
  exists f l,
    quality_filter o (mkImage [(lst_band o, x); (qc_band o, y)] props) = Ok f /\
    List.map fst (bands f) = [lst_band o; qc_band o] /\
    terra_rescale o f = Ok l.
Proof.
  destruct o; do 2 eexists; (split; [reflexivity|]); split; reflexivity.
Qed.

Lemma terra_stages (o : Overpass) (M : list (Image Z)) :
  terra o M
  = (mapM (Image_select [lst_band o; qc_band o]) (window M) ≫= fun c1 =>
     mapM (quality_filter o) c1 ≫= fun c2 =>
     mapM (terra_rescale o) c2).
Proof.
  destruct o; unfold terra, day_terra, night_terra; rewrite filterDate_window; reflexivity.
Qed.

(** Once the two bands are selected from every observation of the window,
    the rest of the extractor cannot fail. *)
Lemma terra_after_select (o : Overpass) (M c1 : list (Image Z)) :
  mapM (Image_select [lst_band o; qc_band o]) (window M) = Ok c1 ->
  exists L, terra o M = Ok L.
Proof.
  intros H1. rewrite terra_stages, H1. simpl.
  apply mapM_Ok_Forall2 in H1.
  assert (Hsel : forall s, In s c1 ->
            exists props x y, s = mkImage [(lst_band o, x); (qc_band o, y)] props).
  { intros s Hs. destruct (Forall2_In_r _ _ _ s H1 Hs) as (m & _ & Hm).
    apply Image_select_pair in Hm as (x & y & _ & _ & ->). eauto. }
  destruct (mapM_Ok_all (quality_filter o) c1) as (c2 & H2).
  { intros s Hs. destruct (Hsel s Hs) as (props & x & y & ->).
    destruct (selected_chain_total o props x y) as (f & _ & Hf & _). eauto. }
  rewrite H2. simpl. apply mapM_Ok_Forall2 in H2.
  apply mapM_Ok_all. intros f Hf.
  destruct (Forall2_In_r _ _ _ f H2 Hf) as (s & Hs & Hsf).
  destruct (Hsel s Hs) as (props & x & y & ->).
  destruct (selected_chain_total o props x y) as (f' & l & Hf' & _ & Hl).
  rewrite Hsf in Hf'. injection Hf' as <-. eauto.
Qed.

Lemma terra_Err_inv (o : Overpass) (M : list (Image Z)) (e : EEError) :
  terra o M = Err e ->
  exists m b, In m (window M) /\ (b = lst_band o \/ b = qc_band o) /\
              lookup_band b (bands m) = None /\ e = BandNotFound "Image.select" b.
Proof.
  intros He.
  destruct (mapM (Image_select [lst_band o; qc_band o]) (window M)) as [c1|e1] eqn:H1.
  - destruct (terra_after_select o M c1 H1) as (L & HL). rewrite HL in He. discriminate.
  - rewrite terra_stages, H1 in He. simpl in He. injection He as <-.
    apply mapM_Err_inv in H1 as (m & Hm & Hsel).
    apply Image_select_Err in Hsel as (b & Hb & Hnone & ->).
    exists m, b. split; [exact Hm|]. split; [|split; [exact Hnone | reflexivity]].
    destruct Hb as [<-|[<-|[]]]; [left | right]; reflexivity.
Qed.

(** X1. The extractor of an overpass succeeds exactly when every observation
    of the date window has the LST band and the quality band of that
    overpass; when it fails, the error is the platform's for a band that
    [select] does not find in one of those observations. *)
Theorem terra_fails_only_on_missing_band (o : Overpass) (M : list (Image Z)) :
  ((exists L, terra o M = Ok L) <->
   forall m, In m (window M) -> has_band (lst_band o) m /\ has_band (qc_band o) m) /\
  (forall e, terra o M = Err e ->
     exists m b, In m (window M) /\ (b = lst_band o \/ b = qc_band o) /\
                 lookup_band b (bands m) = None /\ e = BandNotFound "Image.select" b).
Proof.
  split; [split|].
  - intros (L & HL) m Hm. apply terra_Ok in HL.
    destruct (Forall2_In_l _ _ _ m HL Hm) as (l & _ & s & f & Hs & _).
    apply Image_select_pair in Hs as (x & y & Hx & Hy & _).
    unfold has_band. rewrite Hx, Hy. split; eexists; reflexivity.
  - intros H.
    destruct (mapM_Ok_all (Image_select [lst_band o; qc_band o]) (window M)) as (c1 & H1).
    { intros m Hm. destruct (H m Hm) as [[x Hx] [y Hy]].
      eexists. apply Image_select_pair. eauto. }
    exact (terra_after_select o M c1 H1).
  - intros e He. exact (terra_Err_inv o M e He).
Qed.

Lemma terra_fails_only_on_missing_band_witness :
  exists m b,
    In m (window [modis_observation_without_QC_Day jan01 15000 14800 0]) /\
    (b = lst_band Day \/ b = qc_band Day) /\
    lookup_band b (bands m) = None /\
    BandNotFound "Image.select" "QC_Day" = BandNotFound "Image.select" b.
Proof.
  apply (proj2 (terra_fails_only_on_missing_band Day
                  [modis_observation_without_QC_Day jan01 15000 14800 0])).
  reflexivity.
Defined.

Lemma Forall2_impl_In {A B} (R R' : A -> B -> Prop) (l : list A) (l' : list B) :
  Forall2 R l l' -> (forall x y, In x l -> R x y -> R' x y) -> Forall2 R' l l'.
Proof.
  induction 1 as [|x y l l' Hxy _ IH]; intros H; constructor.
  - apply H; [left; reflexivity | exact Hxy].
  - apply IH. intros x' y' Hin. apply H. right. exact Hin.
Qed.

(** X2. The LST series of an overpass has one raster per observation of the
    date window, in the order of the dataset; each has the single band
    [LST], the start and end timestamps of its observation and no other
    property, and its start lies in the window. *)
Theorem terra_series_shape (o : Overpass) (M : list (Image Z)) (L : list (Image Q)) :
  terra o M = Ok L ->
  Forall2 (fun m l =>
             List.map fst (bands l) = ["LST"] /\
             (forall key, properties l !! key
                          = if bool_decide (key = "system:time_start" \/ key = "system:time_end")
                            then properties m !! key else None) /\
             exists t, time_start l = Some t /\ time_start m = Some t /\
                       1262304000000 <= t < 1264896000000)
    (window M) L.
Proof.
  intros H. apply terra_Ok in H.
  eapply Forall2_impl_In; [exact H|]. cbv beta.
  intros m l Hm (s & f & Hs & Hf & Hl).
  destruct (extract_chain o m s f l Hs Hf Hl) as (Hn & Hp & _).
  split; [exact Hn|]. split; [exact Hp|].
  apply window_spec in Hm as (_ & t & Ht & Hrange).
  exists t. unfold time_start. rewrite Hp.
  rewrite bool_decide_eq_true_2 by (left; reflexivity).
  repeat split; try exact Ht; apply Hrange.
Qed.

Lemma terra_series_shape_witness :
  exists L,
    terra Night sample_MOD11A1 = Ok L /\
    List.map time_start L = [Some jan01; Some (jan01 + day_millis)].
Proof.
  destruct (is_Ok_true (terra Night sample_MOD11A1)) as (L & HL); [vm_compute; reflexivity|].
  exists L. split; [exact HL|].
  pose proof (terra_series_shape Night sample_MOD11A1 L HL) as H.
  change (window sample_MOD11A1) with sample_MOD11A1 in H.
  inversion H as [|m1 l1 ? ? (_ & _ & t1 & Hl1 & Hm1 & _) H']; subst.
  inversion H' as [|m2 l2 ? ? (_ & _ & t2 & Hl2 & Hm2 & _) H'']; subst.
  inversion H''; subst. simpl. rewrite Hl1, Hl2, <- Hm1, <- Hm2. reflexivity.
Defined.

(** ** The merged and clipped LST series *)

Lemma combined_pantanal_Ok (B : list Feature) (M : list (Image Z)) (C : list (Image Q)) :
  combined_pantanal B M = Ok C <->
  exists Ld Ln, terra Day M = Ok Ld /\ terra Night M = Ok Ln /\
                C = List.map (fun l => Image_clip l (roi B)) (Ld ++ Ln).
Proof.
  unfold combined_pantanal, combined, ImageCollection_map, ImageCollection_merge. split.
  - intros H. apply bind_Ok in H as (c & Hc & H). rewrite mapM_pure in H.
    injection H as <-. apply bind_Ok in Hc as (Ld & HLd & Hc).
    apply bind_Ok in Hc as (Ln & HLn & [= <-]). exists Ld, Ln. repeat split; assumption.
  - intros (Ld & Ln & HLd & HLn & ->). simpl terra in HLd, HLn. rewrite HLd, HLn. simpl.
    apply mapM_pure.
Qed.

Lemma source_series (M : list (Image Z)) (Ld Ln : list (Image Q)) :
  terra Day M = Ok Ld -> terra Night M = Ok Ln ->
  Forall2 (fun (src : Overpass * Image Z) l =>
             In src.2 (window M) /\
             exists s f, Image_select [lst_band src.1; qc_band src.1] src.2 = Ok s /\
                         quality_filter src.1 s = Ok f /\
                         terra_rescale src.1 f = Ok l)
    (source_observations M) (Ld ++ Ln).
Proof.
  intros HLd HLn. apply terra_Ok in HLd, HLn.
  unfold source_observations. apply Forall2_app; apply Forall2_fmap_l.
  - eapply Forall2_impl_In; [exact HLd|]. intros m l Hm H. split; [exact Hm | exact H].
  - eapply Forall2_impl_In; [exact HLn|]. intros m l Hm H. split; [exact Hm | exact H].
Qed.

(** X3. The clipped series holds the rasters of the day overpass followed by
    those of the night overpass, one per observation of the window; each has
    the single band [LST] and the timestamp of its observation, and at a
    pixel it holds the rescaled digital number where the pixel lies in the
    region and bit 2 of the quality flag is clear, and is masked
    otherwise. *)
Theorem clipped_series (B : list Feature) (M : list (Image Z)) (C : list (Image Q)) :
  combined_pantanal B M = Ok C ->
  Forall2 (fun (src : Overpass * Image Z) c =>
             List.map fst (bands c) = ["LST"] /\
             time_start c = time_start src.2 /\
             forall p,
               pixel c "LST" p
               = if bool_decide (p ∈ FeatureCollection_geometry (roi B))
                 then match pixel src.2 (qc_band src.1) p with
                      | Some q => if Z.testbit q 2 then None
                                  else spec_rescale <$> pixel src.2 (lst_band src.1) p
                      | None => None
                      end
                 else None)
    (source_observations M) C.
Proof.
  intros H. apply combined_pantanal_Ok in H as (Ld & Ln & HLd & HLn & ->).
  apply Forall2_fmap_r.
  eapply Forall2_impl; [exact (source_series M Ld Ln HLd HLn)|]. cbv beta.
  intros [o m] l (_ & s & f & Hs & Hf & Hl). cbn [fst snd] in *.
  destruct (extract_chain o m s f l Hs Hf Hl) as (Hn & Hp & Hpx).
  split; [|split].
  - unfold Image_clip. cbn [bands]. rewrite List.map_map. exact Hn.
  - unfold time_start. change (properties (Image_clip l (roi B))) with (properties l).
    rewrite Hp. rewrite bool_decide_eq_true_2 by (left; reflexivity). reflexivity.
  - intros p. rewrite pixel_Image_clip, Hpx. reflexivity.
Qed.

Lemma clipped_series_witness :
  exists C,
    combined_pantanal sample_biomas sample_MOD11A1 = Ok C /\
    length C = 4%nat.
Proof.
  destruct (is_Ok_true (combined_pantanal sample_biomas sample_MOD11A1)) as (C & HC);
    [vm_compute; reflexivity|].
  exists C. split; [exact HC|].
  pose proof (Forall2_length _ _ _ (clipped_series sample_biomas sample_MOD11A1 C HC)) as H.
  rewrite <- H. reflexivity.
Defined.

(** ** Which reanalysis raster the calibrator uses *)

Lemma Filter_date_true {V} (t : Z) (e : Image V) :
  Filter_date t e = true <-> time_start e = Some t.
Proof.
  unfold Filter_date, Filter_dateRange, time_start.
  destruct (properties e !! "system:time_start") as [t'|].
  - rewrite andb_true_iff, Z.leb_le, Z.ltb_lt. split.
    + intros [H1 H2]. f_equal. lia.
    + intros [= ->]. lia.
  - split; discriminate.
Qed.

Lemma Image_date_Ok {V} (img : Image V) (t : Z) :
  Image_date img = Ok t <-> time_start img = Some t.
Proof.
  unfold Image_date, time_start. destruct (properties img !! "system:time_start").
  - split; intros [= ->]; reflexivity.
  - split; discriminate.
Qed.

Lemma era5_of_members (k : Kind) (E coll : list (Image Q)) :
  era5_of k E = Ok coll ->
  (forall e, In e coll ->
     exists e0 kb, In e0 (window E) /\ lookup_band (era5_band k) (bands e0) = Some kb /\
                   e = mkImage [(era5_band k, kb)] (properties e0)) /\
  (forall e0, In e0 (window E) ->
     exists e kb, In e coll /\ lookup_band (era5_band k) (bands e0) = Some kb /\
                  e = mkImage [(era5_band k, kb)] (properties e0)).
Proof.
  intros H. split.
  - intros e He. exact (era5_of_single_band k E coll e H He).
  - intros e0 He0. apply era5_of_Ok in H.
    destruct (Forall2_In_l _ _ _ e0 H He0) as (e & He & Hsel).
    apply Image_select_single in Hsel as (kb & Hkb & ->).
    exists (mkImage [(era5_band k, kb)] (properties e0)), kb.
    split; [exact He|]. split; [exact Hkb | reflexivity].
Qed.

Lemma first_filter_None {V} (flt : Image V -> bool) (c : list (Image V)) :
  ImageCollection_first (ImageCollection_filter flt c) = None ->
  ImageCollection_filter flt c = [] /\ forall e, In e c -> flt e = false.
Proof.
  unfold ImageCollection_first, ImageCollection_filter. intros H.
  destruct (List.filter flt c) as [|x l] eqn:Hf; [|discriminate].
  split; [reflexivity|]. intros e He. destruct (flt e) eqn:Hfe; [|reflexivity].
  assert (Hin : In e (List.filter flt c)) by (apply List.filter_In; split; assumption).
  rewrite Hf in Hin. destruct Hin.
Qed.

(** What a successful calibration of a single-band raster was computed from. *)
Lemma calibrate_single_inv (k : Kind) (E : list (Image Q)) (image : Image Q) (alpha : Q)
    (out : Image Q) (n : string) (b : Band Q) :
  bands image = [(n, b)] ->
  calibrate k E image alpha = Ok out ->
  exists coll t e kb,
    era5_of k E = Ok coll /\ time_start image = Some t /\
    ImageCollection_first (ImageCollection_filter (Filter_date t) coll) = Some e /\
    In e coll /\ time_start e = Some t /\ bands e = [(era5_band k, kb)] /\
    List.map fst (bands out) = [air_temperature_band k] /\
    (forall key, properties out !! key
                 = if bool_decide (key = "system:time_start" \/ key = "system:time_end")
                   then properties image !! key else None) /\
    forall p, pixel out (air_temperature_band k) p
              = match b p, kb p with
                | Some lst, Some kelvin => Some (lst + ((kelvin - 273.15) - lst) * alpha)%Q
                | _, _ => None
                end.
Proof.
  intros Hb Hout.
  destruct (calibrate_Ok_inv k E image alpha out Hout) as (coll & t & e & Hcoll & Ht & He).
  destruct (first_filter_In _ _ _ He) as [Hin Hflt].
  destruct (era5_of_single_band k E coll e Hcoll Hin) as (e0 & kb & _ & _ & Hek).
  assert (Hbe : bands e = [(era5_band k, kb)]) by (rewrite Hek; reflexivity).
  destruct (calibrate_with_matched (era5_of k E) coll (air_temperature_band k) image alpha
              t e n (era5_band k) b kb Hcoll Ht He Hb Hbe)
    as (out' & Hout' & Hn & Hp & Hpx).
  rewrite <- calibrate_eq, Hout in Hout'. injection Hout' as <-.
  exists coll, t, e, kb.
  split; [exact Hcoll|]. split; [apply Image_date_Ok, Ht|]. split; [exact He|].
  split; [exact Hin|]. split; [apply Filter_date_true, Hflt|].
  split; [exact Hbe|]. split; [exact Hn|]. split; [exact Hp | exact Hpx].
Qed.

(** A single-band raster with a timestamp is calibrated, or rejected for the
    missing operand of [subtract]; there is no third outcome. *)
Lemma calibrate_single_cases (k : Kind) (E coll : list (Image Q)) (image : Image Q)
    (alpha : Q) (n : string) (b : Band Q) (t : Z) :
  era5_of k E = Ok coll ->
  bands image = [(n, b)] ->
  time_start image = Some t ->
  ((exists out, calibrate k E image alpha = Ok out) /\
   exists e0, In e0 (window E) /\ time_start e0 = Some t) \/
  (calibrate k E image alpha = Err (ParameterRequired "Image.subtract" "image1") /\
   forall e0, In e0 (window E) -> time_start e0 <> Some t).
Proof.
  intros Hcoll Hb Ht. apply Image_date_Ok in Ht.
  destruct (era5_of_members k E coll Hcoll) as [Hmem Hmem'].
  destruct (ImageCollection_first (ImageCollection_filter (Filter_date t) coll))
    as [e|] eqn:He.
  - left. destruct (first_filter_In _ _ _ He) as [Hin Hflt].
    destruct (Hmem e Hin) as (e0 & kb & He0 & _ & Hek).
    assert (Hbe : bands e = [(era5_band k, kb)]) by (rewrite Hek; reflexivity).
    destruct (calibrate_with_matched (era5_of k E) coll (air_temperature_band k) image alpha
                t e n (era5_band k) b kb Hcoll Ht He Hb Hbe) as (out & Hout & _).
    split; [exists out; rewrite calibrate_eq; exact Hout|].
    exists e0. split; [exact He0|]. apply Filter_date_true in Hflt.
    rewrite Hek in Hflt. exact Hflt.
  - right. apply first_filter_None in He as [Hnil Hall]. split.
    + rewrite calibrate_eq.
      exact (calibrate_with_unmatched _ coll _ image alpha t Hcoll Ht Hnil).
    + intros e0 He0 Hts. destruct (Hmem' e0 He0) as (e & kb & He & _ & Hek).
      specialize (Hall e He). rewrite Hek in Hall.
      assert (Htrue : Filter_date t (mkImage [(era5_band k, kb)] (properties e0)) = true)
        by (apply Filter_date_true; exact Hts).
      congruence.
Qed.

(** X4. With the reanalysis series of a kind loaded, a single-band raster is
    calibrated exactly when it has a timestamp and the reanalysis dataset
    has a raster with the very same timestamp (to the millisecond) inside
    the date window of the run. *)
Theorem calibrate_succeeds_iff_matched (k : Kind) (E coll : list (Image Q))
    (image : Image Q) (alpha : Q) (n : string) (b : Band Q) :
  era5_of k E = Ok coll ->
  bands image = [(n, b)] ->
  ((exists out, calibrate k E image alpha = Ok out) <->
   exists t e0, time_start image = Some t /\ In e0 E /\ time_start e0 = Some t /\
                1262304000000 <= t < 1264896000000).
Proof.
  intros Hcoll Hb. split.
  - intros (out & Hout).
    destruct (calibrate_single_inv k E image alpha out n b Hb Hout)
      as (coll' & t & e & kb & Hcoll' & Ht & _ & Hin & Hte & _).
    rewrite Hcoll in Hcoll'. injection Hcoll' as <-.
    destruct (era5_of_single_band k E coll e Hcoll Hin) as (e0 & kb' & He0 & _ & Hek).
    rewrite Hek in Hte. change (time_start e0 = Some t) in Hte.
    apply window_spec in He0 as (HinE & t' & Ht' & Hrange).
    unfold time_start in Hte. rewrite Ht' in Hte. injection Hte as ->.
    exists t, e0. repeat split; try assumption; apply Hrange.
  - intros (t & e0 & Ht & HinE & Hte & Hrange).
    assert (He0 : In e0 (window E)).
    { apply window_spec. split; [exact HinE|]. exists t. split; [exact Hte | exact Hrange]. }
    destruct (calibrate_single_cases k E coll image alpha n b t Hcoll Hb Ht)
      as [[Hok _] | [_ Hno]]; [exact Hok|].
    destruct (Hno e0 He0 Hte).
Qed.

Lemma calibrate_succeeds_iff_matched_witness :
  (exists out, calibrate Min sample_ERA5 (lst_observation jan01 26.85) 0.6 = Ok out) <->
  exists t e0, time_start (lst_observation jan01 26.85) = Some t /\ In e0 sample_ERA5 /\
               time_start e0 = Some t /\ 1262304000000 <= t < 1264896000000.
Proof.
  apply (calibrate_succeeds_iff_matched Min sample_ERA5
           [mkImage [("minimum_2m_air_temperature", constant_band 298.15%Q)]
              (time_properties jan01);
            mkImage [("minimum_2m_air_temperature", constant_band 299.15%Q)]
              (time_properties (jan01 + day_millis))]
           (lst_observation jan01 26.85) 0.6 "LST" (constant_band 26.85%Q));
    reflexivity.
Defined.

(** ** The calibrated series *)

Lemma airTemp_pantanal_stages (k : Kind) (B : list Feature) (E : list (Image Q))
    (M : list (Image Z)) :
  airTemp_pantanal k B E M
  = (combined_pantanal B M ≫= mapM (fun image => calibrate k E image alpha)).
Proof. destruct k; reflexivity. Qed.

Lemma In_source_observations (M : list (Image Z)) (src : Overpass * Image Z) :
  In src (source_observations M) <-> In src.2 (window M).
Proof.
  unfold source_observations. rewrite List.in_app_iff, !List.in_map_iff. split.
  - intros [(m & <- & Hm) | (m & <- & Hm)]; exact Hm.
  - intros H. destruct src as [[|] m]; [left | right]; exists m; split; trivial.
Qed.

(** Every raster of the clipped series is a single-band raster stamped like
    an observation of the window, and every observation has its rasters. *)
Lemma clipped_members (B : list Feature) (M : list (Image Z)) (C : list (Image Q)) :
  combined_pantanal B M = Ok C ->
  (forall c, In c C ->
     exists m b t, In m (window M) /\ bands c = [("LST", b)] /\
                   time_start c = Some t /\ time_start m = Some t) /\
  (forall m, In m (window M) ->
     exists c b t, In c C /\ bands c = [("LST", b)] /\
                   time_start c = Some t /\ time_start m = Some t).
Proof.
  intros H. apply combined_pantanal_Ok in H as (Ld & Ln & HLd & HLn & ->).
  pose proof (source_series M Ld Ln HLd HLn) as HS.
  assert (Hone : forall (src : Overpass * Image Z) l,
            In src.2 (window M) ->
            (exists s f, Image_select [lst_band src.1; qc_band src.1] src.2 = Ok s /\
                         quality_filter src.1 s = Ok f /\ terra_rescale src.1 f = Ok l) ->
            exists b t, bands (Image_clip l (roi B)) = [("LST", b)] /\
                        time_start (Image_clip l (roi B)) = Some t /\
                        time_start src.2 = Some t).
  { intros [o m] l Hm (s & f & Hs & Hf & Hl). cbn [fst snd] in *.
    destruct (extract_chain o m s f l Hs Hf Hl) as (Hn & Hp & _).
    assert (Hcn : List.map fst (bands (Image_clip l (roi B))) = ["LST"]).
    { unfold Image_clip. cbn [bands]. rewrite List.map_map. exact Hn. }
    destruct (single_band_names _ "LST" Hcn) as (b & Hb).
    apply window_spec in Hm as (_ & t & Ht & _).
    exists b, t. split; [exact Hb|]. split; [|exact Ht].
    unfold time_start. change (properties (Image_clip l (roi B))) with (properties l).
    rewrite Hp, bool_decide_eq_true_2 by (left; reflexivity). exact Ht. }
  split.
  - intros c Hc. apply List.in_map_iff in Hc as (l & <- & Hl).
    destruct (Forall2_In_r _ _ _ l HS Hl) as (src & _ & Hm & Hch).
    destruct (Hone src l Hm Hch) as (b & t & Hb & Ht & Htm).
    exists src.2, b, t. repeat split; assumption.
  - intros m Hm.
    assert (Hsrc : In (Day, m) (source_observations M))
      by (apply In_source_observations; exact Hm).
    destruct (Forall2_In_l _ _ _ (Day, m) HS Hsrc) as (l & Hl & _ & Hch).
    destruct (Hone (Day, m) l Hm Hch) as (b & t & Hb & Ht & Htm).
    exists (Image_clip l (roi B)), b, t.
    split; [exact (List.in_map (fun l => Image_clip l (roi B)) _ l Hl)|].
    repeat split; assumption.
Qed.

(** X5. With the LST series and the reanalysis series of a kind in hand, the
    calibrated series of that kind is built exactly when every observation
    of the LST window has a reanalysis raster of the same timestamp in the
    reanalysis window; one observation without it fails the whole series
    with the error for the missing first operand of [subtract]. *)
Theorem calibrated_series_iff_all_matched (k : Kind) (B : list Feature)
    (E coll : list (Image Q)) (M : list (Image Z)) (C : list (Image Q)) :
  combined_pantanal B M = Ok C ->
  era5_of k E = Ok coll ->
  ((exists A, airTemp_pantanal k B E M = Ok A) <->
   forall m, In m (window M) ->
             exists e0, In e0 (window E) /\ time_start e0 = time_start m) /\
  ((exists m, In m (window M) /\
              forall e0, In e0 (window E) -> time_start e0 <> time_start m) ->
   airTemp_pantanal k B E M = Err (ParameterRequired "Image.subtract" "image1")).
Proof.
  intros HC Hcoll. destruct (clipped_members B M C HC) as [HCm HmC].
  rewrite airTemp_pantanal_stages, HC. simpl.
  assert (Hfwd : forall A, mapM (fun image => calibrate k E image alpha) C = Ok A ->
            forall m, In m (window M) ->
                      exists e0, In e0 (window E) /\ time_start e0 = time_start m).
  { intros A HA m Hm. apply mapM_Ok_Forall2 in HA.
    destruct (HmC m Hm) as (c & b & t & Hc & Hb & Htc & Htm).
    destruct (Forall2_In_l _ _ _ c HA Hc) as (a & _ & Ha).
    destruct (calibrate_single_cases k E coll c alpha "LST" b t Hcoll Hb Htc)
      as [[_ (e0 & He0 & Hte)] | [Herr _]].
    - exists e0. split; [exact He0 | congruence].
    - rewrite Ha in Herr. discriminate. }
  split; [split|].
  - intros (A & HA). exact (Hfwd A HA).
  - intros Hall. apply mapM_Ok_all. intros c Hc.
    destruct (HCm c Hc) as (m & b & t & Hm & Hb & Htc & Htm).
    destruct (Hall m Hm) as (e0 & He0 & Hte).
    destruct (calibrate_single_cases k E coll c alpha "LST" b t Hcoll Hb Htc)
      as [[Hok _] | [_ Hno]]; [exact Hok|].
    destruct (Hno e0 He0). congruence.
  - intros (m & Hm & Hno).
    destruct (mapM (fun image => calibrate k E image alpha) C) as [A|e] eqn:HA.
    + destruct (Hfwd A eq_refl m Hm) as (e0 & He0 & Hte). destruct (Hno e0 He0 Hte).
    + apply mapM_Err_inv in HA as (c & Hc & Herr).
      destruct (HCm c Hc) as (m' & b & t & _ & Hb & Htc & _).
      destruct (calibrate_single_cases k E coll c alpha "LST" b t Hcoll Hb Htc)
        as [[(out & Hok) _] | [Herr' _]]; congruence.
Qed.

Lemma calibrated_series_iff_all_matched_witness :
  airTemp_pantanal Mean sample_biomas sample_ERA5 sample_MOD11A1_unmatched
  = Err (ParameterRequired "Image.subtract" "image1").
Proof.
  destruct (is_Ok_true (combined_pantanal sample_biomas sample_MOD11A1_unmatched))
    as (C & HC); [vm_compute; reflexivity|].
  destruct (is_Ok_true (era5_of Mean sample_ERA5)) as (coll & Hcoll);
    [vm_compute; reflexivity|].
  apply (proj2 (calibrated_series_iff_all_matched Mean sample_biomas sample_ERA5 coll
                  sample_MOD11A1_unmatched C HC Hcoll)).
  exists (modis_observation (jan01 + 5 * day_millis) 15100 0 14900 0).
  split; [right; left; reflexivity|].
  intros e0 [<-|[<-|[]]]; vm_compute; discriminate.
Defined.

(** ** Rasters outside the region *)

Lemma calibrated_member (k : Kind) (B : list Feature) (E : list (Image Q))
    (M : list (Image Z)) (A : list (Image Q)) (a : Image Q) :
  airTemp_pantanal k B E M = Ok A -> In a A ->
  exists l b,
    List.map fst (bands l) = ["LST"] /\
    bands (Image_clip l (roi B)) = [("LST", b)] /\
    calibrate k E (Image_clip l (roi B)) alpha = Ok a.
Proof.
  intros HA Ha. destruct (airTemp_pantanal_Ok k B E M A HA) as (Ld & Ln & HLd & HLn & HF).
  destruct (Forall2_In_r _ _ _ a HF Ha) as (l & Hl & Hcal).
  destruct (Forall2_In_r _ _ _ l (source_series M Ld Ln HLd HLn) Hl)
    as ([o m] & _ & _ & s & f & Hs & Hf & Hr).
  destruct (extract_chain o m s f l Hs Hf Hr) as (Hn & _ & _).
  assert (Hcn : List.map fst (bands (Image_clip l (roi B))) = ["LST"]).
  { unfold Image_clip. cbn [bands]. rewrite List.map_map. exact Hn. }
  destruct (single_band_names _ "LST" Hcn) as (b & Hb).
  exists l, b. split; [exact Hn|]. split; [exact Hb | exact Hcal].
Qed.

Lemma calibrated_masked_outside (k : Kind) (B : list Feature) (E : list (Image Q))
    (M : list (Image Z)) (A : list (Image Q)) (a : Image Q) (p : Pixel) :
  airTemp_pantanal k B E M = Ok A -> In a A ->
  p ∉ FeatureCollection_geometry (roi B) ->
  masked_at a p.
Proof.
  intros HA Ha Hp. destruct (calibrated_member k B E M A a HA Ha) as (l & b & _ & Hb & Hcal).
  destruct (calibrate_single_inv k E _ alpha a "LST" b Hb Hcal)
    as (coll & t & e & kb & _ & _ & _ & _ & _ & _ & Hn & _ & Hpx).
  apply (masked_single a (air_temperature_band k) p Hn). rewrite Hpx.
  assert (Hbp : b p = None).
  { transitivity (pixel (Image_clip l (roi B)) "LST" p).
    - unfold pixel. rewrite Hb. reflexivity.
    - rewrite pixel_Image_clip, bool_decide_eq_false_2 by exact Hp. reflexivity. }
  rewrite Hbp. reflexivity.
Qed.

Lemma valid_values_all_masked (A : list (Image Q)) (name : string) (p : Pixel) :
  (forall a, In a A -> masked_at a p) -> valid_values A name p = [].
Proof.
  unfold valid_values. induction A as [|a A IH]; intros H; [reflexivity|].
  cbn [omap list_omap]. rewrite (H a (or_introl eq_refl) name).
  apply IH. intros a' Ha'. apply H. right. exact Ha'.
Qed.

Lemma reduce_masked (r : list Q -> option Q) (A : list (Image Q)) (p : Pixel) :
  r [] = None -> (forall a, In a A -> masked_at a p) ->
  masked_at (ImageCollection_reduce r A) p.
Proof.
  intros Hr H name. destruct A as [|a0 A]; [reflexivity|].
  rewrite pixel_ImageCollection_reduce.
  destruct (lookup_band name (bands a0)); [|reflexivity].
  change (omap (fun img => pixel img name p) (a0 :: A)) with (valid_values (a0 :: A) name p).
  rewrite (valid_values_all_masked (a0 :: A) name p H). exact Hr.
Qed.

Lemma round_masked (img : Image Q) (p : Pixel) :
  masked_at img p -> masked_at (Image_round img) p.
Proof. intros H name. rewrite pixel_Image_round, (H name). reflexivity. Qed.

(** X6. Outside the region nothing is produced: at a pixel that no selected
    boundary covers, every raster of the three calibrated series is masked,
    and so are the three aggregates shown on the map and the three exported
    rasters of a completed run. *)
Theorem outputs_confined_to_region (B : list Feature) (E : list (Image Q))
    (M : list (Image Z)) (p : Pixel) :
  p ∉ FeatureCollection_geometry (roi B) ->
  (forall k A a, airTemp_pantanal k B E M = Ok A -> In a A -> masked_at a p) /\
  (forall sqrtQ out, script B E M sqrtQ = Ok out ->
     (forall ly img, In ly (layers out) -> layer_source ly = Raster img -> masked_at img p) /\
     (forall ex, In ex (exports out) -> masked_at (export_image ex) p)).
Proof.
  intros Hp. split.
  - intros k A a HA Ha. exact (calibrated_masked_outside k B E M A a p HA Ha Hp).
  - intros sqrtQ out Hout.
    destruct (script_Ok B E M sqrtQ out Hout)
      as (meanT & maxT & minT & st & fc & tc & cMean & cMax & cMin &
          HmeanT & HmaxT & HminT & _ & _ & _ & _ & _ & _ & Hl & _ & He).
    apply fmap_Ok in HmeanT as (Amean & HAmean & ->).
    apply fmap_Ok in HmaxT as (Amax & HAmax & ->).
    apply fmap_Ok in HminT as (Amin & HAmin & ->).
    assert (Hmean : masked_at (ImageCollection_mean Amean) p).
    { apply reduce_masked; [reflexivity|]. intros a Ha.
      exact (calibrated_masked_outside Mean B E M Amean a p HAmean Ha Hp). }
    assert (Hmax : masked_at (ImageCollection_max Amax) p).
    { apply reduce_masked; [reflexivity|]. intros a Ha.
      exact (calibrated_masked_outside Max B E M Amax a p HAmax Ha Hp). }
    assert (Hmin : masked_at (ImageCollection_min Amin) p).
    { apply reduce_masked; [reflexivity|]. intros a Ha.
      exact (calibrated_masked_outside Min B E M Amin a p HAmin Ha Hp). }
    split.
    + intros ly img Hly Hsrc. rewrite Hl in Hly.
      destruct Hly as [<-|[<-|[<-|[<-|[]]]]]; simpl in Hsrc;
        try discriminate; injection Hsrc as <-; assumption.
    + intros ex Hex. rewrite He in Hex.
      destruct Hex as [<-|[<-|[<-|[]]]]; simpl; apply round_masked; assumption.
Qed.

Lemma outputs_confined_to_region_witness :
  exists A,
    airTemp_pantanal Mean sample_biomas sample_ERA5 sample_MOD11A1 = Ok A /\
    Forall (fun a => pixel a "air_temperature_mean" (5, 5) = None) A.
Proof.
  destruct (is_Ok_true (airTemp_pantanal Mean sample_biomas sample_ERA5 sample_MOD11A1))
    as (A & HA); [vm_compute; reflexivity|].
  exists A. split; [exact HA|].
  apply Forall_forall. intros a Ha. apply list_elem_of_In in Ha.
  assert (Hp : (5, 5) ∉ FeatureCollection_geometry (roi sample_biomas))
    by (vm_compute; discriminate).
  exact (proj1 (outputs_confined_to_region sample_biomas sample_ERA5 sample_MOD11A1 (5, 5) Hp)
           Mean A a HA Ha "air_temperature_mean").
Defined.

(** ** The aggregates *)

Lemma Qmin_cases (a b : Q) : Qmin a b = a \/ Qmin a b = b.
Proof. unfold Qmin, GenericMinMax.gmin. destruct (a ?= b)%Q; auto. Qed.

Lemma Qmax_cases (a b : Q) : Qmax a b = a \/ Qmax a b = b.
Proof. unfold Qmax, GenericMinMax.gmax. destruct (a ?= b)%Q; auto. Qed.

Lemma fold_Qmin_spec (vs : list Q) (v : Q) :
  In (fold_left Qmin vs v) (v :: vs) /\
  forall x, In x (v :: vs) -> (fold_left Qmin vs v <= x)%Q.
Proof.
  revert v. induction vs as [|w vs IH]; intros v; cbn [fold_left].
  - split; [left; reflexivity|]. intros x [<-|[]]. apply Qle_refl.
  - destruct (IH (Qmin v w)) as [Hin Hle]. split.
    + destruct Hin as [Hin|Hin]; [|right; right; exact Hin].
      rewrite <- Hin. destruct (Qmin_cases v w) as [->| ->]; [left | right; left]; reflexivity.
    + intros x [<-|[<-|Hx]].
      * eapply Qle_trans; [apply Hle; left; reflexivity | apply Q.le_min_l].
      * eapply Qle_trans; [apply Hle; left; reflexivity | apply Q.le_min_r].
      * apply Hle. right. exact Hx.
Qed.

Lemma fold_Qmax_spec (vs : list Q) (v : Q) :
  In (fold_left Qmax vs v) (v :: vs) /\
  forall x, In x (v :: vs) -> (x <= fold_left Qmax vs v)%Q.
Proof.
  revert v. induction vs as [|w vs IH]; intros v; cbn [fold_left].
  - split; [left; reflexivity|]. intros x [<-|[]]. apply Qle_refl.
  - destruct (IH (Qmax v w)) as [Hin Hle]. split.
    + destruct Hin as [Hin|Hin]; [|right; right; exact Hin].
      rewrite <- Hin. destruct (Qmax_cases v w) as [->| ->]; [left | right; left]; reflexivity.
    + intros x [<-|[<-|Hx]].
      * eapply Qle_trans; [apply Q.le_max_l | apply Hle; left; reflexivity].
      * eapply Qle_trans; [apply Q.le_max_r | apply Hle; left; reflexivity].
      * apply Hle. right. exact Hx.
Qed.

Lemma Qsum_bounds (vs : list Q) (lo hi : Q) :
  (forall x, In x vs -> (lo <= x <= hi)%Q) ->
  (inject_Z (Z.of_nat (length vs)) * lo <= Qsum vs
   <= inject_Z (Z.of_nat (length vs)) * hi)%Q.
Proof.
  induction vs as [|v vs IH]; intros H.
  - cbn [length Qsum fold_right]. change (inject_Z (Z.of_nat 0)) with 0%Q. split; lra.
  - destruct IH as [IHlo IHhi]; [intros x Hx; apply H; right; exact Hx|].
    destruct (H v (or_introl eq_refl)) as [Hlo Hhi].
    cbn [length Qsum fold_right]. fold (Qsum vs).
    rewrite Nat2Z.inj_succ. unfold Z.succ. rewrite inject_Z_plus.
    change (inject_Z 1) with 1%Q.
    set (n := inject_Z (Z.of_nat (length vs))) in *. split; nra.
Qed.

Lemma Reducer_mean_bounds (vs : list Q) (lo hi mu : Q) :
  (forall x, In x vs -> (lo <= x <= hi)%Q) ->
  Reducer_mean vs = Some mu -> (lo <= mu <= hi)%Q.
Proof.
  intros H Hmu. destruct vs as [|v vs]; [discriminate|].
  injection Hmu as <-. destruct (Qsum_bounds (v :: vs) lo hi H) as [Hlo Hhi].
  set (n := inject_Z (Z.of_nat (length (v :: vs)))) in *.
  assert (Hn : (0 < n)%Q).
  { unfold n. change 0%Q with (inject_Z 0). rewrite <- Zlt_Qlt. simpl length. lia. }
  split.
  - apply Qle_shift_div_l; [exact Hn|]. rewrite Qmult_comm. exact Hlo.
  - apply Qle_shift_div_r; [exact Hn|]. rewrite Qmult_comm. exact Hhi.
Qed.

(** A reduced value lies between the smallest and the largest of the values
    it was computed from; the minimum and the maximum are such values. *)
Lemma Reducer_of_spec (k : Kind) (vs : list Q) (v : Q) :
  Reducer_of k vs = Some v ->
  exists lo hi,
    In lo vs /\ In hi vs /\ (forall x, In x vs -> (lo <= x <= hi)%Q) /\
    (lo <= v <= hi)%Q /\
    (k = Min -> v = lo) /\ (k = Max -> v = hi).
Proof.
  intros H. destruct vs as [|w vs]; [destruct k; discriminate|].
  destruct (fold_Qmin_spec vs w) as [Hlo_in Hlo].
  destruct (fold_Qmax_spec vs w) as [Hhi_in Hhi].
  exists (fold_left Qmin vs w), (fold_left Qmax vs w).
  split; [exact Hlo_in|]. split; [exact Hhi_in|].
  assert (Hall : forall x, In x (w :: vs)
                   -> (fold_left Qmin vs w <= x <= fold_left Qmax vs w)%Q).
  { intros x Hx. split; [apply Hlo | apply Hhi]; exact Hx. }
  split; [exact Hall|].
  destruct k; simpl in H.
  - split; [exact (Reducer_mean_bounds (w :: vs) _ _ v Hall H)|].
    split; discriminate.
  - injection H as <-. split; [apply Hall, Hlo_in|]. split; [reflexivity | discriminate].
  - injection H as <-. split; [apply Hall, Hhi_in|]. split; [discriminate | reflexivity].
Qed.

Lemma Reducer_of_defined (k : Kind) (vs : list Q) :
  is_Some (Reducer_of k vs) <-> vs <> [].
Proof.
  destruct vs as [|w vs].
  - split; [intros [x Hx]; destruct k; discriminate | intros H; destruct H; reflexivity].
  - split; [discriminate | intros _; destruct k; eexists; reflexivity].
Qed.

Lemma airTemp_aggregate (k : Kind) (B : list Feature) (E : list (Image Q))
    (M : list (Image Z)) (img : Image Q) :
  airTemp k B E M = Ok img <->
  exists A, airTemp_pantanal k B E M = Ok A /\ img = aggregate k A.
Proof. destruct k; apply fmap_Ok. Qed.

Lemma calibrated_names (k : Kind) (B : list Feature) (E : list (Image Q))
    (M : list (Image Z)) (A : list (Image Q)) (a : Image Q) :
  airTemp_pantanal k B E M = Ok A -> In a A ->
  List.map fst (bands a) = [air_temperature_band k].
Proof.
  intros HA Ha. destruct (calibrated_member k B E M A a HA Ha) as (l & b & _ & Hb & Hcal).
  destruct (calibrate_single_inv k E _ alpha a "LST" b Hb Hcal)
    as (coll & t & e & kb & _ & _ & _ & _ & _ & _ & Hn & _).
  exact Hn.
Qed.

Lemma aggregate_pixel (k : Kind) (B : list Feature) (E : list (Image Q))
    (M : list (Image Z)) (A : list (Image Q)) (p : Pixel) :
  airTemp_pantanal k B E M = Ok A ->
  pixel (aggregate k A) (air_temperature_band k) p
  = Reducer_of k (valid_values A (air_temperature_band k) p).
Proof.
  intros HA. destruct A as [|a0 A]; [destruct k; reflexivity|].
  pose proof (calibrated_names k B E M (a0 :: A) a0 HA (or_introl eq_refl)) as Hn.
  apply single_band_names in Hn as (b & Hb).
  assert (Hred : forall r, pixel (ImageCollection_reduce r (a0 :: A)) (air_temperature_band k) p
                           = r (valid_values (a0 :: A) (air_temperature_band k) p)).
  { intros r. rewrite pixel_ImageCollection_reduce, Hb. simpl lookup_band.
    rewrite String.eqb_refl. reflexivity. }
  destruct k; apply Hred.
Qed.

Lemma In_valid_values (A : list (Image Q)) (name : string) (p : Pixel) (x : Q) :
  In x (valid_values A name p) <-> exists a, In a A /\ pixel a name p = Some x.
Proof.
  unfold valid_values. induction A as [|a A IH]; cbn [omap list_omap].
  - split; [intros [] | intros (a & [] & _)].
  - destruct (pixel a name p) as [v|] eqn:Hv.
    + split.
      * intros [<-|Hx]; [exists a; split; [left; reflexivity | exact Hv]|].
        apply IH in Hx as (a' & Ha' & Hx). exists a'. split; [right; exact Ha' | exact Hx].
      * intros (a' & [<-|Ha'] & Hx); [left; congruence|].
        right. apply IH. exists a'. split; assumption.
    + rewrite IH. split.
      * intros (a' & Ha' & Hx). exists a'. split; [right; exact Ha' | exact Hx].
      * intros (a' & [<-|Ha'] & Hx); [congruence|]. exists a'. split; assumption.
Qed.

(** X7. The monthly aggregate of each kind (mean of the mean series, min of
    the min series, max of the max series) is valid at a pixel exactly when
    at least one raster of its calibrated series is valid there: a single
    cloud-free observation in the month is enough, and a pixel without any
    is masked. *)
Theorem aggregate_defined_iff_some_observation (k : Kind) (B : list Feature)
    (E : list (Image Q)) (M : list (Image Z)) (A : list (Image Q)) (p : Pixel) :
  airTemp_pantanal k B E M = Ok A ->
  airTemp k B E M = Ok (aggregate k A) /\
  (is_Some (pixel (aggregate k A) (air_temperature_band k) p) <->
   exists a, In a A /\ is_Some (pixel a (air_temperature_band k) p)).
Proof.
  intros HA. split; [apply airTemp_aggregate; exists A; split; [exact HA | reflexivity]|].
  rewrite (aggregate_pixel k B E M A p HA), Reducer_of_defined. split.
  - intros Hne. destruct (valid_values A (air_temperature_band k) p) as [|x vs] eqn:Hv;
      [destruct Hne; reflexivity|].
    assert (Hx : In x (valid_values A (air_temperature_band k) p))
      by (rewrite Hv; left; reflexivity).
    apply In_valid_values in Hx as (a & Ha & Hx). exists a. split; [exact Ha|].
    rewrite Hx. eexists. reflexivity.
  - intros (a & Ha & [x Hx]) Hnil.
    assert (Hin : In x (valid_values A (air_temperature_band k) p))
      by (apply In_valid_values; exists a; split; assumption).
    rewrite Hnil in Hin. destruct Hin.
Qed.

Lemma aggregate_defined_iff_some_observation_witness :
  exists A,
    airTemp_pantanal Max sample_biomas sample_ERA5 sample_MOD11A1 = Ok A /\
    airTemp Max sample_biomas sample_ERA5 sample_MOD11A1 = Ok (aggregate Max A).
Proof.
  destruct (is_Ok_true (airTemp_pantanal Max sample_biomas sample_ERA5 sample_MOD11A1))
    as (A & HA); [vm_compute; reflexivity|].
  exists A. split; [exact HA|].
  exact (proj1 (aggregate_defined_iff_some_observation Max sample_biomas sample_ERA5
                  sample_MOD11A1 A (0, 0) HA)).
Defined.

(** X8. Where the monthly aggregate of a kind is valid, its value lies
    between the smallest and the largest value that the rasters of the
    calibrated series hold at that pixel; the min aggregate is the smallest
    and the max aggregate the largest of them. *)
Theorem aggregate_within_observations (k : Kind) (B : list Feature)
    (E : list (Image Q)) (M : list (Image Z)) (A : list (Image Q)) (p : Pixel) (v : Q) :
  airTemp_pantanal k B E M = Ok A ->
  pixel (aggregate k A) (air_temperature_band k) p = Some v ->
  exists a_lo a_hi lo hi,
    In a_lo A /\ pixel a_lo (air_temperature_band k) p = Some lo /\
    In a_hi A /\ pixel a_hi (air_temperature_band k) p = Some hi /\
    (forall a x, In a A -> pixel a (air_temperature_band k) p = Some x -> (lo <= x <= hi)%Q) /\
    (lo <= v <= hi)%Q /\
    (k = Min -> v = lo) /\ (k = Max -> v = hi).
Proof.
  intros HA Hv. rewrite (aggregate_pixel k B E M A p HA) in Hv.
  destruct (Reducer_of_spec k _ v Hv) as (lo & hi & Hlo & Hhi & Hall & Hbetween & Hmin & Hmax).
  apply In_valid_values in Hlo as (a_lo & Ha_lo & Hplo).
  apply In_valid_values in Hhi as (a_hi & Ha_hi & Hphi).
  exists a_lo, a_hi, lo, hi.
  split; [exact Ha_lo|]. split; [exact Hplo|]. split; [exact Ha_hi|]. split; [exact Hphi|].
  split; [|split; [exact Hbetween | split; assumption]].
  intros a x Ha Hx. apply Hall, In_valid_values. exists a. split; assumption.
Qed.

Lemma is_Ok_and_true {A} (r : result A) (test : A -> bool) :
  is_Ok_and r test = true -> exists a, r = Ok a /\ test a = true.
Proof. destruct r as [a|e]; [eauto | discriminate]. Qed.

Lemma is_valid_true {V} (o : option V) : is_valid o = true -> exists v, o = Some v.
Proof. destruct o as [v|]; [eauto | discriminate]. Qed.

Lemma aggregate_within_observations_witness :
  exists A v lo hi,
    airTemp_pantanal Mean sample_biomas sample_ERA5 sample_MOD11A1 = Ok A /\
    pixel (aggregate Mean A) "air_temperature_mean" (0, 0) = Some v /\
    (lo <= v <= hi)%Q.
Proof.
  destruct (is_Ok_and_true
              (airTemp_pantanal Mean sample_biomas sample_ERA5 sample_MOD11A1)
              (fun A => is_valid (pixel (aggregate Mean A) "air_temperature_mean" (0, 0))))
    as (A & HA & Hvalid); [vm_compute; reflexivity|].
  apply is_valid_true in Hvalid as (v & Hv).
  destruct (aggregate_within_observations Mean sample_biomas sample_ERA5 sample_MOD11A1
              A (0, 0) v HA Hv) as (a_lo & a_hi & lo & hi & _ & _ & _ & _ & _ & Hb & _).
  exists A, v, lo, hi. split; [exact HA|]. split; [exact Hv | exact Hb].
Defined.

(** ** The regional reductions *)

Lemma region_values_band (img : Image Q) (name : string) (b : Band Q) (px : list Pixel) :
  bands img = [(name, b)] -> omap b px = region_values img name px.
Proof.
  intros Hb.
  assert (Hpx : forall p, pixel img name p = b p).
  { intros p. unfold pixel. rewrite Hb. simpl. rewrite String.eqb_refl. reflexivity. }
  unfold region_values. induction px as [|p px IH]; [reflexivity|].
  cbn [omap list_omap]. rewrite IH, Hpx. reflexivity.
Qed.

Lemma reduceRegion_mean_single (img : Image Q) (name : string) (b : Band Q)
    (fc : list Feature) (scale maxPixels : Z) :
  bands img = [(name, b)] ->
  Image_reduceRegion img (mkReduceRegionArgs ee_Reducer_mean fc scale maxPixels)
  = if maxPixels <? Z.of_nat (length (elements (FeatureCollection_geometry fc)))
    then Err (TooManyPixels "Image.reduceRegion")
    else Ok [(name, Reducer_mean
                      (region_values img name (elements (FeatureCollection_geometry fc))))].
Proof.
  intros Hb. unfold Image_reduceRegion. cbn [rr_maxPixels rr_geometry rr_reducer].
  destruct (_ <? _); [reflexivity|]. rewrite Hb. cbn.
  rewrite (region_values_band img name b _ Hb). reflexivity.
Qed.

Lemma calibrated_sources (k : Kind) (B : list Feature) (E : list (Image Q))
    (M : list (Image Z)) (A : list (Image Q)) :
  airTemp_pantanal k B E M = Ok A ->
  Forall2 (fun (src : Overpass * Image Z) a =>
             List.map fst (bands a) = [air_temperature_band k] /\
             time_start a = time_start src.2 /\
             exists t, time_start a = Some t /\ 1262304000000 <= t < 1264896000000)
    (source_observations M) A.
Proof.
  intros HA. destruct (airTemp_pantanal_Ok k B E M A HA) as (Ld & Ln & HLd & HLn & HF).
  pose proof (Forall2_compose _ _ _ _ _ (source_series M Ld Ln HLd HLn) HF) as H.
  eapply Forall2_impl; [exact H|]. cbv beta.
  intros [o m] a (l & (Hm & s & f & Hs & Hf & Hl) & Hcal). cbn [fst snd] in *.
  destruct (extract_chain o m s f l Hs Hf Hl) as (Hn & Hp & _).
  assert (Hcn : List.map fst (bands (Image_clip l (roi B))) = ["LST"]).
  { unfold Image_clip. cbn [bands]. rewrite List.map_map. exact Hn. }
  destruct (single_band_names _ "LST" Hcn) as (b & Hb).
  destruct (calibrate_single_inv k E _ alpha a "LST" b Hb Hcal)
    as (coll & t & e & kb & _ & Ht & _ & _ & _ & _ & Han & Hap & _).
  assert (Hta : time_start a = time_start m).
  { unfold time_start. rewrite Hap, bool_decide_eq_true_2 by (left; reflexivity).
    change (properties (Image_clip l (roi B))) with (properties l).
    rewrite Hp, bool_decide_eq_true_2 by (left; reflexivity). reflexivity. }
  split; [exact Han|]. split; [exact Hta|].
  apply window_spec in Hm as (_ & t' & Ht' & Hrange).
  exists t'. split; [rewrite Hta; exact Ht' | exact Hrange].
Qed.

(** X9. The per-date table has one row per raster of the calibrated mean
    series, in its order (the observations of the window for the day
    overpass, then again for the night overpass): the row carries the
    timestamp of its observation as [date] and, under the key
    [air_temperature_mean] that the table chart plots, the mean of the
    raster over its valid pixels in the region, or no value when the raster
    has none there. *)
Theorem time_series_table (B : list Feature) (E : list (Image Q)) (M : list (Image Z))
    (A : list (Image Q)) (fc : list TimeFeature) :
  airTemp_pantanal_mean B E M = Ok A ->
  statsFC B E M = Ok fc ->
  Forall2 (fun (src : Overpass * Image Z) f => time_start src.2 = Some (tf_date f))
    (source_observations M) fc /\
  Forall2 (fun a f =>
             tf_stats f
             = [("air_temperature_mean",
                 Reducer_mean (region_values a "air_temperature_mean"
                                 (elements (FeatureCollection_geometry (roi B)))))])
    A fc.
Proof.
  intros HA Hfc. unfold statsFC, timeStats in Hfc. rewrite HA in Hfc. simpl in Hfc.
  apply mapM_Ok_Forall2 in Hfc.
  pose proof (calibrated_sources Mean B E M A HA) as HS.
  assert (Hrow : Forall2 (fun a f =>
                   time_start a = Some (tf_date f) /\
                   (List.map fst (bands a) = ["air_temperature_mean"] ->
                    tf_stats f
                    = [("air_temperature_mean",
                        Reducer_mean (region_values a "air_temperature_mean"
                                        (elements (FeatureCollection_geometry (roi B)))))]))
                   A fc).
  { eapply Forall2_impl; [exact Hfc|]. cbv beta. intros a f Hf.
    apply bind_Ok in Hf as (d & Hd & Hf). apply bind_Ok in Hf as (t & Ht & [= <-]).
    cbn [tf_date tf_stats]. split; [apply Image_date_Ok, Ht|].
    intros Hn. apply single_band_names in Hn as (b & Hb).
    rewrite (reduceRegion_mean_single a _ b _ _ _ Hb) in Hd.
    destruct (_ <? _); [discriminate|]. injection Hd as <-. reflexivity. }
  split.
  - pose proof (Forall2_compose _ _ _ _ _ HS Hrow) as H.
    eapply Forall2_impl; [exact H|]. cbv beta.
    intros src f (a & (_ & Hts & _) & Hta & _). rewrite <- Hts. exact Hta.
  - assert (Hnames : Forall (fun a => List.map fst (bands a) = ["air_temperature_mean"]) A).
    { apply Forall_forall. intros a Ha. apply list_elem_of_In in Ha.
      exact (calibrated_names Mean B E M A a HA Ha). }
    clear -Hrow Hnames. induction Hrow as [|a f A fc [_ Hrow1] _ IH]; constructor.
    + apply Hrow1. exact (Forall_inv Hnames).
    + apply IH. exact (Forall_inv_tail Hnames).
Qed.

Lemma time_series_table_witness :
  exists fc,
    statsFC sample_biomas sample_ERA5 sample_MOD11A1 = Ok fc /\
    List.map tf_date fc = [jan01; jan01 + day_millis; jan01; jan01 + day_millis].
Proof.
  destruct (is_Ok_true (airTemp_pantanal_mean sample_biomas sample_ERA5 sample_MOD11A1))
    as (A & HA); [vm_compute; reflexivity|].
  destruct (is_Ok_true (statsFC sample_biomas sample_ERA5 sample_MOD11A1))
    as (fc & Hfc); [vm_compute; reflexivity|].
  exists fc. split; [exact Hfc|].
  destruct (time_series_table sample_biomas sample_ERA5 sample_MOD11A1 A fc HA Hfc)
    as [H _].
  change (source_observations sample_MOD11A1)
    with [(Day, modis_observation jan01 15000 0 14800 0);
          (Day, modis_observation (jan01 + day_millis) 15100 4 14900 0);
          (Night, modis_observation jan01 15000 0 14800 0);
          (Night, modis_observation (jan01 + day_millis) 15100 4 14900 0)] in H.
  inversion H as [|? f1 ? ? H1 H']; subst.
  inversion H' as [|? f2 ? ? H2 H'']; subst.
  inversion H'' as [|? f3 ? ? H3 H''']; subst.
  inversion H''' as [|? f4 ? ? H4 H'''']; subst.
  inversion H''''; subst.
  assert (E1 : Some jan01 = Some (tf_date f1)) by exact H1.
  assert (E2 : Some (jan01 + day_millis) = Some (tf_date f2)) by exact H2.
  assert (E3 : Some jan01 = Some (tf_date f3)) by exact H3.
  assert (E4 : Some (jan01 + day_millis) = Some (tf_date f4)) by exact H4.
  injection E1 as E1. injection E2 as E2. injection E3 as E3. injection E4 as E4.
  cbn [List.map]. rewrite <- E1, <- E2, <- E3, <- E4. reflexivity.
Defined.

Lemma reduce_single_band (r : list Q -> option Q) (a0 : Image Q) (A : list (Image Q))
    (name : string) (b : Band Q) :
  bands a0 = [(name, b)] ->
  exists g, bands (ImageCollection_reduce r (a0 :: A)) = [(name, g)].
Proof. intros Hb. unfold ImageCollection_reduce. rewrite Hb. eexists. reflexivity. Qed.

Lemma reduceRegion_stats_single (img : Image Q) (name : string) (g : Band Q)
    (fc : list Feature) (sqrtQ : Q -> Q) (scale maxPixels : Z) (d : Dictionary) :
  bands img = [(name, g)] ->
  Image_reduceRegion img (mkReduceRegionArgs (stats_reducer sqrtQ) fc scale maxPixels) = Ok d ->
  d = [(name +:+ "_mean",
        Reducer_mean (region_values img name (elements (FeatureCollection_geometry fc))));
       (name +:+ "_stdDev",
        Reducer_stdDev sqrtQ
          (region_values img name (elements (FeatureCollection_geometry fc))));
       (name +:+ "_min",
        Reducer_min (region_values img name (elements (FeatureCollection_geometry fc))));
       (name +:+ "_max",
        Reducer_max (region_values img name (elements (FeatureCollection_geometry fc))))].
Proof.
  intros Hb. unfold Image_reduceRegion. cbn [rr_maxPixels rr_geometry rr_reducer].
  destruct (_ <? _); [discriminate|]. rewrite Hb. intros [= <-]. cbn.
  rewrite (region_values_band img name g _ Hb). reflexivity.
Qed.

(** X10. When the calibrated mean series is not empty, the regional
    statistics of a completed reduction are the four entries
    [air_temperature_mean_mean], [_stdDev], [_min] and [_max], in this
    order, all computed from the valid pixels of the unrounded monthly mean
    in the region; the minimum does not exceed the mean and the mean does
    not exceed the maximum, and all four are null when the region holds no
    valid pixel. *)
Theorem regional_statistics (B : list Feature) (E : list (Image Q)) (M : list (Image Z))
    (sqrtQ : Q -> Q) (A : list (Image Q)) (d : Dictionary) :
  airTemp_pantanal_mean B E M = Ok A ->
  A <> [] ->
  stats B E M sqrtQ = Ok d ->
  let vs := region_values (ImageCollection_mean A) "air_temperature_mean"
              (elements (FeatureCollection_geometry (roi B))) in
  d = [("air_temperature_mean_mean", Reducer_mean vs);
       ("air_temperature_mean_stdDev", Reducer_stdDev sqrtQ vs);
       ("air_temperature_mean_min", Reducer_min vs);
       ("air_temperature_mean_max", Reducer_max vs)] /\
  (forall lo mu hi, Reducer_min vs = Some lo -> Reducer_mean vs = Some mu ->
                    Reducer_max vs = Some hi -> (lo <= mu <= hi)%Q) /\
  (vs = [] -> List.map snd d = [None; None; None; None]).
Proof.
  intros HA Hne Hst vs.
  assert (Hd : d = [("air_temperature_mean_mean", Reducer_mean vs);
                    ("air_temperature_mean_stdDev", Reducer_stdDev sqrtQ vs);
                    ("air_temperature_mean_min", Reducer_min vs);
                    ("air_temperature_mean_max", Reducer_max vs)]).
  { destruct A as [|a0 A']; [destruct Hne; reflexivity|].
    pose proof (calibrated_names Mean B E M (a0 :: A') a0 HA (or_introl eq_refl)) as Hn.
    apply single_band_names in Hn as (b & Hb).
    destruct (reduce_single_band Reducer_mean a0 A' _ b Hb) as (g & Hg).
    unfold stats in Hst. apply bind_Ok in Hst as (img & Himg & Hst).
    apply fmap_Ok in Himg as (A'' & HA'' & ->).
    rewrite HA in HA''. injection HA'' as <-.
    exact (reduceRegion_stats_single (ImageCollection_mean (a0 :: A'))
             "air_temperature_mean" g (roi B) sqrtQ _ _ d Hg Hst). }
  split; [exact Hd|]. split.
  - intros lo mu hi Hlo Hmu Hhi.
    destruct (Reducer_of_spec Min vs lo Hlo) as (l1 & h1 & _ & _ & Hall1 & _ & Hl1 & _).
    destruct (Reducer_of_spec Max vs hi Hhi) as (l2 & h2 & _ & _ & Hall2 & _ & _ & Hh2).
    destruct (Reducer_of_spec Mean vs mu Hmu) as (l3 & h3 & Hl3 & Hh3 & _ & Hb3 & _).
    rewrite (Hl1 eq_refl), (Hh2 eq_refl).
    destruct (Hall1 l3 Hl3) as [H1 _]. destruct (Hall2 h3 Hh3) as [_ H2].
    destruct Hb3 as [H3 H4]. split; eapply Qle_trans; eassumption.
  - intros Hvs. rewrite Hd, Hvs. reflexivity.
Qed.

Lemma regional_statistics_witness :
  exists A d,
    airTemp_pantanal_mean sample_biomas sample_ERA5 sample_MOD11A1 = Ok A /\
    stats sample_biomas sample_ERA5 sample_MOD11A1 sample_sqrt = Ok d /\
    List.map fst d
    = ["air_temperature_mean_mean"; "air_temperature_mean_stdDev";
       "air_temperature_mean_min"; "air_temperature_mean_max"].
Proof.
  destruct (is_Ok_and_true
              (airTemp_pantanal_mean sample_biomas sample_ERA5 sample_MOD11A1)
              (fun A => negb (Nat.eqb (length A) 0)))
    as (A & HA & Hlen); [vm_compute; reflexivity|].
  destruct (is_Ok_true (stats sample_biomas sample_ERA5 sample_MOD11A1 sample_sqrt))
    as (d & Hd); [vm_compute; reflexivity|].
  exists A, d. split; [exact HA|]. split; [exact Hd|].
  assert (Hne : A <> []) by (intros Hnil; rewrite Hnil in Hlen; discriminate Hlen).
  destruct (regional_statistics sample_biomas sample_ERA5 sample_MOD11A1 sample_sqrt A d
              HA Hne Hd) as [-> _].
  reflexivity.
Defined.

(** ** The outcome of each output statement *)

Lemma era5_of_Err (k : Kind) (E : list (Image Q)) (e : EEError) :
  era5_of k E = Err e -> exists b, e = BandNotFound "Image.select" b.
Proof.
  intros H.
  assert (Hm : mapM (Image_select [era5_band k]) (window E) = Err e).
  { destruct k; unfold era5_of, era5_mean, era5_min, era5_max in H;
      rewrite filterDate_window in H; exact H. }
  apply mapM_Err_inv in Hm as (e0 & _ & Hsel).
  apply Image_select_Err in Hsel as (b & _ & _ & ->). exists b. reflexivity.
Qed.

Lemma calibrate_era5_Err (k : Kind) (E : list (Image Q)) (image : Image Q) (alpha : Q)
    (e : EEError) :
  era5_of k E = Err e -> calibrate k E image alpha = Err e.
Proof. intros H. rewrite calibrate_eq. unfold calibrate_with. rewrite H. reflexivity. Qed.

Lemma combined_pantanal_Err (B : list Feature) (M : list (Image Z)) (e : EEError) :
  combined_pantanal B M = Err e -> exists b, e = BandNotFound "Image.select" b.
Proof.
  intros H.
  destruct (terra Day M) as [Ld|e1] eqn:HLd; [destruct (terra Night M) as [Ln|e2] eqn:HLn|].
  - assert (Hok : combined_pantanal B M
                  = Ok (List.map (fun l => Image_clip l (roi B)) (Ld ++ Ln))).
    { apply combined_pantanal_Ok. exists Ld, Ln. repeat split; assumption. }
    rewrite Hok in H. discriminate.
  - unfold combined_pantanal, combined in H. simpl terra in HLd, HLn.
    rewrite HLd, HLn in H. simpl in H. injection H as <-.
    destruct (terra_Err_inv Night M e2 HLn) as (m & b & _ & _ & _ & ->).
    exists b. reflexivity.
  - unfold combined_pantanal, combined in H. simpl terra in HLd.
    rewrite HLd in H. simpl in H. injection H as <-.
    destruct (terra_Err_inv Day M e1 HLd) as (m & b & _ & _ & _ & ->).
    exists b. reflexivity.
Qed.

Lemma airTemp_pantanal_Err (k : Kind) (B : list Feature) (E : list (Image Q))
    (M : list (Image Z)) (e : EEError) :
  airTemp_pantanal k B E M = Err e ->
  (exists b, e = BandNotFound "Image.select" b) \/
  e = ParameterRequired "Image.subtract" "image1".
Proof.
  rewrite airTemp_pantanal_stages.
  destruct (combined_pantanal B M) as [C|e1] eqn:HC; simpl.
  - intros H. apply mapM_Err_inv in H as (c & Hc & Herr).
    destruct (proj1 (clipped_members B M C HC) c Hc) as (m & b & t & _ & Hb & Ht & _).
    destruct (era5_of k E) as [coll|e2] eqn:Hcoll.
    + destruct (calibrate_single_cases k E coll c alpha "LST" b t Hcoll Hb Ht)
        as [[(out & Hok) _] | [Herr' _]]; [congruence|].
      right. congruence.
    + rewrite (calibrate_era5_Err k E c alpha e2 Hcoll) in Herr. injection Herr as <-.
      left. exact (era5_of_Err k E e2 Hcoll).
  - intros [= <-]. left. exact (combined_pantanal_Err B M e1 HC).
Qed.

Lemma reduceRegion_cases (img : Image Q) (reducer : Reducer) (B : list Feature) :
  (within_pixel_budget B ->
   exists d, Image_reduceRegion img (mkReduceRegionArgs reducer (roi B) 1000 10000000000000)
             = Ok d) /\
  (~ within_pixel_budget B ->
   Image_reduceRegion img (mkReduceRegionArgs reducer (roi B) 1000 10000000000000)
   = Err (TooManyPixels "Image.reduceRegion")).
Proof.
  unfold within_pixel_budget, Image_reduceRegion. cbn [rr_maxPixels rr_geometry rr_reducer].
  destruct (Z.ltb_spec 10000000000000
              (Z.of_nat (length (elements (FeatureCollection_geometry (roi B)))))).
  - split; [lia | reflexivity].
  - split; [eexists; reflexivity | lia].
Qed.

Lemma timeStats_cases (B : list Feature) (E : list (Image Q)) (M : list (Image Z))
    (A : list (Image Q)) :
  airTemp_pantanal_mean B E M = Ok A ->
  (within_pixel_budget B -> exists fc, statsFC B E M = Ok fc) /\
  (forall e, statsFC B E M = Err e -> e = TooManyPixels "Image.reduceRegion").
Proof.
  intros HA. unfold statsFC, timeStats. rewrite HA. simpl.
  assert (Hdate : forall a, In a A -> exists t, Image_date a = Ok t).
  { intros a Ha.
    destruct (Forall2_In_r _ _ _ a (calibrated_sources Mean B E M A HA) Ha)
      as (src & _ & _ & _ & t & Ht & _).
    exists t. apply Image_date_Ok. exact Ht. }
  split.
  - intros Hbudget. apply mapM_Ok_all. intros a Ha.
    destruct (proj1 (reduceRegion_cases a ee_Reducer_mean B) Hbudget) as (d & ->).
    destruct (Hdate a Ha) as (t & ->). eexists. reflexivity.
  - intros e He. apply mapM_Err_inv in He as (a & Ha & Herr).
    destruct (Hdate a Ha) as (t & Ht). rewrite Ht in Herr.
    destruct (Z_le_dec (Z.of_nat (length (elements (FeatureCollection_geometry (roi B)))))
                10000000000000) as [Hb|Hb].
    + destruct (proj1 (reduceRegion_cases a ee_Reducer_mean B) Hb) as (d & Hd).
      rewrite Hd in Herr. discriminate.
    + rewrite (proj2 (reduceRegion_cases a ee_Reducer_mean B) Hb) in Herr.
      injection Herr as <-. reflexivity.
Qed.

Lemma airTemp_Ok_of_series (k : Kind) (B : list Feature) (E : list (Image Q))
    (M : list (Image Z)) (A : list (Image Q)) :
  airTemp_pantanal k B E M = Ok A -> airTemp k B E M = Ok (aggregate k A).
Proof. intros H. apply airTemp_aggregate. exists A. split; [exact H | reflexivity]. Qed.

Lemma export_tasks_statements (B : list Feature) (E : list (Image Q)) (M : list (Image Z)) :
  export_tasks B E M
  = (tmean ← export_task Mean B E M;
     tmax ← export_task Max B E M;
     tmin ← export_task Min B E M;
     Ok [tmean; tmax; tmin]).
Proof.
  unfold export_tasks, export_task. cbn [airTemp].
  destruct (meanAirTemp B E M), (maxAirTemp B E M), (minAirTemp B E M); reflexivity.
Qed.

Lemma kind_statements (k : Kind) (B : list Feature) (E : list (Image Q))
    (M : list (Image Z)) :
  match airTemp_pantanal k B E M with
  | Ok A => (exists img, airTemp k B E M = Ok img) /\
            (exists c, chart k B E M = Ok c) /\
            (exists task, export_task k B E M = Ok task)
  | Err e => airTemp k B E M = Err e /\ chart k B E M = Err e /\ export_task k B E M = Err e
  end.
Proof.
  destruct k; unfold export_task, airTemp, chart, meanAirTemp, minAirTemp, maxAirTemp,
    chartMean, chartMin, chartMax; cbn [airTemp_pantanal].
  - destruct (airTemp_pantanal_mean B E M); repeat split; eexists; reflexivity.
  - destruct (airTemp_pantanal_min B E M); repeat split; eexists; reflexivity.
  - destruct (airTemp_pantanal_max B E M); repeat split; eexists; reflexivity.
Qed.

Lemma within_pixel_budget_dec (B : list Feature) :
  within_pixel_budget B \/ ~ within_pixel_budget B.
Proof.
  unfold within_pixel_budget.
  destruct (Z_le_dec (Z.of_nat (length (elements (FeatureCollection_geometry (roi B)))))
              10000000000000); [left | right]; assumption.
Qed.

Lemma stats_cases (B : list Feature) (E : list (Image Q)) (M : list (Image Z))
    (sqrtQ : Q -> Q) :
  match airTemp_pantanal Mean B E M with
  | Ok A => (within_pixel_budget B -> exists d, stats B E M sqrtQ = Ok d) /\
            (~ within_pixel_budget B ->
             stats B E M sqrtQ = Err (TooManyPixels "Image.reduceRegion"))
  | Err e => stats B E M sqrtQ = Err e
  end.
Proof.
  unfold stats, meanAirTempImage. cbn [airTemp_pantanal].
  destruct (airTemp_pantanal_mean B E M) as [A|e]; [|reflexivity].
  exact (reduceRegion_cases (ImageCollection_mean A) _ B).
Qed.

Lemma statsFC_cases (B : list Feature) (E : list (Image Q)) (M : list (Image Z)) :
  match airTemp_pantanal Mean B E M with
  | Ok A => (A = [] \/ within_pixel_budget B -> exists fc, statsFC B E M = Ok fc) /\
            (A <> [] -> ~ within_pixel_budget B ->
             statsFC B E M = Err (TooManyPixels "Image.reduceRegion"))
  | Err e => statsFC B E M = Err e
  end.
Proof.
  destruct (airTemp_pantanal Mean B E M) as [A|e] eqn:HA.
  - split.
    + intros [->|Hb].
      * unfold statsFC, timeStats. cbn [airTemp_pantanal] in HA. rewrite HA.
        eexists. reflexivity.
      * exact (proj1 (timeStats_cases B E M A HA) Hb).
    + intros Hne Hb. unfold statsFC, timeStats. cbn [airTemp_pantanal] in HA. rewrite HA.
      destruct A as [|a A']; [destruct Hne; reflexivity|]. simpl.
      rewrite (proj2 (reduceRegion_cases a ee_Reducer_mean B) Hb). reflexivity.
  - unfold statsFC, timeStats. cbn [airTemp_pantanal] in HA. rewrite HA. reflexivity.
Qed.

(** X11. Each output statement has an outcome of its own. The aggregate, the
    chart and the export of a kind are produced exactly when the calibrated
    series of that kind can be built, whatever happens to the other kinds;
    the regional statistics exactly when the mean series can be built and
    the region fits the pixel budget; the per-date table, and with it its
    chart, exactly when the mean series can be built and is empty or the
    region fits the budget. A statement of a kind fails with the error for
    a band that [select] does not find or with the error for the missing
    first operand of [subtract] at an unmatched date; the regional
    reductions fail with one of these or with the error for the exceeded
    pixel budget. The list of the three exports is the three export
    statements in the order of the script. *)
Theorem statement_outcomes (B : list Feature) (E : list (Image Q)) (M : list (Image Z))
    (sqrtQ : Q -> Q) :
  (forall k,
     ((exists img, airTemp k B E M = Ok img) <-> exists A, airTemp_pantanal k B E M = Ok A) /\
     ((exists c, chart k B E M = Ok c) <-> exists A, airTemp_pantanal k B E M = Ok A) /\
     ((exists task, export_task k B E M = Ok task)
      <-> exists A, airTemp_pantanal k B E M = Ok A)) /\
  ((exists d, stats B E M sqrtQ = Ok d) <->
   (exists A, airTemp_pantanal Mean B E M = Ok A) /\ within_pixel_budget B) /\
  ((exists fc, statsFC B E M = Ok fc) <->
   exists A, airTemp_pantanal Mean B E M = Ok A /\ (A = [] \/ within_pixel_budget B)) /\
  ((exists tc, timeChart B E M = Ok tc) <-> exists fc, statsFC B E M = Ok fc) /\
  (forall k e,
     airTemp k B E M = Err e \/ chart k B E M = Err e \/ export_task k B E M = Err e ->
     (exists b, e = BandNotFound "Image.select" b) \/
     e = ParameterRequired "Image.subtract" "image1") /\
  (forall e,
     stats B E M sqrtQ = Err e \/ statsFC B E M = Err e \/ timeChart B E M = Err e ->
     (exists b, e = BandNotFound "Image.select" b) \/
     e = ParameterRequired "Image.subtract" "image1" \/
     e = TooManyPixels "Image.reduceRegion") /\
  export_tasks B E M
  = (tmean ← export_task Mean B E M;
     tmax ← export_task Max B E M;
     tmin ← export_task Min B E M;
     Ok [tmean; tmax; tmin]).
Proof.
  assert (Hchart : forall e, timeChart B E M = Err e -> statsFC B E M = Err e).
  { intros e H. unfold timeChart in H.
    destruct (statsFC B E M) as [fc|e']; [discriminate|].
    injection H as <-. reflexivity. }
  split; [|split; [|split; [|split; [|split; [|split]]]]].
  - intros k. pose proof (kind_statements k B E M) as H.
    destruct (airTemp_pantanal k B E M) as [A|e].
    + destruct H as (H1 & H2 & H3). repeat split; eauto.
    + destruct H as (H1 & H2 & H3). rewrite H1, H2, H3.
      repeat split; intros (x & Hx); discriminate.
  - pose proof (stats_cases B E M sqrtQ) as H.
    destruct (airTemp_pantanal Mean B E M) as [A|e].
    + destruct H as [Hin Hout]. split.
      * intros (d & Hd). split; [eauto|].
        destruct (within_pixel_budget_dec B) as [Hb|Hb]; [exact Hb|].
        rewrite (Hout Hb) in Hd. discriminate.
      * intros [_ Hb]. exact (Hin Hb).
    + rewrite H. split; [intros (d & Hd); discriminate | intros [(A & HA) _]; discriminate].
  - pose proof (statsFC_cases B E M) as H.
    destruct (airTemp_pantanal Mean B E M) as [A|e].
    + destruct H as [Hin Hout]. split.
      * intros (fc & Hfc). exists A. split; [reflexivity|].
        destruct A as [|a A']; [left; reflexivity|]. right.
        destruct (within_pixel_budget_dec B) as [Hb|Hb]; [exact Hb|].
        rewrite (Hout ltac:(discriminate) Hb) in Hfc. discriminate.
      * intros (A' & [= <-] & Hc). exact (Hin Hc).
    + rewrite H. split; [intros (fc & Hfc); discriminate | intros (A & HA & _); discriminate].
  - unfold timeChart. destruct (statsFC B E M) as [fc|e]; split.
    + intros _. eauto.
    + intros _. eexists. reflexivity.
    + intros (tc & Htc). discriminate.
    + intros (fc & Hfc). discriminate.
  - intros k e He. pose proof (kind_statements k B E M) as H.
    destruct (airTemp_pantanal k B E M) as [A|e'] eqn:HA.
    + destruct H as ((img & H1) & (c & H2) & (task & H3)).
      rewrite H1, H2, H3 in He. destruct He as [He|[He|He]]; discriminate.
    + destruct H as (H1 & H2 & H3). rewrite H1, H2, H3 in He.
      assert (e = e') as -> by (destruct He as [He|[He|He]]; congruence).
      exact (airTemp_pantanal_Err k B E M e' HA).
  - intros e He.
    assert (He' : stats B E M sqrtQ = Err e \/ statsFC B E M = Err e).
    { destruct He as [He|[He|He]]; [left; exact He | right; exact He |].
      right. exact (Hchart e He). }
    pose proof (stats_cases B E M sqrtQ) as Hs. pose proof (statsFC_cases B E M) as Hf.
    destruct (airTemp_pantanal Mean B E M) as [A|e'] eqn:HA.
    + right. right. destruct Hs as [Hsin Hsout]. destruct Hf as [Hfin Hfout].
      destruct (within_pixel_budget_dec B) as [Hb|Hb].
      * destruct (Hsin Hb) as (d & Hd). destruct (Hfin (or_intror Hb)) as (fc & Hfc).
        rewrite Hd, Hfc in He'. destruct He' as [He'|He']; discriminate.
      * rewrite (Hsout Hb) in He'. destruct He' as [He'|He']; [congruence|].
        destruct A as [|a A'].
        -- destruct (Hfin (or_introl eq_refl)) as (fc & Hfc). congruence.
        -- rewrite (Hfout ltac:(discriminate) Hb) in He'. congruence.
    + rewrite Hs, Hf in He'.
      assert (e = e') as -> by (destruct He' as [He'|He']; congruence).
      destruct (airTemp_pantanal_Err Mean B E M e' HA) as [H|H];
        [left; exact H | right; left; exact H].
  - exact (export_tasks_statements B E M).
Qed.

(** With a reanalysis dataset that lacks the maximum band, the outputs of
    the maximum fail on their own: the mean and minimum aggregates, the
    regional statistics and the per-date table are produced. *)
Example outputs_fail_independently :
  let E := [era5_observation_without_max jan01 303.15 298.15;
            era5_observation_without_max (jan01 + day_millis) 304.15 299.15] in
  is_Ok (meanAirTemp sample_biomas E sample_MOD11A1) = true /\
  is_Ok (minAirTemp sample_biomas E sample_MOD11A1) = true /\
  is_Ok (stats sample_biomas E sample_MOD11A1 sample_sqrt) = true /\
  is_Ok (statsFC sample_biomas E sample_MOD11A1) = true /\
  is_Ok (export_task Mean sample_biomas E sample_MOD11A1) = true /\
  maxAirTemp sample_biomas E sample_MOD11A1
  = Err (BandNotFound "Image.select" "maximum_2m_air_temperature") /\
  export_task Max sample_biomas E sample_MOD11A1
  = Err (BandNotFound "Image.select" "maximum_2m_air_temperature").
Proof. repeat split; vm_compute; reflexivity. Qed.

(** ** The exported rasters *)

Lemma round_half_up_spec (v : Q) :
  exists z : Z, round_half_up v = inject_Z z /\
                (v - (1 # 2) <= round_half_up v <= v + (1 # 2))%Q.
Proof.
  unfold round_half_up. exists (Qfloor (v + (1 # 2))). split; [reflexivity|].
  pose proof (Qfloor_le (v + (1 # 2))) as Hle.
  pose proof (Qlt_floor (v + (1 # 2))) as Hlt.
  rewrite inject_Z_plus in Hlt. change (inject_Z 1) with 1%Q in Hlt.
  split; lra.
Qed.

(** X12. In a completed run every valid pixel of an exported raster holds a
    whole number of degrees that differs from the value of the aggregate it
    was rounded from by at most half a degree, and the exported raster is
    valid exactly where that aggregate is. *)
Theorem exports_round_to_degrees (B : list Feature) (E : list (Image Q))
    (M : list (Image Z)) (sqrtQ : Q -> Q) (out : Outputs) :
  script B E M sqrtQ = Ok out ->
  exists Amean Amax Amin,
    airTemp_pantanal Mean B E M = Ok Amean /\
    airTemp_pantanal Max B E M = Ok Amax /\
    airTemp_pantanal Min B E M = Ok Amin /\
    Forall2 (fun ex agg =>
               forall name p,
                 match pixel (export_image ex) name p, pixel agg name p with
                 | Some r, Some v =>
                     (exists z : Z, r = inject_Z z) /\ (v - (1 # 2) <= r <= v + (1 # 2))%Q
                 | None, None => True
                 | _, _ => False
                 end)
      (exports out) [aggregate Mean Amean; aggregate Max Amax; aggregate Min Amin].
Proof.
  intros H.
  destruct (script_Ok B E M sqrtQ out H)
    as (meanT & maxT & minT & st & fc & tc & cMean & cMax & cMin &
        HmeanT & HmaxT & HminT & _ & _ & _ & _ & _ & _ & _ & _ & He).
  apply fmap_Ok in HmeanT as (Amean & HAmean & ->).
  apply fmap_Ok in HmaxT as (Amax & HAmax & ->).
  apply fmap_Ok in HminT as (Amin & HAmin & ->).
  exists Amean, Amax, Amin.
  split; [exact HAmean|]. split; [exact HAmax|]. split; [exact HAmin|].
  assert (Hround : forall img name p,
            match pixel (Image_round img) name p, pixel img name p with
            | Some r, Some v =>
                (exists z : Z, r = inject_Z z) /\ (v - (1 # 2) <= r <= v + (1 # 2))%Q
            | None, None => True
            | _, _ => False
            end).
  { intros img name p. rewrite pixel_Image_round.
    destruct (pixel img name p) as [v|]; simpl; [|exact I].
    destruct (round_half_up_spec v) as (z & Hz & Hb). split; [exists z; exact Hz | exact Hb]. }
  rewrite He. repeat constructor; intros name p; apply Hround.
Qed.

Lemma exports_round_to_degrees_witness :
  exists out Amean,
    script sample_biomas sample_ERA5 sample_MOD11A1 sample_sqrt = Ok out /\
    airTemp_pantanal Mean sample_biomas sample_ERA5 sample_MOD11A1 = Ok Amean /\
    length (exports out) = 3%nat.
Proof.
  destruct sample_run as (out & Hout).
  destruct (exports_round_to_degrees sample_biomas sample_ERA5 sample_MOD11A1 sample_sqrt
              out Hout) as (Amean & Amax & Amin & HAmean & _ & _ & HF).
  exists out, Amean. split; [exact Hout|]. split; [exact HAmean|].
  rewrite (Forall2_length _ _ _ HF). reflexivity.
Defined.

(** ** The reanalysis loader *)

(** X13. The reanalysis series of a kind is loaded exactly when every raster
    of the dataset inside the date window has the band of that kind, and
    fails with the error for that band otherwise. A loaded series has one
    raster per raster of the window, in order, with that single band, all
    properties of the source and the pixel values as they are in the
    source (Kelvin): no conversion happens at load time. *)
Theorem era5_loader (k : Kind) (E : list (Image Q)) :
  ((exists coll, era5_of k E = Ok coll) <->
   forall e0, In e0 (window E) -> has_band (era5_band k) e0) /\
  (forall coll, era5_of k E = Ok coll ->
     Forall2 (fun e0 e =>
                List.map fst (bands e) = [era5_band k] /\
                properties e = properties e0 /\
                forall p, pixel e (era5_band k) p = pixel e0 (era5_band k) p)
       (window E) coll) /\
  (forall err, era5_of k E = Err err ->
     err = BandNotFound "Image.select" (era5_band k) /\
     exists e0, In e0 (window E) /\ lookup_band (era5_band k) (bands e0) = None).
Proof.
  assert (Hstage : era5_of k E = mapM (Image_select [era5_band k]) (window E)).
  { destruct k; unfold era5_of, era5_mean, era5_min, era5_max;
      rewrite filterDate_window; reflexivity. }
  split; [split|split].
  - intros (coll & Hcoll) e0 He0.
    destruct (proj2 (era5_of_members k E coll Hcoll) e0 He0) as (e & kb & _ & Hkb & _).
    unfold has_band. rewrite Hkb. eexists. reflexivity.
  - intros Hall. rewrite Hstage. apply mapM_Ok_all. intros e0 He0.
    destruct (Hall e0 He0) as [kb Hkb]. eexists. apply Image_select_single. eauto.
  - intros coll Hcoll. apply era5_of_Ok in Hcoll.
    eapply Forall2_impl; [exact Hcoll|]. cbv beta. intros e0 e Hsel.
    apply Image_select_single in Hsel as (kb & Hkb & ->).
    split; [reflexivity|]. split; [reflexivity|].
    intros p. rewrite pixel_single, String.eqb_refl. unfold pixel. rewrite Hkb. reflexivity.
  - intros err Herr. rewrite Hstage in Herr.
    apply mapM_Err_inv in Herr as (e0 & He0 & Hsel).
    apply Image_select_Err in Hsel as (b & Hb & Hnone & ->).
    destruct Hb as [<-|[]]. split; [reflexivity|]. exists e0. split; assumption.
Qed.

Lemma era5_loader_witness :
  era5_of Max [era5_observation_without_max jan01 303.15 298.15]
  = Err (BandNotFound "Image.select" "maximum_2m_air_temperature").
Proof.
  destruct (era5_of Max [era5_observation_without_max jan01 303.15 298.15])
    as [coll|err] eqn:H; [vm_compute in H; discriminate H|].
  destruct (proj2 (proj2 (era5_loader Max [era5_observation_without_max jan01 303.15 298.15]))
              err H) as [-> _].
  reflexivity.
Defined.

(** ** The three aggregates against each other *)

Lemma head_filter_Forall2 {A B} (R : A -> B -> Prop) (f : A -> bool) (g : B -> bool)
    (l : list A) (l' : list B) :
  Forall2 R l l' -> (forall x y, R x y -> f x = g y) ->
  match head (List.filter f l), head (List.filter g l') with
  | Some x, Some y => R x y
  | None, None => True
  | _, _ => False
  end.
Proof.
  intros H Hfg. induction H as [|x y l l' Hxy _ IH]; [exact I|].
  cbn [List.filter]. rewrite <- (Hfg x y Hxy). destruct (f x); [exact Hxy | exact IH].
Qed.

(** The calibrated values in terms of the dataset: the reanalysis raster
    used is the first raster of the window with the timestamp of the LST
    raster, whatever the kind. *)
Lemma calibrated_from_dataset (k : Kind) (E : list (Image Q)) (c : Image Q) (alpha : Q)
    (a : Image Q) (n : string) (b : Band Q) :
  bands c = [(n, b)] ->
  calibrate k E c alpha = Ok a ->
  exists t e0,
    time_start c = Some t /\
    ImageCollection_first (ImageCollection_filter (Filter_date t) (window E)) = Some e0 /\
    In e0 (window E) /\
    forall p, pixel a (air_temperature_band k) p
              = match b p, pixel e0 (era5_band k) p with
                | Some lst, Some kelvin => Some (lst + ((kelvin - 273.15) - lst) * alpha)%Q
                | _, _ => None
                end.
Proof.
  intros Hb Ha.
  destruct (calibrate_single_inv k E c alpha a n b Hb Ha)
    as (coll & t & e & kb & Hcoll & Ht & He & _ & _ & Hbe & _ & _ & Hpx).
  apply era5_of_Ok in Hcoll.
  assert (Hfg : forall x y : Image Q,
            Image_select [era5_band k] x = Ok y -> Filter_date t x = Filter_date t y).
  { intros x y Hsel. apply Image_select_single in Hsel as (kb' & _ & ->). reflexivity. }
  pose proof (head_filter_Forall2 _ (Filter_date t) (Filter_date t) _ _ Hcoll Hfg) as Hhead.
  unfold ImageCollection_first, ImageCollection_filter in He |- *.
  rewrite He in Hhead.
  destruct (head (List.filter (Filter_date t) (window E))) as [e0|] eqn:He0;
    [|destruct Hhead].
  apply Image_select_single in Hhead as (kb' & Hkb' & Hek).
  exists t, e0. split; [exact Ht|]. split; [exact He0|]. split.
  - assert (Hin : In e0 (List.filter (Filter_date t) (window E))).
    { destruct (List.filter (Filter_date t) (window E)); [discriminate|].
      injection He0 as ->. left. reflexivity. }
    apply List.filter_In in Hin as [Hin _]. exact Hin.
  - intros p. rewrite Hpx. rewrite Hek in Hbe. injection Hbe as <-.
    unfold pixel. rewrite Hkb'. reflexivity.
Qed.

Lemma Forall2_common {A B C} (R1 : A -> B -> Prop) (R2 : A -> C -> Prop)
    (l : list A) (l1 : list B) (l2 : list C) :
  Forall2 R1 l l1 -> Forall2 R2 l l2 ->
  Forall2 (fun y z => exists x, In x l /\ R1 x y /\ R2 x z) l1 l2.
Proof.
  intros H1. revert l2. induction H1 as [|x y l l1 Hxy _ IH]; intros l2 H2.
  - inversion H2. constructor.
  - inversion H2 as [|? z ? l2' Hxz Hrest]; subst. constructor.
    + exists x. split; [left; reflexivity|]. split; assumption.
    + eapply Forall2_impl; [exact (IH _ Hrest)|]. cbv beta.
      intros y' z' (x' & Hin & H). exists x'. split; [right; exact Hin | exact H].
Qed.

(** Two calibrated series of a run are aligned: rasters at the same position
    come from the same clipped LST raster. *)
Lemma series_aligned (k1 k2 : Kind) (B : list Feature) (E : list (Image Q))
    (M : list (Image Z)) (A1 A2 : list (Image Q)) :
  airTemp_pantanal k1 B E M = Ok A1 ->
  airTemp_pantanal k2 B E M = Ok A2 ->
  Forall2 (fun a1 a2 => exists c b, bands c = [("LST", b)] /\
                                    calibrate k1 E c alpha = Ok a1 /\
                                    calibrate k2 E c alpha = Ok a2) A1 A2.
Proof.
  rewrite !airTemp_pantanal_stages. intros H1 H2.
  apply bind_Ok in H1 as (C & HC & H1). apply bind_Ok in H2 as (C' & HC' & H2).
  rewrite HC in HC'. injection HC' as <-.
  apply mapM_Ok_Forall2 in H1, H2.
  eapply Forall2_impl; [exact (Forall2_common _ _ _ _ _ H1 H2)|]. cbv beta.
  intros a1 a2 (c & Hc & Ha1 & Ha2).
  destruct (proj1 (clipped_members B M C HC) c Hc) as (m & b & t & _ & Hb & _).
  exists c, b. repeat split; assumption.
Qed.

Lemma calibrated_pair (k1 k2 : Kind) (E : list (Image Q)) (c : Image Q) (alpha : Q)
    (a1 a2 : Image Q) (n : string) (b : Band Q) :
  bands c = [(n, b)] ->
  calibrate k1 E c alpha = Ok a1 ->
  calibrate k2 E c alpha = Ok a2 ->
  exists e0,
    In e0 (window E) /\
    (forall p, pixel a1 (air_temperature_band k1) p
               = match b p, pixel e0 (era5_band k1) p with
                 | Some lst, Some kelvin => Some (lst + ((kelvin - 273.15) - lst) * alpha)%Q
                 | _, _ => None
                 end) /\
    (forall p, pixel a2 (air_temperature_band k2) p
               = match b p, pixel e0 (era5_band k2) p with
                 | Some lst, Some kelvin => Some (lst + ((kelvin - 273.15) - lst) * alpha)%Q
                 | _, _ => None
                 end).
Proof.
  intros Hb Ha1 Ha2.
  destruct (calibrated_from_dataset k1 E c alpha a1 n b Hb Ha1)
    as (t1 & e1 & Ht1 & He1 & Hin1 & Hpx1).
  destruct (calibrated_from_dataset k2 E c alpha a2 n b Hb Ha2)
    as (t2 & e2 & Ht2 & He2 & _ & Hpx2).
  rewrite Ht1 in Ht2. injection Ht2 as <-. rewrite He1 in He2. injection He2 as <-.
  exists e1. split; [exact Hin1|]. split; assumption.
Qed.

(** With ordered reanalysis data, where the calibrated mean raster of an
    observation is valid, so are its min and max rasters, in this order. *)
Lemma calibrated_ordered (k : Kind) (E : list (Image Q)) (c : Image Q)
    (a_mean a : Image Q) (n : string) (b : Band Q) (p : Pixel) (x : Q) :
  ordered_reanalysis E ->
  bands c = [(n, b)] ->
  calibrate Mean E c alpha = Ok a_mean ->
  calibrate k E c alpha = Ok a ->
  pixel a_mean "air_temperature_mean" p = Some x ->
  exists y,
    pixel a (air_temperature_band k) p = Some y /\
    (k = Min -> (y <= x)%Q) /\ (k = Max -> (x <= y)%Q).
Proof.
  intros Hord Hb Hmean Ha Hx.
  destruct (calibrated_pair Mean k E c alpha a_mean a n b Hb Hmean Ha)
    as (e0 & He0 & Hpmean & Hpa).
  cbn [air_temperature_band era5_band] in Hpmean.
  rewrite Hpmean in Hx. rewrite Hpa.
  destruct (b p) as [lst|] eqn:Hlst; [|discriminate].
  destruct (pixel e0 "mean_2m_air_temperature" p) as [kmean|] eqn:Hkmean; [|discriminate].
  destruct (Hord e0 p kmean He0 Hkmean) as (kmin & kmax & Hkmin & Hkmax & Hle & Hge).
  injection Hx as <-.
  destruct k; cbn [era5_band].
  - rewrite Hkmean. eexists. split; [reflexivity|]. split; discriminate.
  - rewrite Hkmin. eexists. split; [reflexivity|]. split; [|discriminate].
    intros _. unfold alpha. lra.
  - rewrite Hkmax. eexists. split; [reflexivity|]. split; [discriminate|].
    intros _. unfold alpha. lra.
Qed.

(** X14. When the reanalysis data are ordered (minimum <= mean <= maximum
    wherever the mean is present), the three monthly aggregates are ordered
    too: where the mean aggregate is valid, the min and the max aggregate
    are valid and min aggregate <= mean aggregate <= max aggregate. *)
Theorem aggregates_ordered (B : list Feature) (E : list (Image Q)) (M : list (Image Z))
    (Amin Amean Amax : list (Image Q)) (p : Pixel) (mu : Q) :
  airTemp_pantanal Min B E M = Ok Amin ->
  airTemp_pantanal Mean B E M = Ok Amean ->
  airTemp_pantanal Max B E M = Ok Amax ->
  ordered_reanalysis E ->
  pixel (aggregate Mean Amean) "air_temperature_mean" p = Some mu ->
  exists lo hi,
    pixel (aggregate Min Amin) "air_temperature_min" p = Some lo /\
    pixel (aggregate Max Amax) "air_temperature_max" p = Some hi /\
    (lo <= mu <= hi)%Q.
Proof.
  intros HAmin HAmean HAmax Hord Hmu.
  change "air_temperature_mean" with (air_temperature_band Mean) in Hmu.
  change "air_temperature_min" with (air_temperature_band Min).
  change "air_temperature_max" with (air_temperature_band Max).
  rewrite (aggregate_pixel Mean B E M Amean p HAmean) in Hmu.
  rewrite (aggregate_pixel Min B E M Amin p HAmin).
  rewrite (aggregate_pixel Max B E M Amax p HAmax).
  destruct (Reducer_of_spec Mean _ mu Hmu) as (x_lo & x_hi & Hxlo & Hxhi & _ & [Hlo Hhi] & _).
  apply In_valid_values in Hxlo as (a_l & Hal & Hpl).
  apply In_valid_values in Hxhi as (a_h & Hah & Hph).
  assert (Hother : forall k A a x,
            airTemp_pantanal k B E M = Ok A -> In a Amean ->
            pixel a (air_temperature_band Mean) p = Some x ->
            exists y, In y (valid_values A (air_temperature_band k) p) /\
                      (k = Min -> (y <= x)%Q) /\ (k = Max -> (x <= y)%Q)).
  { intros k A a x HA Ha Hx.
    destruct (Forall2_In_l _ _ _ a (series_aligned Mean k B E M Amean A HAmean HA) Ha)
      as (a' & Ha' & c & b & Hb & Hcm & Hck).
    destruct (calibrated_ordered k E c a a' "LST" b p x Hord Hb Hcm Hck Hx)
      as (y & Hy & Hmin & Hmax).
    exists y. split; [|split; assumption].
    apply In_valid_values. exists a'. split; assumption. }
  destruct (Hother Min Amin a_l x_lo HAmin Hal Hpl) as (y & Hy & Hyx & _).
  destruct (Hother Max Amax a_h x_hi HAmax Hah Hph) as (z & Hz & _ & Hxz).
  destruct (Reducer_of Min (valid_values Amin (air_temperature_band Min) p))
    as [lo|] eqn:Elo.
  2:{ exfalso.
      assert (Hd : is_Some (Reducer_of Min (valid_values Amin (air_temperature_band Min) p))).
      { apply Reducer_of_defined. intros Hnil. rewrite Hnil in Hy. destruct Hy. }
      rewrite Elo in Hd. destruct Hd as [v Hv]. discriminate. }
  destruct (Reducer_of Max (valid_values Amax (air_temperature_band Max) p))
    as [hi|] eqn:Ehi.
  2:{ exfalso.
      assert (Hd : is_Some (Reducer_of Max (valid_values Amax (air_temperature_band Max) p))).
      { apply Reducer_of_defined. intros Hnil. rewrite Hnil in Hz. destruct Hz. }
      rewrite Ehi in Hd. destruct Hd as [v Hv]. discriminate. }
  exists lo, hi. split; [reflexivity|]. split; [reflexivity|].
  destruct (Reducer_of_spec Min _ lo Elo) as (l1 & h1 & _ & _ & Hall1 & _ & Hl1 & _).
  destruct (Reducer_of_spec Max _ hi Ehi) as (l2 & h2 & _ & _ & Hall2 & _ & _ & Hh2).
  rewrite (Hl1 eq_refl), (Hh2 eq_refl).
  destruct (Hall1 y Hy) as [H1 _]. destruct (Hall2 z Hz) as [_ H2].
  specialize (Hyx eq_refl). specialize (Hxz eq_refl). split; lra.
Qed.

Lemma sample_ERA5_ordered : ordered_reanalysis sample_ERA5.
Proof.
  intros e0 p kmean He0.
  change (window sample_ERA5) with sample_ERA5 in He0.
  destruct He0 as [<-|[<-|[]]]; intros [= <-]; do 2 eexists;
    (split; [reflexivity|]); (split; [reflexivity|]); split; vm_compute; discriminate.
Qed.

Lemma aggregates_ordered_witness :
  exists Amin Amean Amax mu lo hi,
    airTemp_pantanal Mean sample_biomas sample_ERA5 sample_MOD11A1 = Ok Amean /\
    pixel (aggregate Mean Amean) "air_temperature_mean" (0, 0) = Some mu /\
    pixel (aggregate Min Amin) "air_temperature_min" (0, 0) = Some lo /\
    pixel (aggregate Max Amax) "air_temperature_max" (0, 0) = Some hi /\
    (lo <= mu <= hi)%Q.
Proof.
  destruct (is_Ok_and_true
              (airTemp_pantanal Mean sample_biomas sample_ERA5 sample_MOD11A1)
              (fun A => is_valid (pixel (aggregate Mean A) "air_temperature_mean" (0, 0))))
    as (Amean & HAmean & Hvalid); [vm_compute; reflexivity|].
  apply is_valid_true in Hvalid as (mu & Hmu).
  destruct (is_Ok_true (airTemp_pantanal Min sample_biomas sample_ERA5 sample_MOD11A1))
    as (Amin & HAmin); [vm_compute; reflexivity|].
  destruct (is_Ok_true (airTemp_pantanal Max sample_biomas sample_ERA5 sample_MOD11A1))
    as (Amax & HAmax); [vm_compute; reflexivity|].
  destruct (aggregates_ordered sample_biomas sample_ERA5 sample_MOD11A1 Amin Amean Amax
              (0, 0) mu HAmin HAmean HAmax sample_ERA5_ordered Hmu)
    as (lo & hi & Hlo & Hhi & Hb).
  exists Amin, Amean, Amax, mu, lo, hi. repeat split; try assumption; apply Hb.
Defined.

(** ** The calibrated series in closed form *)

(** X16. Every raster of a calibrated series is a function of its source
    observation and of the first reanalysis raster of the window with the
    same timestamp: at a pixel inside the region with a quality flag whose
    bit 2 is clear, an LST digital number [n] and a reanalysis value
    [kelvin], it holds the blend of [n * 0.02 - 273.15] and
    [kelvin - 273.15] with weight 0.6 on the latter; at every other pixel it
    is masked. *)
Theorem calibrated_series_pixels (k : Kind) (B : list Feature) (E : list (Image Q))
    (M : list (Image Z)) (A : list (Image Q)) :
  airTemp_pantanal k B E M = Ok A ->
  Forall2 (fun (src : Overpass * Image Z) a =>
             exists t e0,
               time_start src.2 = Some t /\
               ImageCollection_first (ImageCollection_filter (Filter_date t) (window E))
               = Some e0 /\
               forall p,
                 pixel a (air_temperature_band k) p
                 = if bool_decide (p ∈ FeatureCollection_geometry (roi B))
                   then match pixel src.2 (qc_band src.1) p,
                              pixel src.2 (lst_band src.1) p,
                              pixel e0 (era5_band k) p with
                        | Some q, Some n, Some kelvin =>
                            if Z.testbit q 2 then None
                            else Some (spec_rescale n
                                       + ((kelvin - 273.15) - spec_rescale n) * 0.6)%Q
                        | _, _, _ => None
                        end
                   else None)
    (source_observations M) A.
Proof.
  intros HA. destruct (airTemp_pantanal_Ok k B E M A HA) as (Ld & Ln & HLd & HLn & HF).
  pose proof (Forall2_compose _ _ _ _ _ (source_series M Ld Ln HLd HLn) HF) as H.
  eapply Forall2_impl; [exact H|]. cbv beta.
  intros [o m] a (l & (_ & s & f & Hs & Hf & Hl) & Hcal). cbn [fst snd] in *.
  destruct (extract_chain o m s f l Hs Hf Hl) as (Hn & Hp & Hpx).
  set (c := Image_clip l (roi B)) in *.
  assert (Hcn : List.map fst (bands c) = ["LST"]).
  { unfold c, Image_clip. cbn [bands]. rewrite List.map_map. exact Hn. }
  destruct (single_band_names c "LST" Hcn) as (b & Hb).
  destruct (calibrated_from_dataset k E c alpha a "LST" b Hb Hcal)
    as (t & e0 & Ht & He0 & _ & Hpa).
  exists t, e0. split; [|split; [exact He0|]].
  - unfold time_start in Ht |- *. change (properties c) with (properties l) in Ht.
    rewrite Hp, bool_decide_eq_true_2 in Ht by (left; reflexivity). exact Ht.
  - intros p. rewrite Hpa.
    assert (Hbp : b p = pixel c "LST" p).
    { unfold pixel. rewrite Hb. reflexivity. }
    rewrite Hbp. unfold c. rewrite pixel_Image_clip, Hpx.
    destruct (bool_decide (p ∈ FeatureCollection_geometry (roi B))); [|reflexivity].
    destruct (pixel m (qc_band o) p) as [q|]; [|reflexivity].
    destruct (Z.testbit q 2).
    + destruct (pixel m (lst_band o) p), (pixel e0 (era5_band k) p); reflexivity.
    + destruct (pixel m (lst_band o) p) as [n|]; [|reflexivity].
      destruct (pixel e0 (era5_band k) p); reflexivity.
Qed.

Lemma calibrated_series_pixels_witness :
  exists A,
    airTemp_pantanal Min sample_biomas sample_ERA5 sample_MOD11A1 = Ok A /\
    length A = 4%nat.
Proof.
  destruct (is_Ok_true (airTemp_pantanal Min sample_biomas sample_ERA5 sample_MOD11A1))
    as (A & HA); [vm_compute; reflexivity|].
  exists A. split; [exact HA|].
  rewrite <- (Forall2_length _ _ _
                (calibrated_series_pixels Min sample_biomas sample_ERA5 sample_MOD11A1 A HA)).
  reflexivity.
Defined.

(** * The numbers in binary64 *)

(** ** Exhaustive checks over the digital numbers *)

Lemma all_below_spec (bits : nat) (base : Z) (test : Z -> bool) :
  Binary64.all_below bits base test = true ->
  forall n, base <= n < base + 2 ^ Z.of_nat bits -> test n = true.
Proof.
  revert base. induction bits as [|b IH]; intros base H n Hn.
  - cbn [Binary64.all_below] in H. change (2 ^ Z.of_nat 0) with 1 in Hn.
    replace n with base by lia. exact H.
  - cbn [Binary64.all_below] in H. apply andb_true_iff in H as [Hlo Hhi].
    rewrite Nat2Z.inj_succ, Z.pow_succ_r in Hn by lia.
    destruct (Z_lt_dec n (base + 2 ^ Z.of_nat b)) as [Hlt|Hge].
    + apply (IH base Hlo). lia.
    + apply (IH (base + 2 ^ Z.of_nat b) Hhi). lia.
Qed.

Lemma digital_numbers_within_tolerance :
  Binary64.all_below 16 0 Binary64.within_tolerance = true.
Proof. vm_compute. reflexivity. Qed.

Lemma rescale_within_tolerance (n : Z) :
  Binary64.digital_number n ->
  exists celsius back,
    Binary64.to_Q (Binary64.rescale n) = Some celsius /\
    (Qabs (celsius - (inject_Z n * 0.02 - 273.15)) <= 1 # 1000000000000)%Q /\
    Binary64.to_Q (Binary64.spec_rescale_inverse (Binary64.rescale n)) = Some back /\
    (Qabs (back - inject_Z n) <= 1 # 10000000000)%Q.
Proof.
  intros [Hlo Hhi].
  assert (Hn : 0 <= n < 0 + 2 ^ Z.of_nat 16) by (change (2 ^ Z.of_nat 16) with 65536; lia).
  pose proof (all_below_spec 16 0 _ digital_numbers_within_tolerance n Hn) as H.
  unfold Binary64.within_tolerance in H.
  destruct (Binary64.to_Q (Binary64.rescale n)) as [celsius|]; [|discriminate].
  destruct (Binary64.to_Q (Binary64.spec_rescale_inverse (Binary64.rescale n))) as [back|];
    [|discriminate].
  apply andb_true_iff in H as [H1 H2]. apply Qle_bool_iff in H1, H2.
  exists celsius, back. repeat split; assumption.
Qed.

(** The round trip is not exact: the inverse of the rescale of 14901 is the
    binary64 number just below 14901. *)
Example round_trip_not_exact :
  Binary64.spec_rescale_inverse (Binary64.rescale 14901) = 14900.999999999998%float /\
  (Binary64.spec_rescale_inverse (Binary64.rescale 14901) =? Binary64.of_Z 14901)%float = false.
Proof. split; vm_compute; reflexivity. Qed.

(** ** The rescale of one observation *)

Lemma terra_rescale_binary64 (o : Overpass) (image : Image Z) (out : Image float) :
  Binary64.terra_rescale o image = Ok out ->
  List.map fst (bands out) = ["LST"] /\
  (forall k, properties out !! k
             = if bool_decide (k = "system:time_start" \/ k = "system:time_end")
               then properties image !! k else None) /\
  forall p, pixel out "LST" p = Binary64.rescale <$> pixel image (lst_band o) p.
Proof.
  intros H.
  assert (exists lst, Image_select [lst_band o] image = Ok lst /\
            (Image_rename
               (Binary64.Image_subtract_const (Binary64.Image_multiply_const lst 0.02) 273.15)
               ["LST"]
             ≫= fun renamed =>
                  Ok (copyProperties renamed image ["system:time_start"; "system:time_end"]))
            = Ok out) as (lst & Hlst & Hout).
  { destruct o; apply bind_Ok in H; exact H. }
  apply Image_select_single in Hlst as (b & Hb & ->).
  simpl in Hout. injection Hout as <-.
  split; [reflexivity|]. split.
  - intros k. apply properties_copy_times.
  - intros p. unfold pixel at 2. rewrite Hb.
    unfold pixel; simpl. destruct (b p); reflexivity.
Qed.

Lemma terra_rescale_binary64_total (o : Overpass) (image : Image Z) (p : Pixel) (n : Z) :
  pixel image (lst_band o) p = Some n -> exists out, Binary64.terra_rescale o image = Ok out.
Proof.
  intros H. apply pixel_lookup_band in H as (b & Hb & _).
  assert (Hsel : Image_select [lst_band o] image
                 = Ok (mkImage [(lst_band o, b)] (properties image))).
  { apply Image_select_single. eauto. }
  destruct o;
    unfold Binary64.terra_rescale, Binary64.day_terra_rescale, Binary64.night_terra_rescale;
    simpl lst_band in Hsel; rewrite Hsel; simpl; eexists; reflexivity.
Qed.

(** C3. For every digital number [n] of the day or night LST band (an
    unsigned 16-bit integer), the extractor's rescale yields the binary64
    value of [n * 0.02 - 273.15] in the band [LST]; that value is within
    10^-12 degrees of the exact [n * 0.02 - 273.15], and the inverse of the
    rescale, [(celsius + 273.15) / 0.02] in binary64, recovers [n] from it
    within 10^-10. *)
Theorem rescale_celsius (o : Overpass) (image : Image Z) (p : Pixel) (n : Z) :
  pixel image (lst_band o) p = Some n ->
  Binary64.digital_number n ->
  exists out celsius back,
    Binary64.terra_rescale o image = Ok out /\
    pixel out "LST" p = Some (Binary64.of_Z n * 0.02 - 273.15)%float /\
    Binary64.to_Q (Binary64.of_Z n * 0.02 - 273.15) = Some celsius /\
    (Qabs (celsius - (inject_Z n * 0.02 - 273.15)) <= 1 # 1000000000000)%Q /\
    Binary64.to_Q (Binary64.spec_rescale_inverse (Binary64.of_Z n * 0.02 - 273.15)) = Some back /\
    (Qabs (back - inject_Z n) <= 1 # 10000000000)%Q.
Proof.
  intros H Hn. destruct (terra_rescale_binary64_total o image p n H) as (out & Hout).
  destruct (rescale_within_tolerance n Hn) as (celsius & back & Hc & Hct & Hb & Hbt).
  exists out, celsius, back. split; [exact Hout|].
  apply terra_rescale_binary64 in Hout as (_ & _ & Hpx).
  split; [rewrite Hpx, H; reflexivity|].
  repeat split; assumption.
Qed.

Lemma rescale_celsius_witness :
  exists out celsius back,
    Binary64.terra_rescale Day (modis_observation jan01 15000 0 14800 0) = Ok out /\
    pixel out "LST" (0, 0) = Some 26.850000000000023%float /\
    Binary64.to_Q 26.850000000000023 = Some celsius /\
    (Qabs (celsius - (inject_Z 15000 * 0.02 - 273.15)) <= 1 # 1000000000000)%Q /\
    Binary64.to_Q (Binary64.spec_rescale_inverse 26.850000000000023) = Some back /\
    (Qabs (back - inject_Z 15000) <= 1 # 10000000000)%Q.
Proof.
  apply (rescale_celsius Day (modis_observation jan01 15000 0 14800 0) (0, 0) 15000).
  - reflexivity.
  - unfold Binary64.digital_number. lia.
Defined.

(** ** The calibrator *)









(** * The quality flag and the rounding, through the whole script *)

(** ** Contributions of the observations *)

Lemma same_date_raster_first (E : list (Image Q)) (t : Z) :
  ImageCollection_first (ImageCollection_filter (Filter_date t) (window E))
  = same_date_raster E t.
Proof.
  unfold same_date_raster, ImageCollection_first, ImageCollection_filter.
  induction (window E) as [|e l IH]; simpl; [reflexivity|].
  destruct (Filter_date t e) eqn:Hf.
  - apply Filter_date_true in Hf. rewrite bool_decide_eq_true_2 by exact Hf. reflexivity.
  - rewrite bool_decide_eq_false_2; [exact IH|].
    intros Hc. apply Filter_date_true in Hc. congruence.
Qed.

Lemma omap_pointwise {A B} (f g : A -> option B) (l : list A) :
  (forall x, In x l -> f x = g x) -> omap f l = omap g l.
Proof.
  induction l as [|x l IH]; intros H; [reflexivity|].
  cbn [omap list_omap]. rewrite (H x (or_introl eq_refl)), IH; [reflexivity|].
  intros y Hy. apply H. right. exact Hy.
Qed.

(** Every raster of a calibrated series holds, pixel by pixel, the
    contribution of its source observation. *)
Lemma calibrated_contributions (k : Kind) (B : list Feature) (E : list (Image Q))
    (M : list (Image Z)) (A : list (Image Q)) :
  airTemp_pantanal k B E M = Ok A ->
  Forall2 (fun (src : Overpass * Image Z) a =>
             forall p, pixel a (air_temperature_band k) p = contribution k B E p src)
    (source_observations M) A.
Proof.
  intros HA. destruct (airTemp_pantanal_Ok k B E M A HA) as (Ld & Ln & HLd & HLn & HF).
  pose proof (Forall2_compose _ _ _ _ _ (source_series M Ld Ln HLd HLn) HF) as H.
  eapply Forall2_impl; [exact H|]. cbv beta.
  intros [o m] a (l & (_ & s & f & Hs & Hf & Hl) & Hcal). cbn [fst snd] in *.
  destruct (extract_chain o m s f l Hs Hf Hl) as (Hn & Hp & Hpx).
  set (c := Image_clip l (roi B)) in *.
  assert (Hcn : List.map fst (bands c) = ["LST"]).
  { unfold c, Image_clip. cbn [bands]. rewrite List.map_map. exact Hn. }
  destruct (single_band_names c "LST" Hcn) as (b & Hb).
  destruct (calibrated_from_dataset k E c alpha a "LST" b Hb Hcal)
    as (t & e0 & Ht & He0 & _ & Hpa).
  assert (Htm : time_start m = Some t).
  { unfold time_start in Ht |- *. change (properties c) with (properties l) in Ht.
    rewrite Hp, bool_decide_eq_true_2 in Ht by (left; reflexivity). exact Ht. }
  rewrite same_date_raster_first in He0.
  intros p. rewrite Hpa. unfold contribution. cbn [fst snd].
  rewrite Htm. cbn [mbind option_bind]. rewrite He0. cbn [mbind option_bind].
  assert (Hbp : b p = pixel c "LST" p).
  { unfold pixel. rewrite Hb. reflexivity. }
  rewrite Hbp. unfold c. rewrite pixel_Image_clip, Hpx.
  destruct (bool_decide (p ∈ FeatureCollection_geometry (roi B))); [|reflexivity].
  destruct (pixel m (qc_band o) p) as [q|]; [|reflexivity].
  destruct (Z.testbit q 2).
  - destruct (pixel m (lst_band o) p), (pixel e0 (era5_band k) p); reflexivity.
  - destruct (pixel m (lst_band o) p) as [n|]; [|reflexivity].
    destruct (pixel e0 (era5_band k) p); reflexivity.
Qed.

Lemma valid_values_contributions (k : Kind) (B : list Feature) (E : list (Image Q))
    (M : list (Image Z)) (A : list (Image Q)) (p : Pixel) :
  airTemp_pantanal k B E M = Ok A ->
  valid_values A (air_temperature_band k) p = contributions k B E M p.
Proof.
  intros HA. pose proof (calibrated_contributions k B E M A HA) as H.
  unfold valid_values, contributions. clear HA.
  induction H as [|src a S A' Hsa _ IH]; [reflexivity|].
  cbn [omap list_omap]. rewrite (Hsa p), IH. reflexivity.
Qed.

Lemma aggregate_contributions (k : Kind) (B : list Feature) (E : list (Image Q))
    (M : list (Image Z)) (A : list (Image Q)) (p : Pixel) :
  airTemp_pantanal k B E M = Ok A ->
  pixel (aggregate k A) (air_temperature_band k) p = Reducer_of k (contributions k B E M p).
Proof.
  intros HA. rewrite (aggregate_pixel k B E M A p HA).
  rewrite (valid_values_contributions k B E M A p HA). reflexivity.
Qed.

(** The rows of the per-date table, raster by raster. *)
Lemma timeStats_rows (B : list Feature) (E : list (Image Q)) (M : list (Image Z))
    (A : list (Image Q)) (fc : list TimeFeature) :
  airTemp_pantanal_mean B E M = Ok A ->
  statsFC B E M = Ok fc ->
  Forall2 (fun a f =>
             tf_stats f
             = [("air_temperature_mean",
                 Reducer_mean (region_values a "air_temperature_mean" (region_pixels B)))])
    A fc.
Proof.
  intros HA Hfc. unfold statsFC, timeStats in Hfc. rewrite HA in Hfc. simpl in Hfc.
  apply mapM_Ok_Forall2 in Hfc.
  assert (Hnames : Forall (fun a => List.map fst (bands a) = ["air_temperature_mean"]) A).
  { apply Forall_forall. intros a Ha. apply list_elem_of_In in Ha.
    exact (calibrated_names Mean B E M A a HA Ha). }
  clear HA. induction Hfc as [|a f A fc Hf _ IH]; constructor.
  - apply bind_Ok in Hf as (d & Hd & Hf). apply bind_Ok in Hf as (t & _ & [= <-]).
    cbn [tf_stats].
    destruct (single_band_names a _ (Forall_inv Hnames)) as (b & Hb).
    rewrite (reduceRegion_mean_single a _ b _ _ _ Hb) in Hd.
    destruct (_ <? _); [discriminate|]. injection Hd as <-. reflexivity.
  - apply IH. exact (Forall_inv_tail Hnames).
Qed.

(** The regional statistics, from the values of the unrounded mean
    aggregate in the region. *)
Lemma stats_of_series (B : list Feature) (E : list (Image Q)) (M : list (Image Z))
    (sqrtQ : Q -> Q) (A : list (Image Q)) (d : Dictionary) :
  airTemp_pantanal_mean B E M = Ok A ->
  A <> [] ->
  stats B E M sqrtQ = Ok d ->
  let vs := region_values (ImageCollection_mean A) "air_temperature_mean" (region_pixels B) in
  d = [("air_temperature_mean_mean", Reducer_mean vs);
       ("air_temperature_mean_stdDev", Reducer_stdDev sqrtQ vs);
       ("air_temperature_mean_min", Reducer_min vs);
       ("air_temperature_mean_max", Reducer_max vs)].
Proof.
  intros HA Hne Hst vs.
  destruct A as [|a0 A']; [destruct Hne; reflexivity|].
  pose proof (calibrated_names Mean B E M (a0 :: A') a0 HA (or_introl eq_refl)) as Hn.
  apply single_band_names in Hn as (b & Hb).
  destruct (reduce_single_band Reducer_mean a0 A' _ b Hb) as (g & Hg).
  unfold stats in Hst. apply bind_Ok in Hst as (img & Himg & Hst).
  apply fmap_Ok in Himg as (A'' & HA'' & ->).
  rewrite HA in HA''. injection HA'' as <-.
  exact (reduceRegion_stats_single (ImageCollection_mean (a0 :: A'))
           "air_temperature_mean" g (roi B) sqrtQ _ _ d Hg Hst).
Qed.

(** C4, as amended. The mask of the quality filter marks a pixel valid (1)
    exactly when bit 2 of its quality flag is zero, and the filtered pixel
    is masked in every band when the bit is set. Downstream, an observation
    whose flag has bit 2 set at a pixel contributes nothing there; one whose
    flag has bit 2 clear contributes its calibrated value, provided the LST
    band has a digital number there, the pixel lies in the region and the
    reanalysis raster of the same date has a value there. Each raster of the
    three calibrated series holds the contribution of its observation; the
    monthly mean, min and max aggregates, the regional statistics and the
    rows of the per-date table are reduced from the contributions and from
    nothing else. *)
Theorem quality_bit2 (B : list Feature) (E : list (Image Q)) (M : list (Image Z))
    (sqrtQ : Q -> Q) (Amean : list (Image Q)) :
  airTemp_pantanal Mean B E M = Ok Amean ->
  (forall (o : Overpass) (image : Image Z) (p : Pixel) (q : Z),
     pixel image (qc_band o) p = Some q ->
     exists qa out,
       Image_select [qc_band o] image = Ok qa /\
       pixel (Image_eq (Image_bitwiseAnd qa (Z.shiftl 1 2)) 0) (qc_band o) p
       = Some (if Z.testbit q 2 then 0 else 1) /\
       quality_filter o image = Ok out /\
       forall name, pixel out name p = if Z.testbit q 2 then None else pixel image name p) /\
  (forall (k : Kind) (src : Overpass * Image Z) (p : Pixel) (q : Z),
     pixel src.2 (qc_band src.1) p = Some q -> Z.testbit q 2 = true ->
     contribution k B E p src = None) /\
  (forall (k : Kind) (src : Overpass * Image Z) (p : Pixel) (q n t : Z) (e0 : Image Q)
          (kelvin : Q),
     pixel src.2 (qc_band src.1) p = Some q -> Z.testbit q 2 = false ->
     pixel src.2 (lst_band src.1) p = Some n ->
     p ∈ FeatureCollection_geometry (roi B) ->
     time_start src.2 = Some t ->
     same_date_raster E t = Some e0 ->
     pixel e0 (era5_band k) p = Some kelvin ->
     contribution k B E p src
     = Some (spec_rescale n + ((kelvin - 273.15) - spec_rescale n) * 0.6)%Q) /\
  (forall (k : Kind) (A : list (Image Q)),
     airTemp_pantanal k B E M = Ok A ->
     Forall2 (fun (src : Overpass * Image Z) a =>
                forall p, pixel a (air_temperature_band k) p = contribution k B E p src)
       (source_observations M) A /\
     airTemp k B E M = Ok (aggregate k A) /\
     forall p, pixel (aggregate k A) (air_temperature_band k) p
               = Reducer_of k (contributions k B E M p)) /\
  (Amean <> [] ->
   forall d, stats B E M sqrtQ = Ok d ->
     let vs := omap (fun p => Reducer_mean (contributions Mean B E M p)) (region_pixels B) in
     d = [("air_temperature_mean_mean", Reducer_mean vs);
          ("air_temperature_mean_stdDev", Reducer_stdDev sqrtQ vs);
          ("air_temperature_mean_min", Reducer_min vs);
          ("air_temperature_mean_max", Reducer_max vs)]) /\
  (forall fc, statsFC B E M = Ok fc ->
     Forall2 (fun (src : Overpass * Image Z) f =>
                tf_stats f
                = [("air_temperature_mean",
                    Reducer_mean (omap (fun p => contribution Mean B E p src)
                                    (region_pixels B)))])
       (source_observations M) fc).
Proof.
  intros HAmean. split; [|split; [|split; [|split; [|split]]]].
  - intros o image p q Hq.
    destruct (quality_filter_mask o image p q Hq) as (qa & Hqa & Hmask & _).
    destruct (quality_filter_total o image p q Hq) as (out & Hout).
    exists qa, out. split; [exact Hqa|]. split; [exact Hmask|]. split; [exact Hout|].
    apply quality_filter_Ok in Hout as (_ & _ & Hpx).
    intros name. rewrite Hpx, Hq. reflexivity.
  - intros k src p q Hq Hbit. unfold contribution. rewrite Hq, Hbit.
    destruct (bool_decide _); [|reflexivity].
    destruct (pixel src.2 (lst_band src.1) p); [|reflexivity].
    destruct (_ ≫= _); reflexivity.
  - intros k src p q n t e0 kelvin Hq Hbit Hn Hp Ht He0 Hk.
    unfold contribution. rewrite bool_decide_eq_true_2 by exact Hp.
    rewrite Hq, Hn, Ht. cbn [mbind option_bind]. rewrite He0. cbn [mbind option_bind].
    rewrite Hk, Hbit. reflexivity.
  - intros k A HA. split; [exact (calibrated_contributions k B E M A HA)|].
    split; [apply airTemp_aggregate; exists A; split; [exact HA | reflexivity]|].
    intros p. exact (aggregate_contributions k B E M A p HA).
  - intros Hne d Hst vs.
    pose proof (stats_of_series B E M sqrtQ Amean d HAmean Hne Hst) as Hd. cbv zeta in Hd.
    assert (Hvs : region_values (ImageCollection_mean Amean) "air_temperature_mean"
                    (region_pixels B) = vs).
    { unfold region_values, vs. apply omap_pointwise. intros p _.
      exact (aggregate_contributions Mean B E M Amean p HAmean). }
    rewrite Hvs in Hd. exact Hd.
  - intros fc Hfc.
    pose proof (timeStats_rows B E M Amean fc HAmean Hfc) as Hrows.
    pose proof (Forall2_compose _ _ _ _ _ (calibrated_contributions Mean B E M Amean HAmean)
                  Hrows) as H.
    eapply Forall2_impl; [exact H|]. cbv beta.
    intros src f (a & Hsa & Hf). rewrite Hf. do 3 f_equal.
    unfold region_values. apply omap_pointwise. intros p _. exact (Hsa p).
Qed.

Lemma quality_bit2_witness :
  exists A,
    airTemp_pantanal Mean sample_biomas sample_ERA5 sample_MOD11A1 = Ok A /\
    List.map (fun src => Qred <$> contribution Mean sample_biomas sample_ERA5 (0, 0) src)
      (source_observations sample_MOD11A1)
    = [Some (1437 # 50)%Q; None; Some (1357 # 50)%Q; Some (1427 # 50)%Q] /\
    pixel (aggregate Mean A) "air_temperature_mean" (0, 0)
    = Reducer_mean (contributions Mean sample_biomas sample_ERA5 sample_MOD11A1 (0, 0)).
Proof.
  destruct (is_Ok_true (airTemp_pantanal Mean sample_biomas sample_ERA5 sample_MOD11A1))
    as (A & HA); [vm_compute; reflexivity|].
  exists A. split; [exact HA|]. split; [vm_compute; reflexivity|].
  destruct (quality_bit2 sample_biomas sample_ERA5 sample_MOD11A1 sample_sqrt A HA)
    as (_ & _ & _ & Hseries & _).
  destruct (Hseries Mean A HA) as (_ & _ & Hagg). exact (Hagg (0, 0)).
Defined.

(** C4, as stated, fails: a clear bit 2 does not by itself include a pixel.
    With reanalysis rasters that have no data at pixel (0,0), every
    observation of the synthetic run has a digital number there, the pixel
    lies in the region and the first daytime flag is 0, yet the monthly mean
    is masked there; and at pixel (5,5), outside the region, the monthly mean
    of the run with complete reanalysis data is masked as well. *)
Lemma clear_bit_pixel_not_included :
  (exists agg,
     meanAirTemp sample_biomas
       [era5_observation_with_gap jan01 303.15;
        era5_observation_with_gap (jan01 + day_millis) 304.15] sample_MOD11A1 = Ok agg /\
     ((0, 0) ∈ FeatureCollection_geometry (roi sample_biomas)) /\
     pixel (modis_observation jan01 15000 0 14800 0) "QC_Day" (0, 0) = Some 0 /\
     Z.testbit 0 2 = false /\
     pixel (modis_observation jan01 15000 0 14800 0) "LST_Day_1km" (0, 0) = Some 15000 /\
     pixel agg "air_temperature_mean" (0, 0) = None) /\
  (exists agg,
     meanAirTemp sample_biomas sample_ERA5 sample_MOD11A1 = Ok agg /\
     ((5, 5) ∉ FeatureCollection_geometry (roi sample_biomas)) /\
     pixel (modis_observation jan01 15000 0 14800 0) "QC_Day" (5, 5) = Some 0 /\
     pixel (modis_observation jan01 15000 0 14800 0) "LST_Day_1km" (5, 5) = Some 15000 /\
     pixel agg "air_temperature_mean" (5, 5) = None).
Proof.
  split.
  - destruct (is_Ok_and_true
                (meanAirTemp sample_biomas
                   [era5_observation_with_gap jan01 303.15;
                    era5_observation_with_gap (jan01 + day_millis) 304.15] sample_MOD11A1)
                (fun agg => negb (is_valid (pixel agg "air_temperature_mean" (0, 0)))))
      as (agg & Hagg & Hmasked); [vm_compute; reflexivity|].
    exists agg. split; [exact Hagg|].
    split; [apply elem_of_FeatureCollection_geometry; exists pantanal_feature;
            change (roi sample_biomas) with [pantanal_feature];
            split; [left; reflexivity | set_solver]|].
    repeat (split; [reflexivity|]).
    destruct (pixel agg "air_temperature_mean" (0, 0)); [discriminate | reflexivity].
  - destruct (is_Ok_and_true
                (meanAirTemp sample_biomas sample_ERA5 sample_MOD11A1)
                (fun agg => negb (is_valid (pixel agg "air_temperature_mean" (5, 5)))))
      as (agg & Hagg & Hmasked); [vm_compute; reflexivity|].
    exists agg. split; [exact Hagg|].
    split; [vm_compute; discriminate|].
    repeat (split; [reflexivity|]).
    destruct (pixel agg "air_temperature_mean" (5, 5)); [discriminate | reflexivity].
Qed.

(** ** Rounding *)

(** C6. The three exported rasters are the mean, max and min aggregates
    with every valid value replaced by a whole number of degrees at most
    half a degree away, masked where the aggregate is, and nothing else is
    rounded: the three map layers show the aggregates themselves; the
    regional statistics are the mean, the standard deviation, the minimum
    and the maximum of the values that the unrounded mean aggregate has in
    the region; the per-date table holds the regional means of the rasters
    of the calibrated mean series, and the three charts are fed with the
    calibrated series. *)
Theorem rounding_only_for_export (B : list Feature) (E : list (Image Q)) (M : list (Image Z))
    (sqrtQ : Q -> Q) (Amean Amax Amin : list (Image Q)) :
  airTemp_pantanal Mean B E M = Ok Amean ->
  airTemp_pantanal Max B E M = Ok Amax ->
  airTemp_pantanal Min B E M = Ok Amin ->
  Amean <> [] ->
  within_pixel_budget B ->
  let vs := region_values (ImageCollection_mean Amean) "air_temperature_mean"
              (region_pixels B) in
  (exists ex,
     export_tasks B E M = Ok ex /\
     Forall2 (fun task agg =>
                forall name p,
                  match pixel (export_image task) name p, pixel agg name p with
                  | Some r, Some v =>
                      (exists z : Z, r = inject_Z z) /\ (v - (1 # 2) <= r <= v + (1 # 2))%Q
                  | None, None => True
                  | _, _ => False
                  end)
       ex [ImageCollection_mean Amean; ImageCollection_max Amax; ImageCollection_min Amin]) /\
  meanAirTemp B E M = Ok (ImageCollection_mean Amean) /\
  maxAirTemp B E M = Ok (ImageCollection_max Amax) /\
  minAirTemp B E M = Ok (ImageCollection_min Amin) /\
  stats B E M sqrtQ
  = Ok [("air_temperature_mean_mean", Reducer_mean vs);
        ("air_temperature_mean_stdDev", Reducer_stdDev sqrtQ vs);
        ("air_temperature_mean_min", Reducer_min vs);
        ("air_temperature_mean_max", Reducer_max vs)] /\
  (exists fc,
     statsFC B E M = Ok fc /\
     Forall2 (fun a f =>
                tf_stats f
                = [("air_temperature_mean",
                    Reducer_mean (region_values a "air_temperature_mean" (region_pixels B)))])
       Amean fc) /\
  imageCollection <$> chartMean B E M = Ok Amean /\
  imageCollection <$> chartMax B E M = Ok Amax /\
  imageCollection <$> chartMin B E M = Ok Amin.
Proof.
  intros HAmean HAmax HAmin Hne Hbudget vs.
  pose proof (airTemp_Ok_of_series Mean B E M Amean HAmean) as HmeanT.
  pose proof (airTemp_Ok_of_series Max B E M Amax HAmax) as HmaxT.
  pose proof (airTemp_Ok_of_series Min B E M Amin HAmin) as HminT.
  simpl airTemp in HmeanT, HmaxT, HminT. simpl aggregate in HmeanT, HmaxT, HminT.
  simpl airTemp_pantanal in HAmean, HAmax, HAmin.
  assert (Hround : forall img name p,
            match pixel (Image_round img) name p, pixel img name p with
            | Some r, Some v =>
                (exists z : Z, r = inject_Z z) /\ (v - (1 # 2) <= r <= v + (1 # 2))%Q
            | None, None => True
            | _, _ => False
            end).
  { intros img name p. rewrite pixel_Image_round.
    destruct (pixel img name p) as [v|]; simpl; [|exact I].
    destruct (round_half_up_spec v) as (z & Hz & Hb). split; [exists z; exact Hz | exact Hb]. }
  split.
  { exists [ mkExportTask (Image_round (ImageCollection_mean Amean))
               "MeanAirTemp_Pantanal_Jan2020" "GEE"
               (FeatureCollection_geometry (roi B)) 1000 "EPSG:4326" 10000000000000;
             mkExportTask (Image_round (ImageCollection_max Amax))
               "MaxAirTemp_Pantanal_Jan2020" "GEE"
               (FeatureCollection_geometry (roi B)) 1000 "EPSG:4326" 10000000000000;
             mkExportTask (Image_round (ImageCollection_min Amin))
               "MinAirTemp_Pantanal_Jan2020" "GEE"
               (FeatureCollection_geometry (roi B)) 1000 "EPSG:4326" 10000000000000 ].
    split; [unfold export_tasks; rewrite HmeanT, HmaxT, HminT; reflexivity|].
    repeat constructor; intros name p; cbn [export_image]; apply Hround. }
  split; [exact HmeanT|]. split; [exact HmaxT|]. split; [exact HminT|].
  split.
  { destruct (proj1 (reduceRegion_cases (ImageCollection_mean Amean) (stats_reducer sqrtQ) B)
                Hbudget) as (d & Hd).
    assert (Hst : stats B E M sqrtQ = Ok d).
    { unfold stats, meanAirTempImage. rewrite HAmean. exact Hd. }
    rewrite Hst. f_equal. exact (stats_of_series B E M sqrtQ Amean d HAmean Hne Hst). }
  split.
  { destruct (proj1 (timeStats_cases B E M Amean HAmean) Hbudget) as (fc & Hfc).
    exists fc. split; [exact Hfc|]. exact (timeStats_rows B E M Amean fc HAmean Hfc). }
  unfold chartMean, chartMax, chartMin. rewrite HAmean, HAmax, HAmin.
  repeat split.
Qed.

(** On the synthetic run the mean aggregate and the regional mean are 28.14
    degrees; the exported raster holds 28. *)
Lemma rounding_only_for_export_witness :
  exists ex st agg v mu,
    export_tasks sample_biomas sample_ERA5 sample_MOD11A1 = Ok ex /\
    meanAirTemp sample_biomas sample_ERA5 sample_MOD11A1 = Ok agg /\
    stats sample_biomas sample_ERA5 sample_MOD11A1 sample_sqrt = Ok st /\
    pixel agg "air_temperature_mean" (0, 0) = Some v /\
    (v == 28.14)%Q /\
    (forall task, head ex = Some task ->
       pixel (export_image task) "air_temperature_mean" (0, 0) = Some (inject_Z 28)) /\
    head st = Some ("air_temperature_mean_mean", Some mu) /\
    (mu == 28.14)%Q.
Proof.
  destruct (is_Ok_and_true
              (airTemp_pantanal Mean sample_biomas sample_ERA5 sample_MOD11A1)
              (fun A =>
                 negb (Nat.eqb (length A) 0)
                 && match pixel (ImageCollection_mean A) "air_temperature_mean" (0, 0) with
                    | Some v => Qeq_bool v 28.14
                    | None => false
                    end
                 && match Reducer_mean (region_values (ImageCollection_mean A)
                                          "air_temperature_mean" (region_pixels sample_biomas)) with
                    | Some mu => Qeq_bool mu 28.14
                    | None => false
                    end))
    as (Amean & HAmean & Htest); [vm_compute; reflexivity|].
  apply andb_true_iff in Htest as [Htest Hmu]. apply andb_true_iff in Htest as [Hlen Hv].
  destruct (pixel (ImageCollection_mean Amean) "air_temperature_mean" (0, 0)) as [v|] eqn:Hpx;
    [|discriminate].
  apply Qeq_bool_iff in Hv.
  destruct (Reducer_mean (region_values (ImageCollection_mean Amean) "air_temperature_mean"
                            (region_pixels sample_biomas))) as [mu|] eqn:Hmean;
    [|discriminate].
  apply Qeq_bool_iff in Hmu.
  destruct (is_Ok_true (airTemp_pantanal Max sample_biomas sample_ERA5 sample_MOD11A1))
    as (Amax & HAmax); [vm_compute; reflexivity|].
  destruct (is_Ok_true (airTemp_pantanal Min sample_biomas sample_ERA5 sample_MOD11A1))
    as (Amin & HAmin); [vm_compute; reflexivity|].
  assert (Hne : Amean <> []) by (intros Hnil; rewrite Hnil in Hlen; discriminate Hlen).
  assert (Hbudget : within_pixel_budget sample_biomas)
    by (unfold within_pixel_budget; vm_compute; discriminate).
  destruct (rounding_only_for_export sample_biomas sample_ERA5 sample_MOD11A1 sample_sqrt
              Amean Amax Amin HAmean HAmax HAmin Hne Hbudget)
    as ((ex & Hex & Hround) & Hagg & _ & _ & Hst & _).
  cbv zeta in Hst. rewrite Hmean in Hst.
  exists ex. eexists. exists (ImageCollection_mean Amean), v, mu.
  split; [exact Hex|]. split; [exact Hagg|]. split; [exact Hst|].
  split; [exact Hpx|]. split; [exact Hv|].
  split; [|split; [reflexivity | exact Hmu]].
  intros task Htask. inversion Hround as [|t0 a0 ? ? Ht0 _]; subst.
  injection Htask as <-. specialize (Ht0 "air_temperature_mean" (0, 0)).
  rewrite Hpx in Ht0.
  destruct (pixel (export_image t0) "air_temperature_mean" (0, 0)) as [r|]; [|destruct Ht0].
  destruct Ht0 as [(z & ->) [Hlo Hhi]]. do 2 f_equal.
  assert (H27 : (inject_Z 27 < inject_Z z)%Q) by (change (inject_Z 27) with 27%Q; lra).
  assert (H29 : (inject_Z z < inject_Z 29)%Q) by (change (inject_Z 29) with 29%Q; lra).
  rewrite <- Zlt_Qlt in H27, H29. lia.
Defined.
